(** * GSP_L2 teaching notebooks: a shallow embedding and its properties

  The repository is a set of Jupyter notebooks (vector data I/O, file
  paths, GeoPandas processing, coordinate reference systems).  Every
  code cell is translated below into a computation of a small
  state-and-exception monad; the calls into pathlib, shapely, pandas
  and geopandas are modelled by the functions of the modules
  [pathlib], [shapely] and [pandas], and what cannot be read off the
  notebooks (IEEE arithmetic, GEOS, the text renderings of values) is
  a field of the classes [Float64] and [Externals]. *)

From stdpp Require Import base option list gmap strings pretty sorting.
From Stdlib Require Import ZArith Ascii.

(** ** Python exceptions and results *)

Inductive error :=
  | KeyError (key : string)
  | AttributeError (attr : string)
  | DimensionError
  | TypeError
  | ValueError
  | FileNotFoundError
  | HTTPError
  | SchemaError
  | LibraryError (code : nat).

Inductive result (A : Type) :=
  | Ok (a : A)
  | Raise (e : error).
Arguments Ok {A} a.
Arguments Raise {A} e.

Global Instance result_ret : MRet result := @Ok.
Global Instance result_bind : MBind result := λ A B k r,
  match r with Ok a => k a | Raise e => Raise e end.

(** [map_result f l] applies [f] from left to right and stops at the
    first exception, as a Python loop or [Series.apply] does. *)
Fixpoint map_result {A B} (f : A → result B) (l : list A) : result (list B) :=
  match l with
  | [] => Ok []
  | x :: l' => y ← f x; ys ← map_result f l'; Ok (y :: ys)
  end.

(** ** pathlib: pure POSIX paths *)

Module pathlib.

(** The anchor of a path: none (relative), "/" or the POSIX special
    case of exactly two leading slashes. *)
Inductive root := Relative | Slash | DoubleSlash.

Record PurePath := mkPath { anchor : root; parts : list string }.

Definition is_sep (c : ascii) : bool := Ascii.eqb c "/"%char.

Fixpoint split_sep (s : string) : list string :=
  match s with
  | EmptyString => [""]
  | String c s' =>
      if is_sep c then "" :: split_sep s'
      else match split_sep s' with
           | [] => [String c ""]
           | h :: t => String c h :: t
           end
  end.

Fixpoint leading_seps (s : string) : nat :=
  match s with
  | String c s' => if is_sep c then S (leading_seps s') else O
  | EmptyString => O
  end.

Definition splitroot (s : string) : root :=
  match leading_seps s with
  | O => Relative
  | 2%nat => DoubleSlash
  | _ => Slash
  end.

Definition parse_parts (s : string) : list string :=
  filter (λ p, p ≠ "" ∧ p ≠ ".") (split_sep s).

(** [pathlib.Path(s)] *)
Definition Path (s : string) : PurePath := mkPath (splitroot s) (parse_parts s).

(** [pathlib.Path()] *)
Definition Path0 : PurePath := Path ".".

Definition is_absolute (p : PurePath) : bool :=
  match anchor p with Relative => false | _ => true end.

Definition joinpath (p q : PurePath) : PurePath :=
  if is_absolute q then q else mkPath (anchor p) (parts p ++ parts q).

(** [p / key] with [key] a string *)
Definition truediv (p : PurePath) (key : string) : PurePath := joinpath p (Path key).

(** [p.parent] *)
Definition parent (p : PurePath) : PurePath :=
  match parts p with
  | [] => p
  | _ => mkPath (anchor p) (removelast (parts p))
  end.

(** [p.name] *)
Definition name (p : PurePath) : string := List.last (parts p) "".

(** [str(p)] *)
Definition anchor_str (r : root) : string :=
  match r with Relative => "" | Slash => "/" | DoubleSlash => "//" end.

Fixpoint join_sep (ps : list string) : string :=
  match ps with
  | [] => ""
  | [p] => p
  | p :: ps' => p +:+ "/" +:+ join_sep ps'
  end.

Definition render (p : PurePath) : string :=
  match anchor p, parts p with
  | Relative, [] => "."
  | a, ps => anchor_str a +:+ join_sep ps
  end.

(** [os.path.normpath] on the parts of a path: ".." steps back *)
Fixpoint collapse (seen : list string) (ps : list string) : list string :=
  match ps with
  | [] => reverse seen
  | p :: ps' =>
      if String.eqb p ".." then collapse (tail seen) ps' else collapse (p :: seen) ps'
  end.

Definition normpath (p : PurePath) : PurePath := mkPath (anchor p) (collapse [] (parts p)).

Global Instance root_eq_dec : EqDecision root.
Proof. solve_decision. Defined.

Global Instance PurePath_eq_dec : EqDecision PurePath.
Proof. solve_decision. Defined.

Definition root_to_nat (r : root) : nat :=
  match r with Relative => 0 | Slash => 1 | DoubleSlash => 2 end.
Definition root_of_nat (n : nat) : root :=
  match n with O => Relative | 1%nat => Slash | _ => DoubleSlash end.

Global Instance root_countable : Countable root.
Proof. by apply (inj_countable' root_to_nat root_of_nat); intros []. Defined.

Global Instance PurePath_countable : Countable PurePath.
Proof.
  by apply (inj_countable' (λ p, (anchor p, parts p)) (λ '(a, ps), mkPath a ps)); intros [].
Defined.

End pathlib.

Declare Scope path_scope.
Delimit Scope path_scope with path.
Infix "/" := pathlib.truediv : path_scope.
Bind Scope path_scope with pathlib.PurePath.

(** ** Numbers

  Coordinates, areas and float columns are IEEE doubles in Python.
  The notebooks only move them around, compare them and add them up,
  so the number type and its operations are an interface. *)

Class Float64 := {
  float : Type;
  float_eq_dec :: EqDecision float;
  fzero : float;
  fadd : float → float → float;
  float_of_Z : Z → float;
  float_leb : float → float → bool;
}.

(** ** shapely: geometries *)

Module shapely.
Section geometry.
Context `{Float64}.

Inductive geometry :=
  | Point (x y : float) (z : option float)
  | LineString (coords : list (float * float))
  | Polygon (shell : list (float * float)) (holes : list (list (float * float))).

Global Instance geometry_eq_dec : EqDecision geometry.
Proof. solve_decision. Defined.

(** [geom.has_z] *)
Definition has_z (geom : geometry) : bool :=
  match geom with
  | Point _ _ (Some _) => true
  | _ => false
  end.

(** [geom.x], [geom.y], [geom.z]: only points have them, and [z]
    only when the point is three-dimensional. *)
Definition get_x (geom : geometry) : result float :=
  match geom with
  | Point x _ _ => Ok x
  | _ => Raise (AttributeError "x")
  end.

Definition get_y (geom : geometry) : result float :=
  match geom with
  | Point _ y _ => Ok y
  | _ => Raise (AttributeError "y")
  end.

Definition get_z (geom : geometry) : result float :=
  match geom with
  | Point _ _ (Some z) => Ok z
  | Point _ _ None => Raise DimensionError
  | _ => Raise (AttributeError "z")
  end.

(** [Point(a, b)] and [Point(a, b, c)] *)
Definition Point2 (a b : float) : geometry := Point a b None.
Definition Point3 (a b c : float) : geometry := Point a b (Some c).

End geometry.
End shapely.

(** ** What the notebooks take from GEOS, pyproj and Python's formatting *)

Class Externals `{Float64} := {
  (** [geom.area] *)
  geom_area : shapely.geometry → float;
  (** [str(geom)], [str(x)], [format(x, "0.1f")] and [round(x)] *)
  wkt : shapely.geometry → string;
  str_float : float → string;
  format_1f : float → string;
  round_float : float → Z;
  (** [pyproj.CRS] objects and their descriptors *)
  CRS : Type;
  CRS_from_user_input : string → result CRS;
  CRS_from_crs : CRS → result CRS;
  crs_equal : CRS → CRS → bool;
  to_proj4 : CRS → string;
  to_wkt : CRS → string;
  to_epsg : CRS → option Z;
  crs_name : CRS → string;
  (** the coordinate transformation behind [to_crs] *)
  transform : CRS → CRS → shapely.geometry → shapely.geometry;
}.

(** ** pandas and geopandas: data frames

  A [DataFrame] holds its column labels, its rows (each with its
  index label, and held as the [Series] that [iterrows] yields: an
  association from column label to value) and, for a GeoDataFrame, the
  coordinate reference system.  Missing values ([None], [NaN]) are the
  one cell [NaN].  Index labels are integers, as [read_file] produces
  them (a [RangeIndex]); a lookup by label takes the first row with
  that label. *)

Module pandas.
Section frames.
Context `{Externals}.
Import shapely.

Inductive cell :=
  | NaN
  | Int (n : Z)
  | Float (a : float)
  | Str (s : string)
  | Geom (g : geometry).

Global Instance cell_eq_dec : EqDecision cell.
Proof. solve_decision. Defined.

Definition label := Z.
Definition Row := list (string * cell).
Definition Series (I : Type) := list (I * cell).

Record DataFrame := mkFrame {
    columns : list string;
    rows : list (label * Row);
    crs : option CRS;
  }.

Definition index (df : DataFrame) : list label := (rows df).*1.

(** [str(c)], as an f-string renders a value *)
Definition str (c : cell) : string :=
  match c with
  | NaN => "nan"
  | Int n => pretty n
  | Float a => str_float a
  | Str s => s
  | Geom g => wkt g
  end.

Definition notna (c : cell) : Prop := c ≠ NaN.

(** [row[key]] and the update of one entry of a row *)
Fixpoint row_get (key : string) (row : Row) : option cell :=
  match row with
  | [] => None
  | (k, v) :: row' => if decide (k = key) then Some v else row_get key row'
  end.

Fixpoint row_set (key : string) (v : cell) (row : Row) : Row :=
  match row with
  | [] => [(key, v)]
  | (k, v') :: row' =>
      if decide (k = key) then (key, v) :: row' else (k, v') :: row_set key v row'
  end.

Definition row_getitem (row : Row) (key : string) : result cell :=
  match row_get key row with
  | Some v => Ok v
  | None => Raise (KeyError key)
  end.

Definition value (key : string) (row : Row) : cell := default NaN (row_get key row).

(** [df[name]]: one column as a Series *)
Definition getitem (df : DataFrame) (name : string) : result (Series label) :=
  if decide (name ∈ columns df)
  then Ok (List.map (λ r, (r.1, value name r.2)) (rows df))
  else Raise (KeyError name).

(** [df.name] for a column label that is not an attribute of the class *)
Definition getattr (df : DataFrame) (name : string) : result (Series label) :=
  if decide (name ∈ columns df)
  then getitem df name
  else Raise (AttributeError name).

(** [df[[n1, n2, ...]]]: a new frame with the listed columns *)
Definition getitem_list (df : DataFrame) (names : list string) : result DataFrame :=
  match List.find (λ n, bool_decide (n ∉ columns df)) names with
  | Some n => Raise (KeyError n)
  | None =>
      Ok (mkFrame names
            (List.map (λ r, (r.1, List.map (λ n, (n, value n r.2)) names)) (rows df))
            (crs df))
  end.

(** [df.rename(columns=mapper)]: a new frame; labels that the mapper
    does not mention stay, entries for absent labels are ignored *)
Definition rename_label (mapper : list (string * string)) (k : string) : string :=
  default k (snd <$> List.find (λ e, bool_decide (e.1 = k)) mapper).

Definition rename (df : DataFrame) (mapper : list (string * string)) : DataFrame :=
  mkFrame (List.map (rename_label mapper) (columns df))
          (List.map (λ r, (r.1, List.map (λ e, (rename_label mapper e.1, e.2)) r.2)) (rows df))
          (crs df).

(** [df[:n]] and [df.iterrows()] *)
Definition slice_to (df : DataFrame) (n : nat) : DataFrame :=
  mkFrame (columns df) (take n (rows df)) (crs df).

Definition iterrows (df : DataFrame) : list (label * Row) := rows df.

(** [s[i]] on a Series with an integer index, and [df.at[i, name]] *)
Definition series_getitem {I} `{EqDecision I} (s : Series I) (i : I) : result cell :=
  match List.find (λ e, bool_decide (e.1 = i)) s with
  | Some e => Ok e.2
  | None => Raise (KeyError "index")
  end.

Definition at_ (df : DataFrame) (i : label) (name : string) : result cell :=
  s ← getitem df name; series_getitem s i.

(** [geom.area] on a cell: a missing geometry has no attributes *)
Definition cell_area (c : cell) : result float :=
  match c with
  | Geom g => Ok (geom_area g)
  | _ => Raise (AttributeError "area")
  end.

(** [df.area] of a GeoDataFrame: the area of every row's geometry,
    [NaN] where the geometry is missing *)
Definition area_or_nan (c : cell) : cell :=
  match c with
  | Geom g => Float (geom_area g)
  | _ => NaN
  end.

Definition area (df : DataFrame) : result (Series label) :=
  if decide ("geometry" ∈ columns df)
  then Ok (List.map (λ r, (r.1, area_or_nan (value "geometry" r.2))) (rows df))
  else Raise (AttributeError "geometry").

(** [df[name] = s]: the values are taken in order when the Series
    has the index of the frame, and aligned by label otherwise *)
Definition aligned (df : DataFrame) (s : Series label) : list cell :=
  if decide (s.*1 = index df) then s.*2
  else List.map (λ i, default NaN (snd <$> List.find (λ e, bool_decide (e.1 = i)) s)) (index df).

Definition setitem (df : DataFrame) (name : string) (s : Series label) : DataFrame :=
  mkFrame (if decide (name ∈ columns df) then columns df else columns df ++ [name])
          (zip_with (λ r v, (r.1, row_set name v r.2)) (rows df) (aligned df s))
          (crs df).

(** [s == n] with [n] an integer literal *)
Definition eq_int (c : cell) (n : Z) : bool :=
  match c with
  | Int m => bool_decide (m = n)
  | Float a => bool_decide (a = float_of_Z n)
  | _ => false
  end.

Definition series_eq (s : Series label) (n : Z) : list (label * bool) :=
  List.map (λ e, (e.1, eq_int e.2 n)) s.

(** [df[mask]] with a boolean Series: a new frame with the rows
    where the mask holds *)
Definition mask_values (df : DataFrame) (mask : list (label * bool)) : list bool :=
  if decide (mask.*1 = index df) then mask.*2
  else List.map (λ i, default false (snd <$> List.find (λ e, bool_decide (e.1 = i)) mask)) (index df).

Definition getitem_mask (df : DataFrame) (mask : list (label * bool)) : DataFrame :=
  mkFrame (columns df)
          ((filter (λ rb, rb.2 = true) (zip (rows df) (mask_values df mask))).*1)
          (crs df).

(** [s.unique()]: the values in order of first appearance *)
Definition unique (l : list cell) : list cell := reverse (remove_dups (reverse l)).

(** The order in which [groupby] (with its default [sort=True])
    lists the keys: numbers, then strings. *)
Definition rank (c : cell) : nat :=
  match c with NaN => 0 | Int _ | Float _ => 1 | Str _ => 2 | Geom _ => 3 end.

Definition cell_leb (c1 c2 : cell) : bool :=
  match c1, c2 with
  | Int m, Int n => bool_decide (m ≤ n)%Z
  | Int m, Float b => float_leb (float_of_Z m) b
  | Float a, Int n => float_leb a (float_of_Z n)
  | Float a, Float b => float_leb a b
  | Str s, Str t => String.leb s t
  | _, _ => bool_decide (rank c1 ≤ rank c2)
  end.

Definition cell_le (c1 c2 : cell) : Prop := cell_leb c1 c2 = true.

Global Instance cell_le_dec : RelDecision cell_le.
Proof. intros c1 c2. unfold cell_le. apply _. Defined.

(** [df.groupby(by)] with the defaults [sort=True], [dropna=True]:
    the keys are the distinct values of the column that are not
    missing, in sorted order, and each group is the sub-frame of the
    rows with that key, with their index labels. *)
Definition group_keys (by_ : string) (df : DataFrame) : list cell :=
  merge_sort cell_le
    (unique (filter (λ c, c ≠ NaN) (List.map (λ r, value by_ r.2) (rows df)))).

Definition get_group_frame (by_ : string) (df : DataFrame) (key : cell) : DataFrame :=
  mkFrame (columns df)
          (filter (λ r, value by_ r.2 = key) (rows df))
          (crs df).

Record DataFrameGroupBy := mkGroupBy {
    obj : DataFrame;
    by_column : string;
  }.

Definition groupby (df : DataFrame) (by_ : string) : result DataFrameGroupBy :=
  if decide (by_ ∈ columns df) then Ok (mkGroupBy df by_) else Raise (KeyError by_).

(** iterating a GroupBy: the pairs [(key, group)] *)
Definition groups (g : DataFrameGroupBy) : list (cell * DataFrame) :=
  List.map (λ k, (k, get_group_frame (by_column g) (obj g) k))
           (group_keys (by_column g) (obj g)).

(** [g.groups]: key to index labels *)
Definition groups_dict (g : DataFrameGroupBy) : list (cell * list label) :=
  List.map (λ kg, (kg.1, index kg.2)) (groups g).

(** [g.get_group(key)] *)
Definition get_group (g : DataFrameGroupBy) (key : cell) : result DataFrame :=
  if decide (key ∈ group_keys (by_column g) (obj g))
  then Ok (get_group_frame (by_column g) (obj g) key)
  else Raise (KeyError (str key)).

(** [g.name] on a GroupBy selects the column [name] in every group;
    a GroupBy has no [area] property of its own. *)
Definition groupby_getattr (g : DataFrameGroupBy) (name : string)
  : result (list (cell * Series label)) :=
  if decide (name ∈ columns (obj g))
  then Ok (List.map (λ kg, (kg.1, List.map (λ r, (r.1, value name r.2)) (rows kg.2))) (groups g))
  else Raise (AttributeError name).

(** [.sum()] of a float column, missing values skipped *)
Definition nansum (s : list cell) : float :=
  fold_left (λ acc c, match c with Float a => fadd acc a | _ => acc end) s fzero.

Definition groupby_sum (sg : list (cell * Series label)) : Series cell :=
  List.map (λ ks, (ks.1, Float (nansum ks.2.*2))) sg.

(** [data.set_crs(c)] (a new frame; a frame that has another CRS
    already refuses) and [data.to_crs(c)] *)
Definition set_crs (df : DataFrame) (c : CRS) : result DataFrame :=
  match crs df with
  | None => Ok (mkFrame (columns df) (rows df) (Some c))
  | Some c0 => if crs_equal c0 c then Ok df else Raise ValueError
  end.

Definition transform_cell (src dst : CRS) (c : cell) : cell :=
  match c with Geom g => Geom (transform src dst g) | _ => c end.

Definition to_crs (df : DataFrame) (c : CRS) : result DataFrame :=
  match crs df with
  | None => Raise ValueError
  | Some c0 =>
      Ok (mkFrame (columns df)
            (List.map (λ r, (r.1, List.map (λ e,
                (e.1, if decide (e.1 = "geometry") then transform_cell c0 c e.2 else e.2)) r.2))
               (rows df))
            (Some c))
  end.

(** [format(c, "0.1f")] of a cell *)
Definition format_cell_1f (c : cell) : result string :=
  match c with
  | Float a => Ok (format_1f a)
  | Int n => Ok (format_1f (float_of_Z n))
  | NaN => Ok "nan"
  | Str _ => Raise ValueError
  | Geom _ => Raise TypeError
  end.

(** the index that [read_file] gives a frame: 0, 1, 2, ... *)
Definition reset_index (df : DataFrame) : DataFrame :=
  mkFrame (columns df)
          (zip_with (λ i r, (Z.of_nat i, r.2)) (seq 0 (length (rows df))) (rows df))
          (crs df).

(** [s.apply(func)]: [func] on every value, in order *)
Definition apply {I} (s : Series I) (func : cell → result cell) : result (Series I) :=
  map_result (λ e, v ← func e.2; Ok (e.1, v)) s.

(** What the GeoPackage driver asks of a frame.  The driver keeps its
    feature ids in a column called "fid"; a column of the frame with
    that name, in whatever case, has to hold integers, or the layer is
    refused ("SchemaError: Wrong field type for FID", as the notebook
    has it for the NUTS layer, whose FID column holds text).  The
    other drivers put no condition on the columns. *)
Definition is_fid (name : string) : bool :=
  bool_decide (name ∈ ["fid"; "fiD"; "fId"; "fID"; "Fid"; "FiD"; "FId"; "FID"]).

Definition is_Int (c : cell) : bool :=
  match c with Int _ => true | _ => false end.

Definition wrong_fid (df : DataFrame) : bool :=
  existsb (λ name, is_fid name && negb (forallb (λ r, is_Int (value name r.2)) (rows df)))
          (columns df).

Definition check_schema (driver : option string) (df : DataFrame) : result unit :=
  match driver with
  | Some d =>
      if decide (d = "GPKG")
      then if wrong_fid df then Raise SchemaError else Ok tt
      else Ok tt
  | None => Ok tt
  end.

End frames.
End pandas.

(** ** The notebook kernel

  A run threads a [world]: the working directory, the data frame
  objects created so far (a frame bound to a notebook variable is
  the position of its object in [heap]), the files on disk and the
  library calls issued so far.  What lies outside the program is an
  [environment]: which library call fails and with what, and what
  the network serves.

  [disk] holds the files that the notebooks name, each under the
  path it is written to or read from.  What a driver keeps beside
  such a file in the same directory (the .shx, .dbf and .prj of a
  shapefile, the .gfs that OGR derives from a GML file it reads) has
  no entry of its own: a data set is the entry of its main file.
  Where a run writes a data set or reads a GML file, a statement
  below about the files it leaves alone is therefore about other
  directories only. *)

Module kernel.
Import pathlib shapely pandas.

(** a file argument: a string or a [Path] object *)
Inductive target :=
  | str_arg (s : string)
  | path_arg (p : PurePath).

Global Instance target_eq_dec : EqDecision target.
Proof. solve_decision. Defined.

Inductive kind :=
  | k_path | k_read | k_property | k_method | k_plot | k_print
  | k_write | k_network | k_file.

Section kernel.
Context `{Externals}.

Inductive file :=
  | VectorFile (df : DataFrame)
  | RawFile (data : string)
  | CsvFile (s : Series cell).

Inductive call :=
  | resolve (p : PurePath)
  | path_query (name : string) (p : PurePath)
  | os_path (name : string) (arg : string)
  | read_file (src : target)
  | to_file (dst : target) (driver : option string) (content : DataFrame)
  | to_csv (dst : target) (content : Series cell)
  | plot
  | attribute (name : string)
  | method (name : string)
  | print (line : string)
  | WebFeatureService (url version : string)
  | getfeature (typename outputFormat : string)
  | response_read
  | open_ (name mode : string)
  | write (data : string)
  | close.

Definition kind_of (c : call) : kind :=
  match c with
  | resolve _ | path_query _ _ | os_path _ _ => k_path
  | read_file _ => k_read
  | to_file _ _ _ | to_csv _ _ => k_write
  | plot => k_plot
  | attribute _ => k_property
  | method _ => k_method
  | print _ => k_print
  | WebFeatureService _ _ | getfeature _ _ | response_read => k_network
  | open_ _ _ | write _ | close => k_file
  end.

Record world := mkWorld {
    cwd : PurePath;
    heap : list DataFrame;
    disk : gmap PurePath file;
    trace : list call;
  }.

Record environment := mkEnv {
    (** [fault n = Some e]: the library call number [n] of the run raises [e] *)
    fault : nat → option error;
    (** the vector data set behind a URL *)
    http_vector : string → option DataFrame;
    (** the body of a WFS GetFeature response: url, type name, format *)
    wfs_feature : string → string → string → string;
    (** OGR's reading of a GML document *)
    ogr_gml : string → result DataFrame;
  }.

Context (E : environment).

Definition M (A : Type) : Type := world → result A * world.

Global Instance M_ret : MRet M := λ A a w, (Ok a, w).
Global Instance M_bind : MBind M := λ A B k m w,
  match m w with
  | (Ok a, w') => k a w'
  | (Raise e, w') => (Raise e, w')
  end.

(** an exception of a pure library function *)
Definition lift {A} (r : result A) : M A := λ w, (r, w).

(** every library call is recorded, and fails when the environment says so *)
Definition emit (c : call) : M unit := λ w,
  let w' := mkWorld (cwd w) (heap w) (disk w) (trace w ++ [c]) in
  match fault E (length (trace w)) with
  | Some e => (Raise e, w')
  | None => (Ok tt, w')
  end.

(** a new object; the objects already there are untouched *)
Definition new (df : DataFrame) : M nat := λ w,
  (Ok (length (heap w)), mkWorld (cwd w) (heap w ++ [df]) (disk w) (trace w)).

Definition load (l : nat) : M DataFrame := λ w,
  match heap w !! l with
  | Some df => (Ok df, w)
  | None => (Raise (KeyError "object"), w)
  end.

(** mutation in place *)
Definition store (l : nat) (df : DataFrame) : M unit := λ w,
  (Ok tt, mkWorld (cwd w) (<[l := df]> (heap w)) (disk w) (trace w)).

Definition get_cwd : M PurePath := λ w, (Ok (cwd w), w).

Definition put_file (p : PurePath) (f : file) : M unit := λ w,
  (Ok tt, mkWorld (cwd w) (heap w) (<[p := f]> (disk w)) (trace w)).

Definition get_file (p : PurePath) : M (option file) := λ w, (Ok (disk w !! p), w).

Fixpoint for_each {A} (l : list A) (body : A → M unit) : M unit :=
  match l with
  | [] => mret tt
  | x :: l' => body x ;; for_each l' body
  end.

(** [s.apply(func)] with a function that calls into the libraries
    itself: [func] runs once for every value, in order, and the first
    exception ends the call *)
Fixpoint Series_apply {I} (s : Series I) (func : cell → M cell) : M (Series I) :=
  match s with
  | [] => mret []
  | e :: s' => v ← func e.2; vs ← Series_apply s' func; mret ((e.1, v) :: vs)
  end.

Definition is_url (s : string) : bool :=
  String.prefix "http://" s || String.prefix "https://" s.

(** where a file argument points: strings and relative paths are
    taken from the working directory *)
Definition as_path (t : target) : PurePath :=
  match t with str_arg s => Path s | path_arg p => p end.

Definition locate (t : target) : M PurePath :=
  d ← get_cwd; mret (joinpath d (as_path t)).

(** *** The library calls of the notebooks *)

(** [p.resolve()] *)
Definition Path_resolve (p : PurePath) : M PurePath :=
  emit (resolve p);; d ← get_cwd; mret (joinpath d p).

Definition Path_exists (p : PurePath) : M bool :=
  emit (path_query "exists" p);; mret true.

Definition Path_is_dir (p : PurePath) : M bool :=
  emit (path_query "is_dir" p);; mret true.

(** [geopandas.read_file(src)] *)
Definition fetch (src : target) : M DataFrame :=
  match src with
  | str_arg s =>
      if is_url s
      then lift (match http_vector E s with Some df => Ok df | None => Raise HTTPError end)
      else p ← locate src; f ← get_file p;
           lift (match f with
                 | Some (VectorFile df) => Ok df
                 | Some (RawFile data) => ogr_gml E data
                 | Some (CsvFile _) => Raise ValueError
                 | None => Raise FileNotFoundError
                 end)
  | path_arg _ =>
      p ← locate src; f ← get_file p;
      lift (match f with
            | Some (VectorFile df) => Ok df
            | Some (RawFile data) => ogr_gml E data
            | Some (CsvFile _) => Raise ValueError
            | None => Raise FileNotFoundError
            end)
  end.

(** The decoded layer becomes a new object.  Of the file system the
    call touches no entry of [disk]: the index that OGR leaves beside
    a GML file it has read (its .gfs, in the same directory) is one of
    the companion files that [disk] does not hold. *)
Definition geopandas_read_file (src : target) : M nat :=
  emit (read_file src);; df ← fetch src; new (reset_index df).

(** [df.to_file(dst, driver=...)] and [s.to_csv(dst)].  A schema that
    the driver refuses ends the call with the driver's error; the
    frame is stored under the path only when the call succeeds.
    Without a driver the format follows the file name; the names that
    the notebooks write without a driver all end in ".shp".  The entry
    under the path stands for the data set as a whole: the .shx, .dbf
    and .prj that the shapefile driver writes beside a .shp, in the
    same directory, are companion files that [disk] does not hold. *)
Definition DataFrame_to_file (df : DataFrame) (dst : target) (driver : option string) : M unit :=
  emit (to_file dst driver df);;
  lift (check_schema driver df);;
  p ← locate dst; put_file p (VectorFile df).

Definition Series_to_csv (s : Series cell) (dst : target) : M unit :=
  emit (to_csv dst s);; p ← locate dst; put_file p (CsvFile s).

Definition DataFrame_plot (l : nat) : M unit := load l;; emit plot.

Definition DataFrame_head (l : nat) (n : nat) : M DataFrame :=
  df ← load l; emit (method "head");; mret (slice_to df n).

Definition builtin_print (line : string) : M unit := emit (print line).

(** [owslib.wfs.WebFeatureService(url, version=...)], [wfs.getfeature(...)]
    and [response.read()]; the service object is its URL and the
    response the request that produced it *)
Definition WebFeatureService_ (url version : string) : M string :=
  emit (WebFeatureService url version);; mret url.

Definition wfs_getfeature (wfs typename outputFormat : string) : M (string * string * string) :=
  emit (getfeature typename outputFormat);; mret (wfs, typename, outputFormat).

Definition response_read_ (response : string * string * string) : M string :=
  emit response_read;;
  mret (wfs_feature E response.1.1 response.1.2 response.2).

(** [with open(name, mode) as f: body]: the file is created empty, and
    closed when the body ends, also when it ends in an exception, which
    then goes on to the caller *)
Definition record (c : call) (w : world) : world :=
  mkWorld (cwd w) (heap w) (disk w) (trace w ++ [c]).

Definition finally {A} (m : M A) (cleanup : world → world) : M A := λ w,
  let rw := m w in (rw.1, cleanup rw.2).

Definition with_open {A} (name mode : string) (body : PurePath → M A) : M A :=
  emit (open_ name mode);;
  f ← locate (str_arg name);
  put_file f (RawFile "");;
  finally (body f) (record close).

(** [f.write(data)] *)
Definition file_write (f : PurePath) (data : string) : M unit :=
  emit (write data);;
  old ← get_file f;
  put_file f (RawFile (match old with Some (RawFile d) => d +:+ data | _ => data end)).

(** [os.path.abspath(s)], and [os.path.dirname] of such a normalised path *)
Definition os_path_abspath (s : string) : M string :=
  emit (os_path "abspath" s);; d ← get_cwd; mret (render (normpath (joinpath d (Path s)))).

Definition os_path_dirname (s : string) : M string :=
  emit (os_path "dirname" s);; mret (render (parent (Path s))).

End kernel.
End kernel.

(** ** The notebooks

  One definition per code cell, with the notebook variables the cell
  reads as arguments and the ones it binds as result; a notebook is
  its cells in order (Run All: the run stops at the first cell that
  raises). *)

Module notebooks.
Section notebooks.
Context `{Externals} (E : kernel.environment).
Import pathlib shapely pandas kernel.

Abbreviation M := (kernel.M).
Abbreviation emit := (kernel.emit E).

(** *** The cell every notebook starts with

<<
import pathlib
NOTEBOOK_PATH = pathlib.Path().resolve()
DATA_DIRECTORY = NOTEBOOK_PATH / "data"
>> *)
Definition cell_data_directory : M PurePath :=
  NOTEBOOK_PATH ← Path_resolve E Path0;
  let DATA_DIRECTORY := (NOTEBOOK_PATH / "data")%path in
  mret DATA_DIRECTORY.

(** *** Geopandas (L2_3_Geopandas_processing.ipynb, first notebook) *)

(** [data_set = geopandas.read_file(DATA_DIRECTORY / "Landusepolygon.shp"); data_set.plot()] *)
Definition cell_read_landuse (DATA_DIRECTORY : PurePath) : M nat :=
  data_set ← geopandas_read_file E (path_arg (DATA_DIRECTORY / "Landusepolygon.shp"));
  DataFrame_plot E data_set;;
  mret data_set.

(** [data_set.columns] *)
Definition cell_columns (data_set : nat) : M (list string) :=
  df ← load data_set; emit (attribute "columns");; mret (columns df).

(** [data_set = data_set[['KKOD', 'KATEGORI', "geometry"]]] *)
Definition cell_select (data_set : nat) : M nat :=
  df ← load data_set;
  emit (method "__getitem__");;
  df' ← lift (getitem_list df ["KKOD"; "KATEGORI"; "geometry"]);
  new df'.

(** [data_set = data_set.rename(columns={"KKOD": "ID_CLASS", "KATEGORI": "CLASS_NAME"})] *)
Definition cell_rename (data_set : nat) : M nat :=
  df ← load data_set;
  emit (method "rename");;
  new (rename df [("KKOD", "ID_CLASS"); ("KATEGORI", "CLASS_NAME")]).

(** [data_set.geometry.head()] *)
Definition cell_geometry_head (data_set : nat) : M (Series label) :=
  df ← load data_set;
  emit (attribute "geometry");;
  s ← lift (match getitem df "geometry" with
            | Ok s => Ok s
            | Raise _ => Raise (AttributeError "geometry")
            end);
  emit (method "head");;
  mret (take 5 s).

(** [data_set.at[4, "geometry"]] *)
Definition cell_at (data_set : nat) : M cell :=
  df ← load data_set;
  emit (attribute "at");;
  emit (method "__getitem__");;
  lift (at_ df 4%Z "geometry").

(** [print(f"Area: {round(data_set.at[4, 'geometry'].area)} m².")] *)
Definition cell_print_area (data_set : nat) : M unit :=
  g ← cell_at data_set;
  emit (attribute "area");;
  a ← lift (cell_area g);
  builtin_print E ("Area: " +:+ pretty (round_float a) +:+ " m².").

Definition area_line (index : label) (polygon_area : string) : string :=
  "The polygon in row " +:+ pretty index +:+ " has a surface area of "
    +:+ polygon_area +:+ " m².".

(** the rows that [for index, row in data_set[:5].iterrows()] visits *)
Definition first_rows (data_set : nat) : M (list (label * Row)) :=
  df ← load data_set;
  emit (method "__getitem__");;
  emit (method "iterrows");;
  mret (iterrows (slice_to df 5)).

(**
<<
for index, row in data_set[:5].iterrows():
  polygon_area = row["geometry"].area
  print(f"The polygon in row {index} has a surface area of {polygon_area:0.1f} m².")
>> *)
Definition print_row_area (item : label * Row) : M unit :=
  let '(index, row) := item in
  emit (method "__getitem__");;
  g ← lift (row_getitem row "geometry");
  emit (attribute "area");;
  polygon_area ← lift (cell_area g);
  builtin_print E (area_line index (format_1f polygon_area)).

Definition cell_iterrows_area (data_set : nat) : M unit :=
  rs ← first_rows data_set;
  for_each rs print_row_area.

(** [data_set.area], the property of the GeoDataFrame *)
Definition GeoDataFrame_area (data_set : nat) : M (Series label) :=
  df ← load data_set; emit (attribute "area");; lift (area df).

(** [data_set.area[0]] *)
Definition cell_area_0 (data_set : nat) : M cell :=
  s ← GeoDataFrame_area data_set;
  emit (method "__getitem__");;
  lift (series_getitem s 0%Z).

(**
<<
for i, row in data_set[:5].iterrows():
  polygon_area = data_set.area[i]
  print(f"The polygon in row {i} has a surface area of {polygon_area:0.1f} m².")
>> *)
Definition print_frame_area (data_set : nat) (item : label * Row) : M unit :=
  let '(i, row) := item in
  s ← GeoDataFrame_area data_set;
  emit (method "__getitem__");;
  polygon_area ← lift (series_getitem s i);
  line ← lift (format_cell_1f polygon_area);
  builtin_print E (area_line i line).

Definition cell_vectorized_area (data_set : nat) : M unit :=
  rs ← first_rows data_set;
  for_each rs (print_frame_area data_set).

(** [data_set["area"] = data_set.area]: the frame object itself changes *)
Definition cell_area_column (data_set : nat) : M unit :=
  s ← GeoDataFrame_area data_set;
  df ← load data_set;
  emit (method "__setitem__");;
  store data_set (setitem df "area" s).

(** [water_bodies = data_set[data_set.ID_CLASS == 901]] *)
Definition cell_water_bodies (data_set : nat) : M nat :=
  df ← load data_set;
  emit (attribute "ID_CLASS");;
  s ← lift (getattr df "ID_CLASS");
  emit (method "__eq__");;
  let mask := series_eq s 901 in
  emit (method "__getitem__");;
  new (getitem_mask df mask).

(** [water_bodies.to_file(DATA_DIRECTORY / "water_bodies.shp")] *)
Definition cell_save_water_bodies (DATA_DIRECTORY : PurePath) (water_bodies : nat) : M unit :=
  df ← load water_bodies;
  DataFrame_to_file E df (path_arg (DATA_DIRECTORY / "water_bodies.shp")) None.

(** [data_set["CLASS_NAME"].unique()] *)
Definition cell_unique (data_set : nat) : M (list cell) :=
  df ← load data_set;
  emit (method "__getitem__");;
  s ← lift (getitem df "CLASS_NAME");
  emit (method "unique");;
  mret (unique s.*2).

(** [data_set.groupby("CLASS_NAME")] *)
Definition DataFrame_groupby (data_set : nat) (by_ : string) : M DataFrameGroupBy :=
  df ← load data_set;
  emit (method "groupby");;
  lift (groupby df by_).

(** [grouped_data.groups] *)
Definition cell_groups (grouped_data : DataFrameGroupBy) : M (list (cell * list label)) :=
  emit (attribute "groups");; mret (groups_dict grouped_data).

(**
<<
for key, group in grouped_data:
  print(f"Terrain class {key} has {len(group)} rows.")
>> *)
Definition print_group_size (item : cell * DataFrame) : M unit :=
  let '(key, group) := item in
  emit (method "__len__");;
  builtin_print E ("Terrain class " +:+ str key +:+ " has "
                     +:+ pretty (length (rows group)) +:+ " rows.").

Definition cell_count_rows (grouped_data : DataFrameGroupBy) : M unit :=
  emit (method "__iter__");;
  for_each (groups grouped_data) print_group_size.

(** [water_bodies = grouped_data.get_group('Vattenyta'); water_bodies.plot()] *)
Definition cell_get_group (grouped_data : DataFrameGroupBy) : M nat :=
  emit (method "get_group");;
  df ← lift (get_group grouped_data (Str "Vattenyta"));
  water_bodies ← new df;
  DataFrame_plot E water_bodies;;
  mret water_bodies.

(**
<<
for key, group in data_set.groupby("CLASS_NAME"):
  group.to_file(DATA_DIRECTORY / f"LU_{key}.shp")
>> *)
Definition save_group (DATA_DIRECTORY : PurePath) (item : cell * DataFrame) : M unit :=
  let '(key, group) := item in
  DataFrame_to_file E group (path_arg (DATA_DIRECTORY / ("LU_" +:+ str key +:+ ".shp"))) None.

Definition cell_fan_out (DATA_DIRECTORY : PurePath) (data_set : nat) : M unit :=
  g ← DataFrame_groupby data_set "CLASS_NAME";
  emit (method "__iter__");;
  for_each (groups g) (save_group DATA_DIRECTORY).

(** [area_information = data_set.groupby("CLASS_NAME").area.sum()] *)
Definition cell_area_information (data_set : nat) : M (Series cell) :=
  g ← DataFrame_groupby data_set "CLASS_NAME";
  emit (attribute "area");;
  sg ← lift (groupby_getattr g "area");
  emit (method "sum");;
  mret (groupby_sum sg).

(** [area_information.to_csv("data/area_by_LU_class.csv")] *)
Definition cell_area_csv (area_information : Series cell) : M unit :=
  Series_to_csv E area_information (str_arg "data/area_by_LU_class.csv").

Definition geopandas_notebook : M unit :=
  DATA_DIRECTORY ← cell_data_directory;
  data_set ← cell_read_landuse DATA_DIRECTORY;
  DataFrame_head E data_set 5;;
  cell_columns data_set;;
  data_set ← cell_select data_set;
  data_set ← cell_rename data_set;
  DataFrame_head E data_set 5;;
  DataFrame_plot E data_set;;
  cell_geometry_head data_set;;
  cell_at data_set;;
  cell_print_area data_set;;
  cell_iterrows_area data_set;;
  cell_area_0 data_set;;
  cell_vectorized_area data_set;;
  cell_area_column data_set;;
  water_bodies ← cell_water_bodies data_set;
  DataFrame_plot E water_bodies;;
  cell_save_water_bodies DATA_DIRECTORY water_bodies;;
  cell_unique data_set;;
  grouped_data ← DataFrame_groupby data_set "CLASS_NAME";
  cell_groups grouped_data;;
  cell_count_rows grouped_data;;
  water_bodies ← cell_get_group grouped_data;
  cell_fan_out DATA_DIRECTORY data_set;;
  area_information ← cell_area_information data_set;
  cell_area_csv area_information.

(** *** Vector data I/O (first notebook of the second source file) *)

(** [data_set = geopandas.read_file(DATA_DIRECTORY / "UGA_adm1_2011.shp"); data_set.plot()] *)
Definition cell_read_uganda (DATA_DIRECTORY : PurePath) : M nat :=
  data_set ← geopandas_read_file E (path_arg (DATA_DIRECTORY / "UGA_adm1_2011.shp"));
  DataFrame_plot E data_set;;
  mret data_set.

Definition nuts_url : string :=
  "https://gisco-services.ec.europa.eu/distribution/v2/nuts/shp/NUTS_RG_60M_2021_3035.shp.zip".

(** [gdf = geopandas.read_file(url); gdf.head()] *)
Definition cell_read_nuts : M nat :=
  let url := nuts_url in
  gdf ← geopandas_read_file E (str_arg url);
  DataFrame_head E gdf 5;;
  mret gdf.

(** [gdf.to_file('nuts_1.gpkg', driver='GPKG')]: on the layer as the
    Eurostat server delivers it, with text in its column FID, this is
    the cell that raises the SchemaError which the notebook goes on to
    explain *)
Definition cell_write_gpkg (gdf : nat) : M unit :=
  df ← load gdf;
  DataFrame_to_file E df (str_arg "nuts_1.gpkg") (Some "GPKG").

(** [gdf = gdf.rename(columns={'FID': 'FID1'})] *)
Definition cell_rename_fid (gdf : nat) : M nat :=
  df ← load gdf;
  emit (method "rename");;
  new (rename df [("FID", "FID1")]).

(** [output_path = DATA_DIRECTORY / name; gdf.to_file(output_path, driver=...)] *)
Definition cell_write_to (DATA_DIRECTORY : PurePath) (gdf : nat) (name driver : string) : M unit :=
  let output_path := (DATA_DIRECTORY / name)%path in
  df ← load gdf;
  DataFrame_to_file E df (path_arg output_path) (Some driver).

(** The coordinate swap of the WFS cell:
    [lambda geom: Point(geom.y, geom.x, geom.z) if geom.has_z else Point(geom.y, geom.x)] *)
Definition swap_xy (geom : cell) : result cell :=
  match geom with
  | Geom g =>
      if has_z g
      then y ← get_y g; x ← get_x g; z ← get_z g; Ok (Geom (Point3 y x z))
      else y ← get_y g; x ← get_x g; Ok (Geom (Point2 y x))
  | _ => Raise (AttributeError "has_z")
  end.

Definition wfs_url : string :=
  "https://openstreetgs.stockholm.se/geoservice/api/8a5977e3-3c63-446b-90c0-0c079d0bef55/wfs".

(** The same lambda as the kernel runs it on one value of the column.
    Its attribute accesses and the call of [Point] are library calls of
    their own, issued in the order in which Python evaluates the
    expression: the condition, then the arguments from left to right,
    then the call.  [swap_xy] above is the value it computes. *)
Definition lambda_swap (geom : cell) : M cell :=
  emit (attribute "has_z");;
  g ← lift (match geom with Geom g => Ok g | _ => Raise (AttributeError "has_z") end);
  if has_z g
  then (emit (attribute "y");; y ← lift (get_y g);
        emit (attribute "x");; x ← lift (get_x g);
        emit (attribute "z");; z ← lift (get_z g);
        emit (method "Point");; mret (Geom (Point3 y x z)))
  else (emit (attribute "y");; y ← lift (get_y g);
        emit (attribute "x");; x ← lift (get_x g);
        emit (method "Point");; mret (Geom (Point2 y x))).

(** [data["geometry"] = data["geometry"].apply(lambda geom: ...)] *)
Definition cell_swap (data : nat) : M unit :=
  df ← load data;
  emit (method "__getitem__");;
  s ← lift (getitem df "geometry");
  emit (method "apply");;
  s' ← Series_apply s lambda_swap;
  emit (method "__setitem__");;
  store data (setitem df "geometry" s').

(** [data = data.set_crs("EPSG:3011")] *)
Definition cell_set_crs (data : nat) : M nat :=
  df ← load data;
  emit (method "set_crs");;
  c ← lift (CRS_from_user_input "EPSG:3011");
  df' ← lift (set_crs df c);
  new df'.

(**
<<
wfs = WebFeatureService(url, version="1.1.0")
response = wfs.getfeature(typename=layer_name, outputFormat="GML2")
with open("cykelpump_punkt.gml", "wb") as f:
    f.write(response.read())
data = gpd.read_file("cykelpump_punkt.gml")
data = data.set_crs("EPSG:3011")
data["geometry"] = data["geometry"].apply(...)
output_path = DATA_DIRECTORY / "cykelpump_punkt.gpkg"
data.to_file(output_path, driver='GPKG')
>> *)
Definition cell_wfs (DATA_DIRECTORY : PurePath) : M unit :=
  let url := wfs_url in
  let layer_name := "od_gis:Cykelpump_Punkt" in
  wfs ← WebFeatureService_ E url "1.1.0";
  response ← wfs_getfeature E wfs layer_name "GML2";
  with_open E "cykelpump_punkt.gml" "wb" (λ f,
    body ← response_read_ E response; file_write E f body);;
  data ← geopandas_read_file E (str_arg "cykelpump_punkt.gml");
  data ← cell_set_crs data;
  cell_swap data;;
  let output_path := (DATA_DIRECTORY / "cykelpump_punkt.gpkg")%path in
  df ← load data;
  DataFrame_to_file E df (path_arg output_path) (Some "GPKG").

Definition vector_io_notebook : M unit :=
  DATA_DIRECTORY ← cell_data_directory;
  emit (attribute "supported_drivers");;
  data_set ← cell_read_uganda DATA_DIRECTORY;
  DataFrame_head E data_set 1;;
  gdf ← cell_read_nuts;
  cell_write_gpkg gdf;;
  gdf ← cell_rename_fid gdf;
  cell_write_gpkg gdf;;
  cell_write_to DATA_DIRECTORY gdf "nuts_1.gpkg" "GPKG";;
  cell_write_to DATA_DIRECTORY gdf "nuts_1.gjson" "GeoJSON";;
  cell_wfs DATA_DIRECTORY.

(** *** Managing file paths (second notebook of the second source file) *)

(** [path = pathlib.Path(); path = path.resolve()] *)
Definition cell_path : M PurePath :=
  let path := Path0 in
  Path_resolve E path.

(**
<<
FILE_DIR = os.path.dirname(os.path.abspath("UGA_adm1_2011.shp"))
sys.path.append(FILE_DIR)
NOTEBOOK_PATH = pathlib.Path(FILE_DIR).resolve()
DATA_DIRECTORY = NOTEBOOK_PATH / "data"
>> *)
Definition cell_data_directory_alt : M PurePath :=
  a ← os_path_abspath E "UGA_adm1_2011.shp";
  FILE_DIR ← os_path_dirname E a;
  NOTEBOOK_PATH ← Path_resolve E (Path FILE_DIR);
  let DATA_DIRECTORY := (NOTEBOOK_PATH / "data")%path in
  mret DATA_DIRECTORY.

Definition paths_notebook : M unit :=
  path ← cell_path;
  Path_exists E path;;
  Path_is_dir E path;;
  let data_directory := (path / "data")%path in
  let _ := parent path in
  DATA_DIRECTORY ← cell_data_directory;
  builtin_print E (render DATA_DIRECTORY);;
  cell_read_uganda DATA_DIRECTORY;;
  DATA_DIRECTORY ← cell_data_directory_alt;
  cell_read_uganda DATA_DIRECTORY;;
  mret tt.

(** *** Coordinate reference systems (L2_3_Geopandas_processing.ipynb, second notebook) *)

(** [gdf.crs] *)
Definition DataFrame_crs (gdf : nat) : M (option CRS) :=
  df ← load gdf; emit (attribute "crs");; mret (crs df).

(** [gdf_epsg_4326 = gdf.to_crs("EPSG:4326")] *)
Definition cell_to_crs (gdf : nat) : M nat :=
  df ← load gdf;
  emit (method "to_crs");;
  c ← lift (CRS_from_user_input "EPSG:4326");
  df' ← lift (to_crs df c);
  new df'.

(** the two maps side by side *)
Definition cell_subplots (gdf gdf_epsg_4326 : nat) : M unit :=
  emit (method "subplots");;
  DataFrame_plot E gdf;;
  emit (method "set_title");;
  emit (method "set_aspect");;
  DataFrame_plot E gdf_epsg_4326;;
  emit (method "set_title");;
  emit (method "set_aspect");;
  emit (method "tight_layout").

Definition str_option_Z (o : option Z) : string :=
  match o with Some n => pretty n | None => "None" end.

(**
<<
crs = pyproj.CRS(gdf.crs)
print(f"CRS as a proj4 string: {crs.to_proj4()}\n")
print(f"CRS in WKT format: {crs.to_wkt()}\n")
print(f"EPSG code of the CRS: {crs.to_epsg()}\n")
>> *)
Definition newline : string := String.String (ascii_of_nat 10) "".

Definition cell_descriptors (gdf : nat) : M unit :=
  c ← DataFrame_crs gdf;
  emit (method "CRS");;
  crs ← lift (match c with Some c => CRS_from_crs c | None => Raise ValueError end);
  emit (method "to_proj4");;
  builtin_print E ("CRS as a proj4 string: " +:+ to_proj4 crs +:+ newline);;
  emit (method "to_wkt");;
  builtin_print E ("CRS in WKT format: " +:+ to_wkt crs +:+ newline);;
  emit (method "to_epsg");;
  builtin_print E ("EPSG code of the CRS: " +:+ str_option_Z (to_epsg crs) +:+ newline).

(** [crs = pyproj.CRS("EPSG:4326")], [crs.name], [crs.area_of_use.bounds] *)
Definition cell_wgs84 : M string :=
  emit (method "CRS");;
  crs ← lift (CRS_from_user_input "EPSG:4326");
  emit (attribute "name");;
  emit (attribute "area_of_use");;
  emit (attribute "bounds");;
  mret (crs_name crs).

Definition crs_notebook : M unit :=
  gdf ← cell_read_nuts;
  DataFrame_plot E gdf;;
  DataFrame_crs gdf;;
  cell_geometry_head gdf;;
  gdf_epsg_4326 ← cell_to_crs gdf;
  cell_geometry_head gdf_epsg_4326;;
  DataFrame_crs gdf_epsg_4326;;
  cell_subplots gdf gdf_epsg_4326;;
  cell_descriptors gdf;;
  cell_wgs84;;
  mret tt.

End notebooks.
End notebooks.


(** * Notions used in the statements *)

Module spec.
Import pathlib shapely pandas kernel notebooks.

(** a file name: one path component, neither empty nor "." *)
Fixpoint no_sep (s : string) : bool :=
  match s with
  | EmptyString => true
  | String c s' => negb (is_sep c) && no_sep s'
  end.

Definition is_file_name (n : string) : bool :=
  no_sep n && bool_decide (n ≠ "" ∧ n ≠ ".").

(** every object of [w] is still the same object in [w'] *)
Definition unchanged `{Externals} (w w' : world) : Prop :=
  ∀ l o, heap w !! l = Some o → heap w' !! l = Some o.

(** the sum of the areas of the geometries of the rows of class [k] *)
Definition class_area `{Externals} (df : DataFrame) (k : cell) : float :=
  foldl fadd fzero
    (omap (λ r, match value "geometry" r.2 with Geom g => Some (geom_area g) | _ => None end)
          (filter (λ r, value "CLASS_NAME" r.2 = k) (rows df))).

(** an environment in which no library call fails *)
Definition quiet `{Externals} (hv : string → option DataFrame)
    (wf : string → string → string → string) (og : string → result DataFrame) : environment :=
  mkEnv (λ _, None) hv wf og.

(** a kernel that has just started in directory [d] with the files [fs] *)
Definition fresh_kernel `{Externals} (d : PurePath) (fs : gmap PurePath file) : world :=
  mkWorld d [] fs [].

(** the file arguments of the calls of a trace, and the calls'
    shapes: kind and file argument *)
Definition target_of `{Externals} (c : call) : option target :=
  match c with
  | read_file t | to_file t _ _ | to_csv t _ => Some t
  | open_ n _ => Some (str_arg n)
  | _ => None
  end.

Definition file_targets `{Externals} (tr : list call) : list target := omap target_of tr.

Definition is_getfeature `{Externals} (c : call) : bool :=
  match c with getfeature _ _ => true | _ => false end.

Definition is_close `{Externals} (c : call) : bool :=
  match c with close => true | _ => false end.

(** the frames that a trace writes with [to_file], with their targets *)
Definition written `{Externals} (tr : list call) : list (target * DataFrame) :=
  omap (λ c, match c with to_file t _ df => Some (t, df) | _ => None end) tr.

(** a call without its payload: the frame or series written, the
    line printed, the bytes written *)
Definition erase `{Externals} (c : call) : call :=
  match c with
  | to_file t d _ => to_file t d (mkFrame [] [] None)
  | to_csv t _ => to_csv t []
  | print _ => print ""
  | write _ => write ""
  | _ => c
  end.

(** where the land use data set is read from *)
Definition data_directory (d : PurePath) : PurePath := (joinpath d Path0 / "data")%path.

Definition class_file `{Externals} (D : PurePath) (k : cell) : PurePath :=
  (D / ("LU_" +:+ str k +:+ ".shp"))%path.

(** the calls of a completed run of the Geopandas notebook, for a
    data set whose distinct classes are [keys] *)
Definition geopandas_calls `{Externals} (d : PurePath) (keys : list cell) : list call :=
  let D := data_directory d in
  [resolve Path0; read_file (path_arg (D / "Landusepolygon.shp")); plot; method "head";
   attribute "columns"; method "__getitem__"; method "rename"; method "head"; plot;
   attribute "geometry"; method "head"; attribute "at"; method "__getitem__";
   attribute "at"; method "__getitem__"; attribute "area"; print "";
   method "__getitem__"; method "iterrows"]
  ++ concat (replicate 5 [method "__getitem__"; attribute "area"; print ""])
  ++ [attribute "area"; method "__getitem__"; method "__getitem__"; method "iterrows"]
  ++ concat (replicate 5 [attribute "area"; method "__getitem__"; print ""])
  ++ [attribute "area"; method "__setitem__"; attribute "ID_CLASS"; method "__eq__";
      method "__getitem__"; plot;
      to_file (path_arg (D / "water_bodies.shp")) None (mkFrame [] [] None);
      method "__getitem__"; method "unique"; method "groupby"; attribute "groups";
      method "__iter__"]
  ++ concat (replicate (length keys) [method "__len__"; print ""])
  ++ [method "get_group"; plot; method "groupby"; method "__iter__"]
  ++ ((λ k, to_file (path_arg (class_file D k)) None (mkFrame [] [] None)) <$> keys)
  ++ [method "groupby"; attribute "area"; method "sum";
      to_csv (str_arg "data/area_by_LU_class.csv") []].

(** the calls of the swap lambda on one value of the geometry column,
    up to the one that raises when the value is not a point *)
Definition swap_calls `{Externals} (c : cell) : list call :=
  match c with
  | Geom (Point _ _ (Some _)) =>
      [attribute "has_z"; attribute "y"; attribute "x"; attribute "z"; method "Point"]
  | Geom (Point _ _ None) =>
      [attribute "has_z"; attribute "y"; attribute "x"; method "Point"]
  | Geom _ => [attribute "has_z"; attribute "y"]
  | _ => [attribute "has_z"]
  end.

(** the calls of [apply] with the swap lambda on a column: value by
    value, up to the first value that makes the lambda raise *)
Fixpoint apply_calls `{Externals} (cs : list cell) : list call :=
  match cs with
  | [] => []
  | c :: cs' =>
      swap_calls c ++ match swap_xy c with Ok _ => apply_calls cs' | Raise _ => [] end
  end.

(** the geometry column of a frame, and whether a value of it is a
    point with a z coordinate *)
Definition geometries `{Externals} (df : DataFrame) : list cell :=
  (λ r, value "geometry" r.2) <$> rows df.

Definition three_d `{Externals} (c : cell) : bool :=
  match c with Geom g => has_z g | _ => false end.

(** the calls of a completed run of the vector I/O notebook, for a WFS
    layer with the geometries [geoms] *)
Definition vector_io_calls `{Externals} (d : PurePath) (geoms : list cell) : list call :=
  let D := data_directory d in
  let nothing := mkFrame [] [] None in
  [resolve Path0; attribute "supported_drivers";
   read_file (path_arg (D / "UGA_adm1_2011.shp")); plot; method "head";
   read_file (str_arg nuts_url); method "head";
   to_file (str_arg "nuts_1.gpkg") (Some "GPKG") nothing; method "rename";
   to_file (str_arg "nuts_1.gpkg") (Some "GPKG") nothing;
   to_file (path_arg (D / "nuts_1.gpkg")) (Some "GPKG") nothing;
   to_file (path_arg (D / "nuts_1.gjson")) (Some "GeoJSON") nothing;
   WebFeatureService wfs_url "1.1.0"; getfeature "od_gis:Cykelpump_Punkt" "GML2";
   open_ "cykelpump_punkt.gml" "wb"; response_read; write ""; close;
   read_file (str_arg "cykelpump_punkt.gml"); method "set_crs"; method "__getitem__";
   method "apply"]
  ++ concat (swap_calls <$> geoms)
  ++ [method "__setitem__";
      to_file (path_arg (D / "cykelpump_punkt.gpkg")) (Some "GPKG") nothing].

(** [DATA_DIRECTORY] as the alternative cell of the paths notebook computes it *)
Definition abspath_of (d : PurePath) (s : string) : string :=
  render (normpath (joinpath d (Path s))).
Definition file_dir (d : PurePath) : string :=
  render (parent (Path (abspath_of d "UGA_adm1_2011.shp"))).
Definition data_directory_alt (d : PurePath) : PurePath :=
  (joinpath d (Path (file_dir d)) / "data")%path.

Definition paths_calls `{Externals} (d : PurePath) : list call :=
  [resolve Path0; path_query "exists" (joinpath d Path0); path_query "is_dir" (joinpath d Path0);
   resolve Path0; print "";
   read_file (path_arg (data_directory d / "UGA_adm1_2011.shp")); plot;
   os_path "abspath" "UGA_adm1_2011.shp";
   os_path "dirname" (abspath_of d "UGA_adm1_2011.shp");
   resolve (Path (file_dir d));
   read_file (path_arg (data_directory_alt d / "UGA_adm1_2011.shp")); plot].

Definition crs_calls `{Externals} : list call :=
  [read_file (str_arg nuts_url); method "head"; plot; attribute "crs";
   attribute "geometry"; method "head"; method "to_crs";
   attribute "geometry"; method "head"; attribute "crs";
   method "subplots"; plot; method "set_title"; method "set_aspect";
   plot; method "set_title"; method "set_aspect"; method "tight_layout";
   attribute "crs"; method "CRS"; method "to_proj4"; print ""; method "to_wkt"; print "";
   method "to_epsg"; print "";
   method "CRS"; attribute "name"; attribute "area_of_use"; attribute "bounds"].

(** the kinds of the calls of a completed run of the Geopandas
    notebook on a data set with [n] distinct classes *)
Definition geopandas_kinds (n : nat) : list kind :=
  [k_path; k_read; k_plot; k_method; k_property; k_method; k_method; k_method; k_plot;
   k_property; k_method; k_property; k_method; k_property; k_method; k_property; k_print;
   k_method; k_method]
  ++ concat (replicate 5 [k_method; k_property; k_print])
  ++ [k_property; k_method; k_method; k_method]
  ++ concat (replicate 5 [k_property; k_method; k_print])
  ++ [k_property; k_method; k_property; k_method; k_method; k_plot; k_write;
      k_method; k_method; k_method; k_property; k_method]
  ++ concat (replicate n [k_method; k_print])
  ++ [k_method; k_plot; k_method; k_method]
  ++ replicate n k_write
  ++ [k_method; k_property; k_method; k_write].

(** the kinds of the calls of a completed run of the vector I/O
    notebook on a WFS layer of points; [dims] tells for each feature,
    in order, whether its point has a z coordinate: the lambda reads
    [has_z], [y] and [x], reads [z] when there is one, and calls
    [Point] *)
Definition swap_kinds (z : bool) : list kind :=
  if z then [k_property; k_property; k_property; k_property; k_method]
  else [k_property; k_property; k_property; k_method].

Definition vector_io_kinds (dims : list bool) : list kind :=
  [k_path; k_property; k_read; k_plot; k_method; k_read; k_method;
   k_write; k_method; k_write; k_write; k_write; k_network; k_network;
   k_file; k_network; k_file; k_file; k_read; k_method; k_method;
   k_method]
  ++ concat (swap_kinds <$> dims)
  ++ [k_method; k_write].

Definition paths_kinds : list kind :=
  [k_path; k_path; k_path; k_path; k_print; k_read; k_plot; k_path;
   k_path; k_path; k_read; k_plot].

Definition crs_kinds : list kind :=
  [k_read; k_method; k_plot; k_property; k_property; k_method; k_method;
   k_property; k_method; k_property; k_method; k_plot; k_method;
   k_method; k_plot; k_method; k_method; k_method; k_property; k_method;
   k_method; k_print; k_method; k_print; k_method; k_print; k_method;
   k_property; k_property; k_property].



(** a step that leaves directory, objects and files as they are *)
Definition same_state `{Externals} (w w' : world) : Prop :=
  cwd w' = cwd w ∧ heap w' = heap w ∧ disk w' = disk w.

(** a row of the land use data set after the selection of three
    columns and their renaming *)
Definition selected `{Externals} (row : Row) : Row :=
  [("ID_CLASS", value "KKOD" row); ("CLASS_NAME", value "KATEGORI" row);
   ("geometry", value "geometry" row)].

(** the claim that the files written hold every row of the input *)
Definition every_row_written `{Externals} (df : DataFrame) (ws : list (target * DataFrame)) : Prop :=
  Forall (λ r, Exists (λ tg, r ∈ rows tg.2) ws) (rows df).

(** The first call among [ext] that the environment makes fail, with
    its error and the calls recorded after it; the calls of [ext] are
    the calls number [start], [start + 1], ... of the run.  Closing a
    file is recorded but asks the environment nothing. *)
Fixpoint first_fault `{Externals} (E : environment) (start : nat) (ext : list call)
  : option (error * list call) :=
  match ext with
  | [] => None
  | c :: ext' =>
      if is_close c then first_fault E (S start) ext'
      else match fault E start with
           | Some e => Some (e, ext')
           | None => first_fault E (S start) ext'
           end
  end.

(** A computation is fail-stop when a failing library call ends it:
    the error of the call is the result, unchanged, and nothing is
    called after it but the closing of the files that are open. *)
Definition fail_stop `{Externals} (E : environment) {A} (m : M A) : Prop :=
  ∀ w, ∃ ext,
    trace (m w).2 = trace w ++ ext ∧
    match first_fault E (length (trace w)) ext with
    | Some (e, rest) => (m w).1 = Raise e ∧ Forall (λ c, c = close) rest
    | None => True
    end.

(** The computations built from the operations of the kernel, none
    of which handles an exception, with library calls among [allowed]
    only. *)
Inductive plain `{Externals} (E : environment) (allowed : call → Prop) : ∀ {A}, M A → Prop :=
  | plain_ret {A} (a : A) : plain E allowed (mret a)
  | plain_bind {A B} (m : M A) (k : A → M B) :
      plain E allowed m → (∀ a, plain E allowed (k a)) → plain E allowed (m ≫= k)
  | plain_emit (c : call) : is_close c = false → allowed c → plain E allowed (emit E c)
  | plain_lift {A} (r : result A) : plain E allowed (lift r)
  | plain_load (l : nat) : plain E allowed (load l)
  | plain_new (df : DataFrame) : plain E allowed (new df)
  | plain_store (l : nat) (df : DataFrame) : plain E allowed (store l df)
  | plain_get_cwd : plain E allowed get_cwd
  | plain_put_file (p : PurePath) (f : file) : plain E allowed (put_file p f)
  | plain_get_file (p : PurePath) : plain E allowed (get_file p)
  | plain_with {A} (m : M A) : plain E allowed m → plain E allowed (finally m (record close)).

(** what the WFS cell does once the feature request has returned *)
Definition after_the_fetch `{Externals} (E : environment) (D : PurePath)
    (response : string * string * string) : M unit :=
  with_open E "cykelpump_punkt.gml" "wb" (λ f,
    body ← response_read_ E response; file_write E f body);;
  data ← geopandas_read_file E (str_arg "cykelpump_punkt.gml");
  data ← cell_set_crs E data;
  cell_swap E data;;
  df ← load data;
  DataFrame_to_file E df (path_arg (D / "cykelpump_punkt.gpkg")) (Some "GPKG").

(** the number of GetFeature requests among some calls *)
Definition fetches `{Externals} (calls : list call) : nat :=
  length (filter (λ c, is_getfeature c = true) calls).

(** the swap on a point, as the specification words it *)
Definition swapped `{Float64} (g : geometry) : geometry :=
  match g with
  | Point x y z => Point y x z
  | _ => g
  end.

Definition is_point `{Float64} (g : geometry) : bool :=
  match g with Point _ _ _ => true | _ => false end.

(** a working directory as the operating system reports it: an
    absolute path whose components are names other than ".." *)
Definition is_component (p : string) : bool := is_file_name p && negb (String.eqb p "..").

Definition normalised (d : PurePath) : bool :=
  is_absolute d && forallb is_component (parts d).

(** the calls that a step from [w] to [w'] has added *)
Definition calls_since `{Externals} (w w' : world) : list call :=
  drop (length (trace w)) (trace w').

(** a step keeps the working directory, every object's place and
    every file's presence *)
Definition keeps_what_is_there `{Externals} (w w' : world) : Prop :=
  cwd w' = cwd w ∧
  length (heap w) ≤ length (heap w') ∧
  (∀ p, is_Some (disk w !! p) → is_Some (disk w' !! p)).

(** the index that [read_file] gives: 0, 1, 2, ... *)
Definition range_index `{Externals} (df : DataFrame) : Prop :=
  index df = Z.of_nat <$> seq 0 (length (rows df)).

(** the geometry of a row is a point, and the swap on a cell *)
Definition holds_point `{Externals} (r : label * Row) : Prop :=
  ∃ x y z, value "geometry" r.2 = Geom (Point x y z).

Definition swapped_cell `{Externals} (c : cell) : cell :=
  match c with Geom g => Geom (swapped g) | _ => c end.

(** The computations that open no file: built from the operations of
    the kernel without a [with] block. *)
Inductive straight `{Externals} (E : environment) : ∀ {A}, M A → Prop :=
  | straight_ret {A} (a : A) : straight E (mret a)
  | straight_bind {A B} (m : M A) (k : A → M B) :
      straight E m → (∀ a, straight E (k a)) → straight E (m ≫= k)
  | straight_emit (c : call) : is_close c = false → straight E (emit E c)
  | straight_lift {A} (r : result A) : straight E (lift r)
  | straight_load (l : nat) : straight E (load l)
  | straight_new (df : DataFrame) : straight E (new df)
  | straight_store (l : nat) (df : DataFrame) : straight E (store l df)
  | straight_get_cwd : straight E get_cwd
  | straight_put_file (p : PurePath) (f : file) : straight E (put_file p f)
  | straight_get_file (p : PurePath) : straight E (get_file p).

(** how often a file is closed among some calls *)
Definition closes `{Externals} (calls : list call) : nat :=
  length (filter (λ c, is_close c = true) calls).

(** the lines that a trace prints *)
Definition printed `{Externals} (tr : list call) : list string :=
  omap (λ c, match c with print line => Some line | _ => None end) tr.

End spec.

(** * Sample data

    Integers stand in for doubles, a polygon's area is computed by the
    shoelace formula, a CRS is its identifier. *)

Module sample.
Import pathlib shapely pandas kernel notebooks spec.

Definition Z_float64 : Float64 :=
  {| float := Z; fzero := 0%Z; fadd := Z.add; float_of_Z := id; float_leb := Z.leb |}.
#[local] Existing Instance Z_float64.

Fixpoint shoelace (pts : list (Z * Z)) : Z :=
  match pts with
  | p :: (q :: _) as rest => (p.1 * q.2 - q.1 * p.2 + shoelace rest)%Z
  | _ => 0%Z
  end.

Definition polygon_area (g : geometry) : Z :=
  match g with
  | Polygon shell _ => (Z.abs (shoelace (shell ++ take 1 shell)) / 2)%Z
  | _ => 0%Z
  end.

Definition Z_externals : Externals :=
  {| geom_area := polygon_area;
     wkt := λ _, "GEOMETRY";
     str_float := pretty;
     format_1f := λ a, pretty a +:+ ".0";
     round_float := id;
     CRS := string;
     CRS_from_user_input := Ok;
     CRS_from_crs := Ok;
     crs_equal := String.eqb;
     to_proj4 := λ c, "+init=" +:+ c;
     to_wkt := λ c, "PROJCRS[" +:+ c +:+ "]";
     to_epsg := λ c, if String.eqb c "EPSG:3035" then Some 3035%Z else None;
     crs_name := id;
     transform := λ _ _ g, g |}.
#[local] Existing Instance Z_externals.

Definition square (x y side : Z) : cell :=
  Geom (Polygon [(x, y); (x + side, y); (x + side, y + side); (x, y + side)]%Z []).

(** a land use layer: code, class and polygon of each feature *)
Definition features : list (Z * cell * cell) :=
  [(901%Z, Str "Vattenyta", square 0 0 2);
   (302%Z, Str "Skog", square 2 0 3);
   (901%Z, Str "Vattenyta", square 5 0 1);
   (0%Z, NaN, square 6 0 1);
   (302%Z, Str "Skog", square 7 0 2);
   (601%Z, Str "Åker", NaN)].

Definition layer (code class : string) (fs : list (Z * cell * cell)) : DataFrame :=
  mkFrame [code; class; "geometry"]
    (imap (λ i f, (Z.of_nat i, [(code, Int f.1.1); (class, f.1.2); ("geometry", f.2)])) fs)
    (Some "EPSG:3006").

(** as the shapefile has it, and as the notebook has it after the
    renaming of the columns *)
Definition Landusepolygon : DataFrame := layer "KKOD" "KATEGORI" features.
Definition land_use : DataFrame := layer "ID_CLASS" "CLASS_NAME" features.

(** a layer with water bodies only *)
Definition lakes : DataFrame :=
  layer "KKOD" "KATEGORI"
    [(901%Z, Str "Vattenyta", square 0 0 2); (901%Z, Str "Vattenyta", square 2 0 3);
     (901%Z, Str "Vattenyta", square 5 0 1); (901%Z, Str "Vattenyta", square 6 0 1);
     (901%Z, Str "Vattenyta", square 7 0 2)].

Definition regions : DataFrame :=
  mkFrame ["FID"; "geometry"]
    [(0%Z, [("FID", Str "SE"); ("geometry", square 0 0 4)]);
     (1%Z, [("FID", Str "FI"); ("geometry", square 4 0 3)])]
    (Some "EPSG:3035").

Definition pumps : DataFrame :=
  mkFrame ["id"; "geometry"]
    [(0%Z, [("id", Int 1); ("geometry", Geom (Point 6580000%Z 150000%Z None))]);
     (1%Z, [("id", Int 2); ("geometry", Geom (Point 6581000%Z 151000%Z (Some 12%Z)))])]
    None.

Definition home : PurePath := Path "/home/student/GSP_L2".

Definition files (data_set : DataFrame) : gmap PurePath file :=
  {[ Path "/home/student/GSP_L2/data/Landusepolygon.shp" := VectorFile data_set;
     Path "/home/student/GSP_L2/data/UGA_adm1_2011.shp" := VectorFile regions ]}.

Definition served (url : string) : option DataFrame := Some regions.
Definition response (url typename fmt : string) : string := "<wfs:FeatureCollection/>".
Definition decoded (data : string) : result DataFrame := Ok pumps.

(** no library call fails *)
Definition calm : environment := quiet served response decoded.

(** the regions as a server delivers them that names the column of
    their codes NUTS_ID, and an environment with that server *)
Definition nuts : DataFrame :=
  mkFrame ["NUTS_ID"; "geometry"]
    [(0%Z, [("NUTS_ID", Str "SE"); ("geometry", square 0 0 4)]);
     (1%Z, [("NUTS_ID", Str "FI"); ("geometry", square 4 0 3)])]
    (Some "EPSG:3035").

Definition mirror (url : string) : option DataFrame := Some nuts.

Definition steady : environment := quiet mirror response decoded.

(** the feature request fails *)
Definition offline : environment :=
  mkEnv (λ n, if decide (n = 1) then Some HTTPError else None) served response decoded.

End sample.


(** * Properties *)

Section properties.
Context `{Externals}.
Import pathlib shapely pandas kernel notebooks spec.

#[local] Arguments group_keys : simpl never.
#[local] Arguments get_group_frame : simpl never.
#[local] Arguments truediv : simpl never.
#[local] Arguments joinpath : simpl never.
#[local] Arguments str : simpl never.
#[local] Arguments reset_index : simpl never.
#[local] Arguments rename : simpl never.
#[local] Arguments getitem_list : simpl never.
#[local] Arguments getitem : simpl never.
#[local] Arguments getattr : simpl never.
#[local] Arguments at_ : simpl never.
#[local] Arguments area : simpl never.
#[local] Arguments setitem : simpl never.
#[local] Arguments getitem_mask : simpl never.
#[local] Arguments series_eq : simpl never.
#[local] Arguments unique : simpl never.
#[local] Arguments groupby : simpl never.
#[local] Arguments groups : simpl never.
#[local] Arguments groups_dict : simpl never.
#[local] Arguments get_group : simpl never.
#[local] Arguments groupby_getattr : simpl never.
#[local] Arguments groupby_sum : simpl never.
#[local] Arguments slice_to : simpl never.
#[local] Arguments iterrows : simpl never.
#[local] Arguments series_getitem : simpl never.
#[local] Arguments cell_area : simpl never.
#[local] Arguments format_cell_1f : simpl never.
#[local] Arguments set_crs : simpl never.
#[local] Arguments to_crs : simpl never.
#[local] Arguments apply : simpl never.
#[local] Arguments Path : simpl never.
#[local] Arguments data_directory : simpl never.

(** ** Rows, columns and groups *)

Lemma row_get_set_eq k v r : row_get k (row_set k v r) = Some v.
Proof.
  induction r as [|[k' v'] r IH]; cbn.
  - by rewrite decide_True.
  - destruct (decide (k' = k)) as [->|]; cbn.
    + by rewrite decide_True.
    + by rewrite decide_False.
Qed.

Lemma row_get_set_ne k k' v r : k ≠ k' → row_get k' (row_set k v r) = row_get k' r.
Proof.
  intros Hne. induction r as [|[k0 v0] r IH]; cbn.
  - by rewrite decide_False.
  - destruct (decide (k0 = k)) as [->|]; cbn.
    + by rewrite !decide_False.
    + by rewrite IH.
Qed.

Lemma value_set_eq k v r : value k (row_set k v r) = v.
Proof. unfold value. by rewrite row_get_set_eq. Qed.

Lemma value_set_ne k k' v r : k ≠ k' → value k' (row_set k v r) = value k' r.
Proof. intros. unfold value. by rewrite row_get_set_ne. Qed.

#[local] Arguments value : simpl never.
#[local] Arguments row_set : simpl never.

Lemma filter_fmap {A B} (f : A → B) (P : B → Prop) `{!∀ x, Decision (P x)} (l : list A) :
  filter P (f <$> l) = f <$> filter (λ x, P (f x)) l.
Proof.
  induction l as [|a l IH]; [done|]. cbn [fmap list_fmap]. rewrite !filter_cons.
  case_decide; cbn; by rewrite IH.
Qed.

Lemma elem_of_unique (c : cell) l : c ∈ unique l ↔ c ∈ l.
Proof. unfold unique. by rewrite elem_of_reverse, elem_of_remove_dups, elem_of_reverse. Qed.

Lemma NoDup_unique (l : list cell) : NoDup (unique l).
Proof. unfold unique. rewrite reverse_Permutation. apply NoDup_remove_dups. Qed.

Lemma elem_of_group_keys by_ df k :
  k ∈ group_keys by_ df ↔ k ≠ NaN ∧ ∃ r, r ∈ rows df ∧ value by_ r.2 = k.
Proof.
  unfold group_keys. rewrite merge_sort_Permutation, elem_of_unique, list_elem_of_filter.
  change (List.map ?f ?l) with (f <$> l). rewrite list_elem_of_fmap.
  split; intros [Hk (r & Hr & Hin)]; (split; [done|]); by exists r.
Qed.

Lemma NoDup_group_keys by_ df : NoDup (group_keys by_ df).
Proof. unfold group_keys. rewrite merge_sort_Permutation. apply NoDup_unique. Qed.

Lemma group_keys_ext by_ by' df df' :
  (λ r, value by_ r.2) <$> rows df = (λ r, value by' r.2) <$> rows df' →
  group_keys by_ df = group_keys by' df'.
Proof. unfold group_keys. change (List.map ?f ?l) with (f <$> l). by intros ->. Qed.

Lemma find_label {A B} (f : A → B) (rs : list (label * A)) i a :
  NoDup rs.*1 → (i, a) ∈ rs →
  List.find (λ e : label * B, bool_decide (e.1 = i)) (List.map (λ r, (r.1, f r.2)) rs)
  = Some (i, f a).
Proof.
  induction rs as [|[j b] rs IH]; intros Hnd Hin; [by apply elem_of_nil in Hin|].
  cbn in *. apply NoDup_cons in Hnd as [Hj Hnd].
  apply elem_of_cons in Hin as [Heq|Hin].
  - simplify_eq. by rewrite bool_decide_eq_true_2.
  - rewrite bool_decide_eq_false_2; [by apply IH|].
    intros ->. apply Hj. apply list_elem_of_fmap. by exists (i, a).
Qed.

Lemma area_index df s :
  area df = Ok s →
  s.*1 = index df ∧ s.*2 = (λ r, area_or_nan (value "geometry" r.2)) <$> rows df.
Proof.
  unfold area. case_decide; [|done]. intros [= <-]. unfold index.
  change (List.map ?f ?l) with (f <$> l). by rewrite <-!list_fmap_compose.
Qed.

Lemma area_column_rows df s :
  area df = Ok s →
  rows (setitem df "area" s)
  = (λ r, (r.1, row_set "area" (area_or_nan (value "geometry" r.2)) r.2)) <$> rows df.
Proof.
  intros [Hi Hv]%area_index. unfold setitem. cbn [rows]. unfold aligned.
  rewrite decide_True by done. rewrite Hv, zip_with_fmap_r. apply zip_with_diag.
Qed.

Lemma nansum_areas (rs : list (label * Row)) acc :
  fold_left (λ acc c, match c with Float a => fadd acc a | _ => acc end)
    ((λ r, area_or_nan (value "geometry" r.2)) <$> rs) acc
  = foldl fadd acc
      (omap (λ r, match value "geometry" r.2 with Geom g => Some (geom_area g) | _ => None end) rs).
Proof.
  revert acc. induction rs as [|r rs IH]; intros acc; [done|].
  cbn. destruct (value "geometry" r.2); cbn; apply IH.
Qed.

Lemma getitem_list_inv df names df' :
  getitem_list df names = Ok df' →
  df' = mkFrame names ((λ r, (r.1, (λ n, (n, value n r.2)) <$> names)) <$> rows df) (crs df).
Proof. unfold getitem_list. by destruct (List.find _ _); intros [= <-]. Qed.

Lemma reset_index_rows_aux (l : list (label * Row)) s :
  (zip_with (λ (i : nat) (r : label * Row), (Z.of_nat i, r.2)) (seq s (length l)) l).*1
    = Z.of_nat <$> seq s (length l) ∧
  (zip_with (λ (i : nat) (r : label * Row), (Z.of_nat i, r.2)) (seq s (length l)) l).*2 = l.*2.
Proof.
  revert s. induction l as [|r l IH]; intros s; [done|].
  cbn. by destruct (IH (S s)) as [-> ->].
Qed.

Lemma index_reset_index df : index (reset_index df) = Z.of_nat <$> seq 0 (length (rows df)).
Proof. apply reset_index_rows_aux. Qed.

Lemma rows_reset_index df : (rows (reset_index df)).*2 = (rows df).*2.
Proof. apply reset_index_rows_aux. Qed.

Lemma series_getitem_label (s : Series label) i c :
  series_getitem s i = Ok c → i ∈ s.*1.
Proof.
  unfold series_getitem. destruct (List.find _ _) as [e|] eqn:Hf; [|done]. intros _.
  apply find_some in Hf as [Hin Hi]. apply bool_decide_eq_true_1 in Hi. subst.
  apply list_elem_of_fmap. exists e. split; [done|]. by apply list_elem_of_In.
Qed.

Lemma at_label df i name c : at_ df i name = Ok c → i ∈ index df.
Proof.
  unfold at_, getitem. case_decide; [|done]. cbn. intros Hs%series_getitem_label.
  unfold index. change (List.map ?f ?l) with (f <$> l) in Hs.
  by rewrite <-list_fmap_compose in Hs.
Qed.

Lemma renamed_rows ds df :
  getitem_list (reset_index ds) ["KKOD"; "KATEGORI"; "geometry"] = Ok df →
  rows (rename df [("KKOD", "ID_CLASS"); ("KATEGORI", "CLASS_NAME")])
  = (λ r, (r.1, selected r.2)) <$> rows (reset_index ds).
Proof.
  intros ->%getitem_list_inv. unfold rename. cbn [rows].
  change (List.map ?f ?l) with (f <$> l). rewrite <-list_fmap_compose.
  apply list_fmap_ext. intros i r _. reflexivity.
Qed.

(** ** The coordinate swap *)

Lemma swap_xy_point x y z : swap_xy (Geom (Point x y z)) = Ok (Geom (Point y x z)).
Proof. by destruct z. Qed.


(** C9. Swapping twice gives the point back, with or without a z. *)
Theorem swap_xy_involutive x y z :
  swap_xy (Geom (Point x y z)) ≫= swap_xy = Ok (Geom (Point x y z)).
Proof. rewrite swap_xy_point. cbn. apply swap_xy_point. Qed.

(** ** Running a cell *)

Lemma bind_Ok {A B} (m : M A) (k : A → M B) w a w1 :
  m w = (Ok a, w1) → (m ≫= k) w = k a w1.
Proof. intros Hm. unfold mbind, M_bind. by rewrite Hm. Qed.

Lemma bind_Raise {A B} (m : M A) (k : A → M B) w e w1 :
  m w = (Raise e, w1) → (m ≫= k) w = (Raise e, w1).
Proof. intros Hm. unfold mbind, M_bind. by rewrite Hm. Qed.

Lemma bind_inv {A B} (m : M A) (k : A → M B) w b w' :
  (m ≫= k) w = (Ok b, w') → ∃ a w1, m w = (Ok a, w1) ∧ k a w1 = (Ok b, w').
Proof.
  unfold mbind, M_bind. destruct (m w) as [[a|e] w1]; [|done]. intros. by exists a, w1.
Qed.

Lemma ok_pair_inv {A} (a b : A) (w w' : world) : (Ok a, w) = (Ok b, w') → a = b ∧ w = w'.
Proof. by intros [= -> ->]. Qed.

Lemma emit_quiet hv wf og c w : emit (quiet hv wf og) c w = (Ok tt, record c w).
Proof. done. Qed.

Lemma lift_inv {A} (r : result A) w a w' : lift r w = (Ok a, w') → r = Ok a ∧ w' = w.
Proof. unfold lift. by intros [= -> ->]. Qed.

Lemma load_inv l w df w' : load l w = (Ok df, w') → heap w !! l = Some df ∧ w' = w.
Proof. unfold load. destruct (heap w !! l); [|done]. by intros [= -> ->]. Qed.

Lemma new_inv df w l w' :
  new df w = (Ok l, w') →
  l = length (heap w) ∧ w' = mkWorld (cwd w) (heap w ++ [df]) (disk w) (trace w).
Proof. unfold new. by intros [= <- <-]. Qed.

(** The inversion of a completed run, primitive by primitive. *)
Ltac inv0 H :=
  cbv beta in H; unfold record, fresh_kernel in H; cbn [cwd heap disk trace as_path] in H;
  lazymatch type of H with
  | (_ ≫= _) _ = (Ok _, _) =>
      let a := fresh "a" in let w1 := fresh "w" in let H1 := fresh "H" in
      apply bind_inv in H as (a & w1 & H1 & H); inv0 H1; inv0 H
  | emit _ _ _ = (Ok _, _) => rewrite emit_quiet in H; apply ok_pair_inv in H as [? ?]; subst
  | builtin_print _ _ _ = (Ok _, _) => unfold builtin_print in H; inv0 H
  | lift _ _ = (Ok _, _) => apply lift_inv in H as [H ?]; subst
  | load _ _ = (Ok _, _) => apply load_inv in H as [H ?]; subst; simpl in H; simplify_eq
  | new _ _ = (Ok _, _) => apply new_inv in H as [? ?]; subst
  | store _ _ _ = (Ok _, _) => unfold store in H; apply ok_pair_inv in H as [? ?]; subst
  | get_cwd _ = (Ok _, _) => unfold get_cwd in H; apply ok_pair_inv in H as [? ?]; subst
  | get_file _ _ = (Ok _, _) => unfold get_file in H; apply ok_pair_inv in H as [? ?]; subst
  | put_file _ _ _ = (Ok _, _) => unfold put_file in H; apply ok_pair_inv in H as [? ?]; subst
  | locate _ _ = (Ok _, _) => unfold locate in H; inv0 H
  | mret _ _ = (Ok _, _) => apply ok_pair_inv in H as [? ?]; subst
  | _ => idtac
  end.

Ltac run :=
  repeat (progress (unfold mbind, mret, M_bind, M_ret, load, emit, lift, new, store,
                           get_cwd, put_file, get_file, locate, record, finally;
                    try change (check_schema None ?df) with (@Ok unit tt);
                    cbn [fst snd fault quiet cwd heap disk trace as_path])).

(** ** Operations that return a new frame *)

(** C10. Renaming columns and selecting rows by a condition leave
    every existing frame object, the input among them, as it was (also
    when the call fails), and when the call succeeds the result is a
    new object added to the heap. *)
Theorem rename_and_row_selection_leave_the_input_unchanged
    (E : environment) (w : world) (data : nat) (df : DataFrame) :
  heap w !! data = Some df →
  (let rw := cell_rename E data w in
   unchanged w rw.2 ∧ heap rw.2 !! data = Some df ∧
   (fault E (length (trace w)) = None →
    rw.1 = Ok (length (heap w)) ∧
    heap rw.2 = heap w ++ [rename df [("KKOD", "ID_CLASS"); ("KATEGORI", "CLASS_NAME")]])) ∧
  (let rw := cell_rename_fid E data w in
   unchanged w rw.2 ∧ heap rw.2 !! data = Some df ∧
   (fault E (length (trace w)) = None →
    rw.1 = Ok (length (heap w)) ∧ heap rw.2 = heap w ++ [rename df [("FID", "FID1")]])) ∧
  (let rw := cell_water_bodies E data w in
   unchanged w rw.2 ∧ heap rw.2 !! data = Some df ∧
   ((∀ n, fault E n = None) → ∀ s, getattr df "ID_CLASS" = Ok s →
    rw.1 = Ok (length (heap w)) ∧ heap rw.2 = heap w ++ [getitem_mask df (series_eq s 901)])).
Proof.
  intros Hdf.
  split; [|split].
  - unfold cell_rename. run. rewrite Hdf. run.
    destruct (fault E _); cbn; (split; [|split; [|done]]).
    + by intros l o.
    + done.
    + intros l o Hl. by apply lookup_app_l_Some.
    + by apply lookup_app_l_Some.
  - unfold cell_rename_fid. run. rewrite Hdf. run.
    destruct (fault E _); cbn; (split; [|split; [|done]]).
    + by intros l o.
    + done.
    + intros l o Hl. by apply lookup_app_l_Some.
    + by apply lookup_app_l_Some.
  - unfold cell_water_bodies. run. rewrite Hdf. run.
    split; [|split].
    + repeat (case_match; simplify_eq/=); try (by intros l o);
        intros l o Hl; by apply lookup_app_l_Some.
    + repeat (case_match; simplify_eq/=); try done; by apply lookup_app_l_Some.
    + intros Hq s Hs. rewrite !Hq, Hs. done.
Qed.

(** For contrast: assigning a column changes the frame object itself. *)
Lemma area_column_mutates hv wf og (w : world) (data_set : nat) (df : DataFrame) s :
  heap w !! data_set = Some df → area df = Ok s →
  heap (cell_area_column (quiet hv wf og) data_set w).2 !! data_set
  = Some (setitem df "area" s).
Proof.
  intros Hdf Hs. unfold cell_area_column, GeoDataFrame_area. run. rewrite Hdf. run.
  rewrite Hs. run. rewrite Hdf. cbn. apply list_lookup_insert_eq. by eapply lookup_lt_Some.
Qed.


(** ** The two ways to a row's area *)

(** C8, as the code has it.  For a row of the data set that holds a
    geometry, the area that the [iterrows] pattern takes from the
    row's geometry object and the area that the [area] property of the
    frame holds at the row's index label are the same number, and the
    bodies of both loops print the same line for it.  For a row whose
    geometry is missing the two differ: [row["geometry"].area] raises
    AttributeError and its loop prints nothing, while [data_set.area]
    holds NaN at the row's label and its loop prints the line with
    "nan".  The index labels are distinct, as in every frame that
    comes from [read_file]. *)
Theorem iterrows_area_equals_frame_area
    hv wf og (w : world) (data_set : nat) (df : DataFrame) (n : nat) (i : label) (row : Row) :
  heap w !! data_set = Some df → NoDup (index df) → "geometry" ∈ columns df →
  (i, row) ∈ iterrows (slice_to df n) →
  let E := quiet hv wf og in
  let by_row := print_row_area E (i, row) w in
  let by_frame := print_frame_area E data_set (i, row) w in
  (∀ g, row_getitem row "geometry" = Ok (Geom g) →
     (c ← row_getitem row "geometry"; cell_area c) = Ok (geom_area g) ∧
     (s ← area df; series_getitem s i) = Ok (Float (geom_area g)) ∧
     by_row.1 = Ok tt ∧ by_frame.1 = Ok tt ∧
     printed (calls_since w by_row.2) = [area_line i (format_1f (geom_area g))] ∧
     printed (calls_since w by_frame.2) = printed (calls_since w by_row.2)) ∧
  (row_getitem row "geometry" = Ok NaN →
     (c ← row_getitem row "geometry"; cell_area c) = Raise (AttributeError "area") ∧
     (s ← area df; series_getitem s i) = Ok NaN ∧
     by_row.1 = Raise (AttributeError "area") ∧ printed (calls_since w by_row.2) = [] ∧
     by_frame.1 = Ok tt ∧ printed (calls_since w by_frame.2) = [area_line i "nan"]).
Proof.
  intros Hdf Hnd Hcol Hin E by_row by_frame. subst by_row by_frame E.
  assert (Hrow : (i, row) ∈ rows df).
  { unfold iterrows, slice_to in Hin. cbn in Hin.
    apply elem_of_take in Hin as (j & Hj & _). by eapply list_elem_of_lookup_2. }
  assert (Hframe : ∀ v, row_getitem row "geometry" = Ok v →
            (s ← area df; series_getitem s i) = Ok (area_or_nan v)).
  { intros v Hg.
    assert (Hv : value "geometry" row = v).
    { unfold row_getitem in Hg. unfold value. by destruct (row_get _ _); simplify_eq. }
    unfold area. rewrite decide_True by done. cbn [mbind result_bind].
    unfold series_getitem.
    rewrite (find_label (λ r, area_or_nan (value "geometry" r)) (rows df) i row Hnd Hrow).
    cbn. by rewrite Hv. }
  unfold calls_since, print_row_area, print_frame_area, GeoDataFrame_area, builtin_print.
  run. rewrite Hdf. run. split.
  - intros g Hg. pose proof (Hframe _ Hg) as Hs. cbn [area_or_nan] in Hs.
    rewrite Hg. run. unfold cell_area. cbn [mbind result_bind fst snd trace].
    split; [done|]. split; [exact Hs|]. split; [done|].
    destruct (area df) as [s|]; [|done]. cbn [mbind result_bind] in Hs. run. rewrite Hs.
    unfold format_cell_1f. run. cbn [trace]. split; [done|].
    by rewrite <-!app_assoc, !drop_app_length.
  - intros Hg. pose proof (Hframe _ Hg) as Hs. cbn [area_or_nan] in Hs.
    rewrite Hg. run. unfold cell_area. cbn [mbind result_bind fst snd trace].
    split; [done|]. split; [exact Hs|]. split; [done|].
    split; [by rewrite <-!app_assoc, !drop_app_length|].
    destruct (area df) as [s|]; [|done]. cbn [mbind result_bind] in Hs. run. rewrite Hs.
    unfold format_cell_1f. run. cbn [trace]. split; [done|].
    by rewrite <-!app_assoc, !drop_app_length.
Qed.

(** ** The area of each class *)

Lemma groupby_ok df by_ : by_ ∈ columns df → groupby df by_ = Ok (mkGroupBy df by_).
Proof. intros. unfold groupby. by rewrite decide_True. Qed.

Lemma class_area_summary df s :
  "CLASS_NAME" ∈ columns df → area df = Ok s →
  (g ← groupby (setitem df "area" s) "CLASS_NAME";
   sg ← groupby_getattr g "area";
   Ok (groupby_sum sg))
  = Ok ((λ k, (k, Float (class_area df k))) <$> group_keys "CLASS_NAME" df).
Proof.
  intros Hc Hs. pose proof (area_column_rows _ _ Hs) as Hrows.
  assert (Hcols : "CLASS_NAME" ∈ columns (setitem df "area" s)).
  { unfold setitem. cbn. case_decide; [done|]. apply elem_of_app. by left. }
  assert (Ha : "area" ∈ columns (setitem df "area" s)).
  { unfold setitem. cbn. case_decide; [done|]. apply elem_of_app. right.
    by apply list_elem_of_singleton. }
  set (df' := setitem df "area" s) in *. clearbody df'.
  rewrite groupby_ok by done. cbn [mbind result_bind].
  unfold groupby_getattr. cbn [obj by_column]. rewrite decide_True by done.
  cbn [mbind result_bind].
  f_equal. unfold groupby_sum, groups. cbn [obj by_column].
  change (List.map ?f ?l) with (f <$> l).
  rewrite <-!list_fmap_compose.
  assert (Hk : group_keys "CLASS_NAME" df' = group_keys "CLASS_NAME" df).
  { apply group_keys_ext. rewrite Hrows, <-list_fmap_compose. apply list_fmap_ext.
    intros i r _. cbn. by rewrite value_set_ne. }
  rewrite Hk. apply list_fmap_ext. intros i k _. cbn. f_equal. f_equal.
  unfold get_group_frame. cbn [rows columns]. rewrite Hrows.
  change (List.map ?f ?l) with (f <$> l).
  rewrite <-!list_fmap_compose. unfold nansum, class_area.
  rewrite filter_fmap, <-list_fmap_compose.
  erewrite (list_fmap_ext _ (λ r, area_or_nan (value "geometry" r.2))); last first.
  { intros j r _. cbn. by rewrite value_set_eq. }
  rewrite nansum_areas. f_equal. f_equal. apply list_filter_iff. intros r. cbn.
  by rewrite value_set_ne.
Qed.

(** C3. After [data_set["area"] = data_set.area], the summary
    [data_set.groupby("CLASS_NAME").area.sum()] has one entry for each
    distinct value of CLASS_NAME that is not missing, and the entry of
    a class is the sum of the areas of the geometries of exactly the
    rows of that class (a row without geometry adds nothing). *)
Theorem area_summary_sums_the_areas_of_each_class
    hv wf og (w : world) (data_set : nat) (df : DataFrame) :
  heap w !! data_set = Some df →
  "CLASS_NAME" ∈ columns df → "geometry" ∈ columns df →
  let E := quiet hv wf og in
  let keys := group_keys "CLASS_NAME" df in
  ((cell_area_column E data_set ;; cell_area_information E data_set) w).1
  = Ok ((λ k, (k, Float (class_area df k))) <$> keys) ∧
  NoDup keys ∧
  (∀ k, k ∈ keys ↔ k ≠ NaN ∧ ∃ r, r ∈ rows df ∧ value "CLASS_NAME" r.2 = k).
Proof.
  intros Hdf Hc Hg E keys. split; [|split; [apply NoDup_group_keys|apply elem_of_group_keys]].
  assert (Hs : ∃ s, area df = Ok s) by (unfold area; rewrite decide_True by done; eauto).
  destruct Hs as [s Hs]. pose proof (class_area_summary df s Hc Hs) as Hsum.
  unfold cell_area_column, cell_area_information, GeoDataFrame_area, DataFrame_groupby. run.
  subst E. run. rewrite Hdf. run. rewrite Hs. run. rewrite ?Hdf. run.
  rewrite list_lookup_insert_eq by (by eapply lookup_lt_Some). run.
  destruct (groupby (setitem df "area" s) "CLASS_NAME") as [gb|]; [|done].
  cbn [mbind result_bind] in Hsum. run.
  destruct (groupby_getattr gb "area") as [sg|]; [|done]. run.
  cbn [mbind result_bind] in Hsum. done.
Qed.


(** ** One file per class *)

Lemma check_schema_GPKG df :
  check_schema (Some "GPKG") df = if wrong_fid df then Raise SchemaError else Ok tt.
Proof. done. Qed.

Lemma to_file_quiet hv wf og df t dr w :
  check_schema dr df = Ok tt →
  DataFrame_to_file (quiet hv wf og) df t dr w
  = (Ok tt, mkWorld (cwd w) (heap w) (<[joinpath (cwd w) (as_path t) := VectorFile df]> (disk w))
              (trace w ++ [to_file t dr df])).
Proof. intros Hok. unfold DataFrame_to_file. run. by rewrite Hok. Qed.

Lemma for_each_save_group hv wf og D (gs : list (cell * DataFrame)) w :
  for_each gs (save_group (quiet hv wf og) D) w
  = (Ok tt,
     mkWorld (cwd w) (heap w)
       (foldl (λ fs kg, <[joinpath (cwd w) (class_file D kg.1) := VectorFile kg.2]> fs) (disk w) gs)
       (trace w ++ ((λ kg, to_file (path_arg (class_file D kg.1)) None kg.2) <$> gs))).
Proof.
  revert w. induction gs as [|[k g] gs IH]; intros w.
  - cbn. rewrite app_nil_r. by destruct w.
  - cbn [for_each]. unfold save_group at 1. erewrite bind_Ok by (by apply to_file_quiet).
    rewrite IH. cbn. by rewrite <-app_assoc.
Qed.

Lemma written_to_file (f : cell → PurePath) (g : cell → DataFrame) (ks : list cell) :
  written ((λ k, to_file (path_arg (f k)) None (g k)) <$> ks)
  = (λ k, (path_arg (f k), g k)) <$> ks.
Proof. induction ks as [|k ks IH]; [done|]. cbn. f_equal. apply IH. Qed.

Lemma foldl_insert_lookup {K A B} `{Countable K}
    (f : A → K) (g : A → B) (l : list A) (m : gmap K B) a :
  a ∈ l → (∀ a', a' ∈ l → f a' = f a → a' = a) →
  foldl (λ d x, <[f x := g x]> d) m l !! f a = Some (g a).
Proof.
  revert m. induction l as [|x l IH] using rev_ind; intros m Hin Hinj;
    [by apply elem_of_nil in Hin|].
  rewrite foldl_app. cbn. destruct (decide (f x = f a)) as [Heq|Hne].
  - rewrite Heq, lookup_insert_eq. f_equal. f_equal. apply Hinj; [|done].
    apply elem_of_app. right. by apply list_elem_of_singleton.
  - rewrite lookup_insert_ne by done. apply IH.
    + apply elem_of_app in Hin as [|Hin]; [done|]. apply list_elem_of_singleton in Hin. by subst.
    + intros a' Ha'. apply Hinj. apply elem_of_app. by left.
Qed.

(** C1, as the code has it.  The loop calls [to_file] once for each
    distinct value of CLASS_NAME that is not missing, with the path
    [DATA_DIRECTORY / "LU_<key>.shp"] and the rows of the input whose
    CLASS_NAME is that key, in their order and with their labels; a
    row whose CLASS_NAME is missing goes to no file, every other row
    to the file of its class only.  The data set itself is not
    changed, and where no other key leads to the same path the file on
    disk holds the group of the key. *)
Theorem fan_out_writes_one_file_per_class
    hv wf og (w : world) (D : PurePath) (data_set : nat) (df : DataFrame) :
  heap w !! data_set = Some df → "CLASS_NAME" ∈ columns df →
  let keys := group_keys "CLASS_NAME" df in
  let group_of k := get_group_frame "CLASS_NAME" df k in
  let saved w' := written (drop (length (trace w)) (trace w')) in
  ∃ w', cell_fan_out (quiet hv wf og) D data_set w = (Ok tt, w') ∧
    saved w' = (λ k, (path_arg (class_file D k), group_of k)) <$> keys ∧
    NoDup keys ∧
    (∀ k, k ∈ keys ↔ k ≠ NaN ∧ ∃ r, r ∈ rows df ∧ value "CLASS_NAME" r.2 = k) ∧
    (∀ k, rows (group_of k) = filter (λ r, value "CLASS_NAME" r.2 = k) (rows df)) ∧
    (∀ r, r ∈ rows df →
       if decide (value "CLASS_NAME" r.2 = NaN)
       then ∀ k, k ∈ keys → r ∉ rows (group_of k)
       else ∀ k, k ∈ keys → (r ∈ rows (group_of k) ↔ k = value "CLASS_NAME" r.2)) ∧
    heap w' = heap w ∧
    (∀ k, k ∈ keys →
       (∀ k', k' ∈ keys →
          joinpath (cwd w) (class_file D k') = joinpath (cwd w) (class_file D k) → k' = k) →
       disk w' !! joinpath (cwd w) (class_file D k) = Some (VectorFile (group_of k))).
Proof.
  intros Hdf Hc keys group_of saved. subst saved.
  unfold cell_fan_out, DataFrame_groupby. run. rewrite Hdf. run.
  rewrite groupby_ok by done. run.
  rewrite for_each_save_group. eexists. split; [done|]. cbn [trace disk heap cwd].
  unfold groups. cbn [obj by_column]. change (List.map ?f ?l) with (f <$> l). fold keys.
  rewrite <-list_fmap_compose.
  split; [|split; [apply NoDup_group_keys|split; [apply elem_of_group_keys|]]].
  { rewrite <-!app_assoc, drop_app_length. cbn.
    apply (written_to_file (class_file D) group_of). }
  split; [done|]. split; [|split; [done|]].
  - intros r Hr. case_decide as Hnan.
    + intros k Hk Hin. apply list_elem_of_filter in Hin as [Hv _].
      apply elem_of_group_keys in Hk as [Hk _]. congruence.
    + intros k Hk. split.
      * by intros [Hv _]%list_elem_of_filter.
      * intros ->. by apply list_elem_of_filter.
  - intros k Hk Hinj. rewrite foldl_fmap.
    by apply (foldl_insert_lookup (λ k, joinpath (cwd w) (class_file D k))
                (λ k, VectorFile (group_of k))).
Qed.


(** ** The calls of a completed run *)

Lemma for_each_inv {A} (body : A → M unit) (ext : list call) (l : list A) w w' :
  (∀ x w1 w2, body x w1 = (Ok tt, w2) →
     same_state w1 w2 ∧ erase <$> trace w2 = (erase <$> trace w1) ++ ext) →
  for_each l body w = (Ok tt, w') →
  same_state w w' ∧ erase <$> trace w' = (erase <$> trace w) ++ concat (replicate (length l) ext).
Proof.
  intros Hbody. revert w. induction l as [|x l IH]; intros w Hrun.
  - apply ok_pair_inv in Hrun as [_ <-]. by rewrite app_nil_r.
  - cbn [for_each] in Hrun. apply bind_inv in Hrun as ([] & w1 & Hx & Hrun).
    apply Hbody in Hx as [(Hc & Hh & Hd) Ht]. apply IH in Hrun as [(Hc' & Hh' & Hd') Ht'].
    split; [unfold same_state; by rewrite Hc', Hh', Hd'|].
    rewrite Ht', Ht. cbn. by rewrite <-app_assoc.
Qed.

Lemma finally_inv {A} (m : M A) (f : world → world) w a w' :
  finally m f w = (Ok a, w') → ∃ w1, m w = (Ok a, w1) ∧ w' = f w1.
Proof.
  unfold finally. destruct (m w) as [r w1]. cbn. intros [= -> <-]. by exists w1.
Qed.

(** *** The swap lambda as the kernel runs it *)

Lemma lambda_swap_quiet hv wf og (geom : cell) w :
  lambda_swap (quiet hv wf og) geom w
  = (swap_xy geom, mkWorld (cwd w) (heap w) (disk w) (trace w ++ swap_calls geom)).
Proof.
  unfold lambda_swap, swap_xy, swap_calls.
  destruct geom as [| | | |[x y [z|]| |]]; run; cbn; by rewrite <-?app_assoc.
Qed.

Lemma Series_apply_quiet hv wf og (s : Series label) w :
  Series_apply s (lambda_swap (quiet hv wf og)) w
  = (apply s swap_xy, mkWorld (cwd w) (heap w) (disk w) (trace w ++ apply_calls s.*2)).
Proof.
  revert w. induction s as [|[i c] s IH]; intros w.
  - cbn. rewrite app_nil_r. by destruct w.
  - cbn [Series_apply fmap list_fmap apply_calls snd fst].
    unfold mbind at 1, M_bind at 1. rewrite lambda_swap_quiet.
    unfold apply in *. cbn [map_result snd fst].
    destruct (swap_xy c) as [v|e]; cbn [mbind result_bind].
    + unfold mbind at 1, M_bind at 1. rewrite IH. cbn [cwd heap disk trace].
      rewrite <-app_assoc. by destruct (map_result _ s).
    + by rewrite app_nil_r.
Qed.

Lemma Series_apply_inv hv wf og (s s' : Series label) w w' :
  Series_apply s (lambda_swap (quiet hv wf og)) w = (Ok s', w') →
  apply s swap_xy = Ok s' ∧
  w' = mkWorld (cwd w) (heap w) (disk w) (trace w ++ apply_calls s.*2).
Proof. rewrite Series_apply_quiet. by intros [= -> <-]. Qed.

Lemma apply_swap_inv (s s' : Series label) :
  apply s swap_xy = Ok s' →
  Forall (λ e : label * cell, ∃ x y z, e.2 = Geom (Point x y z)) s ∧
  s' = (λ e, (e.1, swapped_cell e.2)) <$> s.
Proof.
  unfold apply. revert s'. induction s as [|[i c] s IH]; intros s' Hs.
  - injection Hs as <-. by split.
  - cbn [map_result fst snd] in Hs.
    destruct c as [| | | |[x y z| |]]; try done.
    rewrite swap_xy_point in Hs. cbn [mbind result_bind] in Hs.
    destruct (map_result _ s) as [vs|]; [|done]. cbn in Hs. injection Hs as <-.
    destruct (IH vs eq_refl) as [Hall ->]. split; [|done].
    constructor; [|done]. cbn. eauto.
Qed.

Lemma apply_calls_points (cs : list cell) :
  Forall (λ c, ∃ x y z, c = Geom (Point x y z)) cs →
  apply_calls cs = concat (swap_calls <$> cs).
Proof.
  induction 1 as [|c cs (x & y & z & ->) _ IH]; [done|].
  cbn [apply_calls fmap list_fmap concat]. by rewrite swap_xy_point, IH.
Qed.

Lemma swap_calls_kinds (c : cell) :
  (∃ x y z, c = Geom (Point x y z)) → kind_of <$> swap_calls c = swap_kinds (three_d c).
Proof. intros (x & y & [z|] & ->); done. Qed.

Lemma erase_swap_calls (c : cell) : erase <$> swap_calls c = swap_calls c.
Proof. by destruct c as [| | | |[x y [z|]| |]]. Qed.

Lemma erase_concat_swap_calls (cs : list cell) :
  erase <$> concat (swap_calls <$> cs) = concat (swap_calls <$> cs).
Proof.
  induction cs as [|c cs IH]; [done|]. cbn. by rewrite fmap_app, erase_swap_calls, IH.
Qed.

Lemma set_crs_inv df c df' :
  set_crs df c = Ok df' → columns df' = columns df ∧ rows df' = rows df.
Proof.
  unfold set_crs. destruct (crs df) as [c0|].
  - destruct (crs_equal c0 c); [|done]. by intros [= <-].
  - by intros [= <-].
Qed.

Lemma geometries_reset_index df : geometries (reset_index df) = geometries df.
Proof.
  unfold geometries.
  change (λ r : label * Row, value "geometry" r.2) with (value "geometry" ∘ (snd : label * Row → Row)).
  by rewrite !list_fmap_compose, rows_reset_index.
Qed.

Lemma holds_point_rows df df' :
  (rows df).*2 = (rows df').*2 → Forall holds_point (rows df) → Forall holds_point (rows df').
Proof.
  intros Heq Hp. apply (Forall_fmap snd (λ r, ∃ x y z, value "geometry" r = Geom (Point x y z))).
  rewrite <-Heq. by apply Forall_fmap.
Qed.

Lemma geometry_column_values df :
  ((λ r : label * Row, (r.1, value "geometry" r.2)) <$> rows df).*2 = geometries df.
Proof. unfold geometries. by rewrite <-list_fmap_compose. Qed.

(** what a completed swap says about the column it ran on *)
Lemma swap_inv df (s s' : Series label) :
  getitem df "geometry" = Ok s → apply s swap_xy = Ok s' →
  Forall holds_point (rows df) ∧ apply_calls s.*2 = concat (swap_calls <$> geometries df).
Proof.
  unfold getitem. case_decide; [|done]. intros [= <-] [Hall _]%apply_swap_inv.
  change (List.map ?f ?l) with (f <$> l) in *. rewrite Forall_fmap in Hall.
  split; [exact Hall|]. rewrite <-list_fmap_compose. apply apply_calls_points.
  unfold geometries. by rewrite Forall_fmap.
Qed.

Section quiet.
Context (hv : string → option DataFrame) (wf : string → string → string → string)
        (og : string → result DataFrame).
#[local] Abbreviation E := (quiet hv wf og).

Lemma loop_row_area l w w' :
  for_each l (print_row_area E) w = (Ok tt, w') →
  same_state w w' ∧
  erase <$> trace w' = (erase <$> trace w)
    ++ concat (replicate (length l) [method "__getitem__"; attribute "area"; print ""]).
Proof.
  apply for_each_inv. intros [i row] w1 w2 Hr. unfold print_row_area in Hr. inv0 Hr.
  split; [done|]. cbn. by rewrite ?fmap_app, <-?app_assoc.
Qed.

Lemma loop_frame_area n l w w' :
  for_each l (print_frame_area E n) w = (Ok tt, w') →
  same_state w w' ∧
  erase <$> trace w' = (erase <$> trace w)
    ++ concat (replicate (length l) [attribute "area"; method "__getitem__"; print ""]).
Proof.
  apply for_each_inv. intros [i row] w1 w2 Hr.
  unfold print_frame_area, GeoDataFrame_area in Hr. inv0 Hr.
  split; [done|]. cbn. by rewrite ?fmap_app, <-?app_assoc.
Qed.

Lemma loop_group_size l w w' :
  for_each l (print_group_size E) w = (Ok tt, w') →
  same_state w w' ∧
  erase <$> trace w' = (erase <$> trace w)
    ++ concat (replicate (length l) [method "__len__"; print ""]).
Proof.
  apply for_each_inv. intros [i row] w1 w2 Hr. unfold print_group_size in Hr. inv0 Hr.
  split; [done|]. cbn. by rewrite ?fmap_app, <-?app_assoc.
Qed.

Ltac inv_loop H body_inv :=
  let Hs := fresh "Hs" in let Ht := fresh "Ht" in
  match type of H with _ = (Ok ?u, _) => destruct u end;
  apply body_inv in H as [Hs Ht];
  match type of Hs with same_state _ ?w =>
    destruct w; destruct Hs as (? & ? & ?); simpl in *; subst
  end.

Ltac inv1 H :=
  cbv beta in H; unfold record, fresh_kernel in H; cbn [cwd heap disk trace as_path] in H;
  try match type of H with
      | context [is_url ?s] =>
          let b := eval vm_compute in (is_url s) in
          change (is_url s) with b in H; cbv iota in H
      end;
  lazymatch type of H with
  | (_ ≫= _) _ = (Ok _, _) =>
      let a := fresh "a" in let w1 := fresh "w" in let H1 := fresh "H" in
      apply bind_inv in H as (a & w1 & H1 & H); inv1 H1; inv1 H
  | for_each _ (print_row_area _) _ = (Ok _, _) => inv_loop H loop_row_area
  | for_each _ (print_frame_area _ _) _ = (Ok _, _) => inv_loop H loop_frame_area
  | for_each _ (print_group_size _) _ = (Ok _, _) => inv_loop H loop_group_size
  | for_each _ (save_group _ _) _ = (Ok _, _) =>
      rewrite for_each_save_group in H; apply ok_pair_inv in H as [? ?]; subst
  | Series_apply _ (lambda_swap _) _ = (Ok _, _) =>
      apply Series_apply_inv in H as [H ?]; subst
  | finally _ _ _ = (Ok _, _) =>
      let w1 := fresh "w" in let H1 := fresh "H" in
      apply finally_inv in H as (w1 & H & H1); inv1 H; subst
  | _ => inv0 H
  end.

Ltac unfold_cells H :=
  repeat progress unfold geopandas_notebook, cell_data_directory, cell_read_landuse, cell_columns, cell_select,
    cell_rename, cell_geometry_head, cell_print_area, cell_at, cell_iterrows_area,
    cell_area_0, cell_vectorized_area, cell_area_column, cell_water_bodies, cell_save_water_bodies,
    cell_unique, cell_groups, cell_count_rows, cell_get_group, cell_fan_out, cell_area_information,
    cell_area_csv, DataFrame_groupby, GeoDataFrame_area, DataFrame_plot, DataFrame_head,
    vector_io_notebook, cell_read_uganda, cell_read_nuts, cell_write_gpkg, cell_rename_fid,
    cell_write_to, cell_wfs, cell_swap, cell_set_crs, WebFeatureService_, wfs_getfeature,
    response_read_, with_open, file_write,
    paths_notebook, cell_path, cell_data_directory_alt, Path_exists, Path_is_dir,
    os_path_abspath, os_path_dirname,
    crs_notebook, DataFrame_crs, cell_to_crs, cell_subplots, cell_descriptors, cell_wgs84,
    geopandas_read_file, fetch, DataFrame_to_file, Series_to_csv, Path_resolve, first_rows,
    cell_data_directory, cell_geometry_head, DataFrame_plot, DataFrame_head in H.

Lemma length_rows_reset_index df : length (rows (reset_index df)) = length (rows df).
Proof. by rewrite <-(length_fmap snd), rows_reset_index, length_fmap. Qed.

Lemma first_five_rows ds df c :
  getitem_list (reset_index ds) ["KKOD"; "KATEGORI"; "geometry"] = Ok df →
  at_ (rename df [("KKOD", "ID_CLASS"); ("KATEGORI", "CLASS_NAME")]) 4%Z "geometry" = Ok c →
  length (iterrows (slice_to (rename df [("KKOD", "ID_CLASS"); ("KATEGORI", "CLASS_NAME")]) 5)) = 5.
Proof.
  intros Hsel Hat%at_label. unfold iterrows, slice_to. cbn [rows].
  rewrite length_take. unfold index in Hat. rewrite (renamed_rows _ _ Hsel) in *.
  rewrite <-list_fmap_compose in Hat. rewrite length_fmap, length_rows_reset_index.
  change (fst ∘ _) with (@fst label Row) in Hat.
  fold (index (reset_index ds)) in Hat. rewrite index_reset_index in Hat.
  apply list_elem_of_fmap in Hat as (i & Hi & Hin). apply elem_of_seq in Hin. lia.
Qed.

Lemma class_keys ds df s :
  getitem_list (reset_index ds) ["KKOD"; "KATEGORI"; "geometry"] = Ok df →
  area (rename df [("KKOD", "ID_CLASS"); ("KATEGORI", "CLASS_NAME")]) = Ok s →
  group_keys "CLASS_NAME"
    (setitem (rename df [("KKOD", "ID_CLASS"); ("KATEGORI", "CLASS_NAME")]) "area" s)
  = group_keys "KATEGORI" ds.
Proof.
  intros Hsel Hs. apply group_keys_ext.
  rewrite (area_column_rows _ _ Hs), (renamed_rows _ _ Hsel), <-!list_fmap_compose.
  transitivity ((λ r, value "KATEGORI" r) <$> (rows (reset_index ds)).*2).
  - rewrite <-list_fmap_compose. apply list_fmap_ext. intros i r _. cbn.
    by rewrite value_set_ne.
  - by rewrite rows_reset_index, <-list_fmap_compose.
Qed.

Lemma groupby_inv df by_ g : groupby df by_ = Ok g → g = mkGroupBy df by_.
Proof. unfold groupby. by case_decide; intros [= <-]. Qed.

Lemma geopandas_notebook_calls d fs ds w' :
  fs !! joinpath d (data_directory d / "Landusepolygon.shp")%path = Some (VectorFile ds) →
  geopandas_notebook E (fresh_kernel d fs) = (Ok tt, w') →
  erase <$> trace w' = geopandas_calls d (group_keys "KATEGORI" ds).
Proof.
  intros Hfile Hrun. unfold_cells Hrun. inv1 Hrun.
  change ((joinpath d Path0 / "data")%path) with (data_directory d) in *.
  rewrite Hfile in *. simplify_eq.
  repeat match goal with Hg : groupby _ _ = Ok _ |- _ => apply groupby_inv in Hg; subst end.
  match goal with Hsel : getitem_list _ _ = Ok _, Hat : at_ _ _ _ = Ok _ |- _ =>
    rewrite (first_five_rows _ _ _ Hsel Hat) in *
  end.
  unfold groups in *. cbn [obj by_column] in *.
  match goal with Hsel : getitem_list _ _ = Ok _, Hs : area _ = Ok _ |- _ =>
    rewrite (class_keys _ _ _ Hsel Hs) in *
  end.
  cbn [trace]. change (map ?f ?l) with (f <$> l) in *. rewrite ?length_fmap in *.
  rewrite !fmap_app, Ht1, !fmap_app, Ht0, !fmap_app, Ht, <-!list_fmap_compose.
  unfold geopandas_calls. cbn. rewrite <-?app_assoc. cbn.
  by repeat f_equal.
Qed.

Lemma vector_io_notebook_calls d fs w' :
  vector_io_notebook E (fresh_kernel d fs) = (Ok tt, w') →
  ∃ pumps, og (wf wfs_url "od_gis:Cykelpump_Punkt" "GML2") = Ok pumps ∧
    Forall holds_point (rows pumps) ∧
    erase <$> trace w' = vector_io_calls d (geometries pumps).
Proof.
  intros Hrun. unfold_cells Hrun. inv1 Hrun.
  change ((joinpath d Path0 / "data")%path) with (data_directory d) in *.
  match goal with Hgml : match _ !! _ with _ => _ end = Ok ?x |- _ =>
    rewrite !lookup_insert_eq in Hgml; change ("" +:+ ?b) with b in Hgml;
    cbn [ogr_gml wfs_feature quiet fst snd] in Hgml; exists x; split; [exact Hgml|]
  end.
  match goal with
    Hc : set_crs _ _ = Ok ?df, Hg : getitem ?df "geometry" = Ok ?s, Ha : apply ?s swap_xy = Ok _ |- _ =>
      destruct (swap_inv _ _ _ Hg Ha) as [Hpts Hcalls];
      destruct (set_crs_inv _ _ _ Hc) as [_ Hrows]
  end.
  match type of Hrows with rows ?df = rows (reset_index ?pumps) =>
    assert (Hgeoms : geometries df = geometries pumps)
      by (rewrite <-(geometries_reset_index pumps); unfold geometries; by rewrite Hrows);
    assert (Hpumps : Forall holds_point (rows pumps))
  end.
  { eapply holds_point_rows; [|exact Hpts]. by rewrite Hrows, rows_reset_index. }
  split; [exact Hpumps|]. rewrite Hgeoms in Hcalls.
  cbn [trace]. rewrite Hcalls, ?fmap_app, erase_concat_swap_calls.
  unfold vector_io_calls. rewrite <-?app_assoc. by repeat f_equal.
Qed.




Lemma paths_notebook_calls d fs w' :
  paths_notebook E (fresh_kernel d fs) = (Ok tt, w') →
  erase <$> trace w' = paths_calls d.
Proof.
  intros Hrun. unfold_cells Hrun. inv1 Hrun.
  cbn [trace]. rewrite ?fmap_app. by repeat f_equal.
Qed.

Lemma crs_notebook_calls d fs w' :
  crs_notebook E (fresh_kernel d fs) = (Ok tt, w') →
  erase <$> trace w' = crs_calls.
Proof.
  intros Hrun. unfold_cells Hrun. inv1 Hrun.
  cbn [trace]. rewrite ?fmap_app. by repeat f_equal.
Qed.

Lemma kind_of_erase (c : call) : kind_of (erase c) = kind_of c.
Proof. by destruct c. Qed.


Lemma kinds_erase (tr : list call) : kind_of <$> (erase <$> tr) = kind_of <$> tr.
Proof. rewrite <-list_fmap_compose. apply list_fmap_ext. intros i c _. apply kind_of_erase. Qed.


Lemma fmap_concat_replicate {A B} (f : A → B) n (l : list A) :
  f <$> concat (replicate n l) = concat (replicate n (f <$> l)).
Proof. induction n as [|n IH]; [done|]. cbn. by rewrite fmap_app, IH. Qed.

Lemma fmap_const_replicate {A B} (f : A → B) (b : B) (l : list A) :
  (∀ a, f a = b) → f <$> l = replicate (length l) b.
Proof. intros Hf. induction l as [|a l IH]; [done|]. cbn. by rewrite Hf, IH. Qed.

Lemma geopandas_calls_kinds d keys :
  kind_of <$> geopandas_calls d keys = geopandas_kinds (length keys).
Proof.
  unfold geopandas_calls, geopandas_kinds. rewrite !fmap_app, !fmap_concat_replicate.
  rewrite <-list_fmap_compose.
  rewrite (fmap_const_replicate
             (kind_of ∘ (λ k, to_file (path_arg (class_file (data_directory d) k)) None
                                (mkFrame [] [] None))) k_write keys)
    by (intros ?; reflexivity).
  done.
Qed.






Lemma swap_calls_all_kinds (cs : list cell) :
  Forall (λ c, ∃ x y z, c = Geom (Point x y z)) cs →
  kind_of <$> concat (swap_calls <$> cs) = concat (swap_kinds <$> (three_d <$> cs)).
Proof.
  induction 1 as [|c cs Hc _ IH]; [done|]. cbn. by rewrite fmap_app, swap_calls_kinds, IH.
Qed.

Lemma vector_io_calls_kinds d pumps :
  Forall holds_point (rows pumps) →
  kind_of <$> vector_io_calls d (geometries pumps)
  = vector_io_kinds (three_d <$> geometries pumps).
Proof.
  intros Hpts. unfold vector_io_calls, vector_io_kinds. rewrite !fmap_app.
  rewrite swap_calls_all_kinds; [done|]. unfold geometries. by rewrite Forall_fmap.
Qed.


End quiet.


(** ** Paths *)

Lemma split_sep_no_sep s : no_sep s = true → split_sep s = [s].
Proof.
  induction s as [|c s IH]; [done|]. cbn. destruct (is_sep c); [done|]. cbn.
  intros Hs. by rewrite IH.
Qed.

Lemma leading_seps_no_sep s : no_sep s = true → leading_seps s = 0.
Proof. destruct s as [|c s]; [done|]. cbn. by destruct (is_sep c). Qed.

Lemma Path_file_name n : is_file_name n = true → Path n = mkPath Relative [n].
Proof.
  unfold is_file_name. intros [Hs Hn%bool_decide_eq_true_1]%andb_true_iff.
  unfold Path, splitroot, parse_parts. rewrite leading_seps_no_sep, split_sep_no_sep by done.
  by rewrite filter_cons_True.
Qed.

Lemma truediv_file_name B n :
  is_file_name n = true → (B / n)%path = mkPath (anchor B) (parts B ++ [n]).
Proof. intros Hn. unfold truediv. by rewrite Path_file_name. Qed.

Lemma parent_name_truediv B n :
  is_file_name n = true → parent (B / n) = B ∧ name (B / n) = n.
Proof.
  intros Hn. rewrite truediv_file_name by done. unfold parent, name. cbn.
  rewrite removelast_last, last_last. destruct B as [a ps]. cbn.
  by destruct ps.
Qed.

Lemma cell_data_directory_inv (E : environment) w D w' :
  cell_data_directory E w = (Ok D, w') → D = (joinpath (cwd w) Path0 / "data")%path.
Proof.
  unfold cell_data_directory, Path_resolve. run. destruct (fault E _); [done|]. cbn.
  by intros [= <- <-].
Qed.

Lemma cell_data_directory_alt_inv (E : environment) w D w' :
  cell_data_directory_alt E w = (Ok D, w') → D = data_directory_alt (cwd w).
Proof.
  unfold cell_data_directory_alt, os_path_abspath, os_path_dirname, Path_resolve. run.
  repeat (destruct (fault E _); [done|]; cbn). by intros [= <- <-].
Qed.

Lemma no_sep_app s t : no_sep (s +:+ t) = no_sep s && no_sep t.
Proof.
  induction s as [|c s IH]; [done|]. change (String c s +:+ t) with (String c (s +:+ t)).
  cbn [no_sep]. by rewrite IH, andb_assoc.
Qed.

Lemma class_file_is_file_name s : is_file_name ("LU_" +:+ s +:+ ".shp") = no_sep s.
Proof.
  unfold is_file_name. rewrite !no_sep_app.
  rewrite bool_decide_eq_true_2 by (split; done).
  change (no_sep "LU_") with true. change (no_sep ".shp") with true.
  by rewrite !andb_true_r.
Qed.

Lemma class_file_name s : no_sep s = true → is_file_name ("LU_" +:+ s +:+ ".shp") = true.
Proof. intros Hs. by rewrite class_file_is_file_name. Qed.


(** C6, as the code has it.  The calls of a completed run come in
    the order of the cells, and their kinds are fixed for the paths
    and the CRS notebook.  In the Geopandas notebook the loop over the
    groups and the fan-out loop run once for each distinct class, so
    that the sequence of kinds is fixed by the number of distinct
    classes of the data set, and by nothing else in it.  In the vector
    I/O notebook the swap lambda runs once for each feature of the WFS
    layer and reads [z] only where the point has one, so that the
    sequence of kinds is fixed by the dimensions of the points of the
    layer, feature by feature, and by nothing else. *)
Theorem kinds_of_calls_of_completed_runs hv wf og d fs w' :
  let E := quiet hv wf og in
  (vector_io_notebook E (fresh_kernel d fs) = (Ok tt, w') →
   ∃ pumps, og (wf wfs_url "od_gis:Cykelpump_Punkt" "GML2") = Ok pumps ∧
     kind_of <$> trace w' = vector_io_kinds (three_d <$> geometries pumps)) ∧
  (paths_notebook E (fresh_kernel d fs) = (Ok tt, w') →
   kind_of <$> trace w' = paths_kinds) ∧
  (crs_notebook E (fresh_kernel d fs) = (Ok tt, w') →
   kind_of <$> trace w' = crs_kinds) ∧
  (∀ ds,
     fs !! joinpath d (data_directory d / "Landusepolygon.shp")%path = Some (VectorFile ds) →
     geopandas_notebook E (fresh_kernel d fs) = (Ok tt, w') →
     kind_of <$> trace w' = geopandas_kinds (length (group_keys "KATEGORI" ds))).
Proof.
  intros E. split; [|split; [|split]].
  - intros (pumps & Hog & Hpts & Hrun)%vector_io_notebook_calls. exists pumps.
    split; [exact Hog|]. by rewrite <-kinds_erase, Hrun, vector_io_calls_kinds.
  - intros Hrun%paths_notebook_calls. by rewrite <-kinds_erase, Hrun.
  - intros Hrun%crs_notebook_calls. by rewrite <-kinds_erase, Hrun.
  - intros ds Hfile Hrun. eapply geopandas_notebook_calls in Hrun; [|exact Hfile].
    by rewrite <-kinds_erase, Hrun, geopandas_calls_kinds.
Qed.


(** ** Failures *)

Lemma first_fault_app (E : environment) start l1 l2 :
  first_fault E start (l1 ++ l2)
  = match first_fault E start l1 with
    | Some (e, rest) => Some (e, rest ++ l2)
    | None => first_fault E (start + length l1) l2
    end.
Proof.
  revert start. induction l1 as [|c l1 IH]; intros start.
  - cbn. by rewrite Nat.add_0_r.
  - cbn. rewrite IH. replace (S start + length l1) with (start + S (length l1)) by lia.
    destruct (is_close c); [done|]. by destruct (fault E start).
Qed.

Lemma silent_fail_stop (E : environment) {A} (m : M A) :
  (∀ w, trace (m w).2 = trace w) → fail_stop E m.
Proof. intros Hm w. exists []. by rewrite app_nil_r, Hm. Qed.

Lemma plain_fail_stop (E : environment) allowed {A} (m : M A) :
  plain E allowed m → fail_stop E m.
Proof.
  induction 1 as [A a|A B m k Hm IHm Hk IHk|c Hc _|A r|l|df|l df| |p f|p|A m Hm IHm].
  - by apply silent_fail_stop.
  - intros w. destruct (IHm w) as (ext1 & Ht1 & Hf1).
    unfold mbind, M_bind. destruct (m w) as [[a|e] w1] eqn:Hmw; cbn in *.
    + destruct (IHk a w1) as (ext2 & Ht2 & Hf2). exists (ext1 ++ ext2).
      split; [by rewrite Ht2, Ht1, app_assoc|].
      rewrite first_fault_app.
      destruct (first_fault E _ ext1) as [[e rest]|]; [destruct Hf1 as [Hd _]; discriminate Hd|].
      rewrite Ht1, length_app in Hf2. exact Hf2.
    + exists ext1. split; [done|].
      destruct (first_fault E _ ext1) as [[e' rest]|]; [|done].
      destruct Hf1 as [[= ->] Hrest]. by split.
  - intros w. exists [c]. unfold emit. cbn. rewrite Hc.
    destruct (fault E _); cbn; [|done]. by split.
  - by apply silent_fail_stop.
  - apply silent_fail_stop. intros w. unfold load. by destruct (heap w !! l).
  - by apply silent_fail_stop.
  - by apply silent_fail_stop.
  - by apply silent_fail_stop.
  - by apply silent_fail_stop.
  - by apply silent_fail_stop.
  - intros w. destruct (IHm w) as (ext1 & Ht1 & Hf1). exists (ext1 ++ [close]).
    unfold finally, record. cbn. split; [by rewrite Ht1, app_assoc|].
    rewrite first_fault_app. destruct (first_fault E _ ext1) as [[e rest]|].
    + destruct Hf1 as [-> Hrest]. split; [done|]. apply Forall_app. split; [done|].
      by apply Forall_singleton.
    + done.
Qed.

Lemma plain_calls (E : environment) allowed {A} (m : M A) :
  plain E allowed m →
  ∀ w, ∃ ext, trace (m w).2 = trace w ++ ext ∧ Forall (λ c, allowed c ∨ c = close) ext.
Proof.
  assert (Hsilent : ∀ B (m' : M B), (∀ w, trace (m' w).2 = trace w) →
            ∀ w, ∃ ext, trace (m' w).2 = trace w ++ ext ∧ Forall (λ c, allowed c ∨ c = close) ext).
  { intros B m' Hm' w. exists []. by rewrite app_nil_r, Hm'. }
  induction 1 as [A a|A B m k Hm IHm Hk IHk|c _ Hc|A r|l|df|l df| |p f|p|A m Hm IHm];
    try (by apply Hsilent).
  - intros w. destruct (IHm w) as (ext1 & Ht1 & Hf1).
    unfold mbind, M_bind. destruct (m w) as [[a|e] w1] eqn:Hmw; cbn in *.
    + destruct (IHk a w1) as (ext2 & Ht2 & Hf2). exists (ext1 ++ ext2).
      split; [by rewrite Ht2, Ht1, app_assoc|]. by apply Forall_app.
    + by exists ext1.
  - intros w. exists [c]. unfold emit. cbn.
    split; [by destruct (fault E _)|]. apply Forall_singleton. by left.
  - apply Hsilent. intros w. unfold load. by destruct (heap w !! l).
  - intros w. destruct (IHm w) as (ext1 & Ht1 & Hf1). exists (ext1 ++ [close]).
    unfold finally, record. cbn. split; [by rewrite Ht1, app_assoc|].
    apply Forall_app. split; [done|]. apply Forall_singleton. by right.
Qed.

Lemma plain_for_each (E : environment) allowed {A} (l : list A) (body : A → M unit) :
  (∀ x, plain E allowed (body x)) → plain E allowed (for_each l body).
Proof.
  intros Hb. induction l as [|x l IH]; cbn [for_each].
  - apply (plain_ret E allowed tt).
  - apply plain_bind; [apply Hb|]. by intros [].
Qed.

Lemma plain_Series_apply (E : environment) allowed {I} (s : Series I) (func : cell → M cell) :
  (∀ c, plain E allowed (func c)) → plain E allowed (Series_apply s func).
Proof.
  intros Hf. induction s as [|e s IH]; cbn [Series_apply].
  - apply (plain_ret E allowed []).
  - apply plain_bind; [apply Hf|]. intros v. apply plain_bind; [exact IH|].
    intros vs. apply (plain_ret E allowed).
Qed.

Ltac plain_step :=
  lazymatch goal with
  | |- plain _ _ (_ ≫= _) => apply plain_bind; [|intros ?]
  | |- plain _ _ (mret _) => apply plain_ret
  | |- plain _ _ (emit _ _) => apply plain_emit; [reflexivity|done]
  | |- plain _ _ (lift _) => apply plain_lift
  | |- plain _ _ (load _) => apply plain_load
  | |- plain _ _ (new _) => apply plain_new
  | |- plain _ _ (store _ _) => apply plain_store
  | |- plain _ _ get_cwd => apply plain_get_cwd
  | |- plain _ _ (put_file _ _) => apply plain_put_file
  | |- plain _ _ (get_file _) => apply plain_get_file
  | |- plain _ _ (finally _ (record close)) => apply plain_with
  | |- plain _ _ (for_each _ _) => apply plain_for_each; intros [? ?]
  | |- plain _ _ (Series_apply _ _) => apply plain_Series_apply; intros ?; unfold lambda_swap
  | |- plain _ _ (if ?b then _ else _) => destruct b
  | |- plain _ _ (match ?x with str_arg _ => _ | path_arg _ => _ end) => destruct x
  | |- plain _ _ (let '(_, _) := ?x in _) => destruct x
  end.

Ltac plain_cells :=
  repeat progress unfold geopandas_notebook, cell_data_directory, cell_read_landuse,
    cell_columns, cell_select, cell_rename, cell_geometry_head, cell_print_area, cell_at,
    cell_iterrows_area, cell_area_0, cell_vectorized_area, cell_area_column, cell_water_bodies,
    cell_save_water_bodies, cell_unique, cell_groups, cell_count_rows, cell_get_group,
    cell_fan_out, cell_area_information, cell_area_csv, DataFrame_groupby, GeoDataFrame_area,
    print_row_area, print_frame_area, print_group_size, save_group, builtin_print, locate,
    vector_io_notebook, cell_read_uganda, cell_read_nuts, cell_write_gpkg, cell_rename_fid,
    cell_write_to, cell_wfs, cell_swap, cell_set_crs, WebFeatureService_, wfs_getfeature,
    response_read_, with_open, file_write,
    paths_notebook, cell_path, cell_data_directory_alt, Path_exists, Path_is_dir,
    os_path_abspath, os_path_dirname,
    crs_notebook, DataFrame_crs, cell_to_crs, cell_subplots, cell_descriptors, cell_wgs84,
    geopandas_read_file, fetch, DataFrame_to_file, Series_to_csv, Path_resolve, first_rows,
    DataFrame_plot, DataFrame_head.

Lemma notebooks_plain (E : environment) :
  plain E (λ _, True) (vector_io_notebook E) ∧ plain E (λ _, True) (paths_notebook E) ∧
  plain E (λ _, True) (crs_notebook E) ∧ plain E (λ _, True) (geopandas_notebook E).
Proof.
  repeat split; plain_cells; repeat plain_step.
Qed.

Lemma after_the_fetch_plain (E : environment) D response :
  plain E (λ c, is_getfeature c = false) (after_the_fetch E D response).
Proof. unfold after_the_fetch. plain_cells; repeat plain_step. Qed.

Lemma cell_wfs_run (E : environment) D w :
  let w1 := record (WebFeatureService wfs_url "1.1.0") w in
  let w2 := record (getfeature "od_gis:Cykelpump_Punkt" "GML2") w1 in
  cell_wfs E D w
  = match fault E (length (trace w)) with
    | Some e => (Raise e, w1)
    | None =>
        match fault E (S (length (trace w))) with
        | Some e => (Raise e, w2)
        | None => after_the_fetch E D (wfs_url, "od_gis:Cykelpump_Punkt", "GML2") w2
        end
    end.
Proof.
  unfold cell_wfs, WebFeatureService_, wfs_getfeature, after_the_fetch.
  unfold mbind at 1, M_bind at 1. unfold mbind at 1, M_bind at 1. unfold emit at 1.
  cbn [trace record]. destruct (fault E (length (trace w))) as [e0|]; [done|].
  unfold mret at 1, M_ret at 1.
  unfold mbind at 1, M_bind at 1. unfold mbind at 1, M_bind at 1. unfold emit at 1.
  cbn [trace record]. rewrite length_app, Nat.add_1_r.
  by destruct (fault E (S (length (trace w)))) as [e1|].
Qed.

Lemma fetches_none (calls : list call) :
  Forall (λ c, is_getfeature c = false ∨ c = close) calls → fetches calls = 0.
Proof.
  unfold fetches. induction 1 as [|c calls Hc _ IH]; [done|].
  rewrite filter_cons_False; [done|]. by destruct Hc as [->| ->].
Qed.

Lemma wfs_fetch_once (E : environment) D w :
  let rw := cell_wfs E D w in
  let calls := drop (length (trace w)) (trace rw.2) in
  fetches calls ≤ 1 ∧
  (fault E (length (trace w)) = None → fetches calls = 1) ∧
  (∀ e, fault E (length (trace w)) = None → fault E (S (length (trace w))) = Some e →
     rw.1 = Raise e ∧
     calls = [WebFeatureService wfs_url "1.1.0"; getfeature "od_gis:Cykelpump_Punkt" "GML2"]).
Proof.
  intros rw calls. subst calls rw. rewrite cell_wfs_run.
  destruct (fault E (length (trace w))) as [e0|] eqn:Hf0; cbn [fst snd trace record].
  { rewrite drop_app_length. split; [by cbv; lia|]. by split. }
  destruct (fault E (S (length (trace w)))) as [e1|] eqn:Hf1; cbn [fst snd trace record].
  { rewrite <-app_assoc, drop_app_length. split; [by cbv; lia|].
    split; [intros _; reflexivity|]. intros e _ [= <-]. by split. }
  match goal with |- context [after_the_fetch E D ?r ?w0] =>
    destruct (plain_calls E _ _ (after_the_fetch_plain E D r) w0) as (ext & Ht & Hext);
    rewrite Ht; unfold record; cbn [trace]
  end.
  rewrite <-!app_assoc, drop_app_length. cbn [app].
  unfold fetches. rewrite !filter_cons. cbn [is_getfeature].
  rewrite decide_False by done. rewrite decide_True by done. cbn [length].
  fold (fetches ext). rewrite (fetches_none _ Hext). split; [lia|]. split; [done|]. done.
Qed.

(** C4. A notebook is a sequence of library calls without any
    exception handler: in every run, the first library call that fails
    ends the run, its error is the result of the run unchanged, and
    after it nothing is called again (only a file that the failing
    statement had open is closed).  The feature request of the WFS
    cell is issued at most once in a run: exactly once when the
    service object could be made, and when the request itself fails
    the run ends there with the error of the request. *)
Theorem failures_propagate_and_nothing_is_retried (E : environment) :
  (fail_stop E (vector_io_notebook E) ∧ fail_stop E (paths_notebook E) ∧
   fail_stop E (crs_notebook E) ∧ fail_stop E (geopandas_notebook E)) ∧
  (∀ D, fail_stop E (cell_wfs E D)) ∧
  (∀ D w,
     let rw := cell_wfs E D w in
     let calls := drop (length (trace w)) (trace rw.2) in
     fetches calls ≤ 1 ∧
     (fault E (length (trace w)) = None → fetches calls = 1) ∧
     (∀ e, fault E (length (trace w)) = None → fault E (S (length (trace w))) = Some e →
        rw.1 = Raise e ∧
        calls = [WebFeatureService wfs_url "1.1.0"; getfeature "od_gis:Cykelpump_Punkt" "GML2"])).
Proof.
  destruct (notebooks_plain E) as (Ha & Hb & Hc & Hd).
  split; [repeat split; by eapply plain_fail_stop|].
  split; [|apply wfs_fetch_once].
  intros D. eapply (plain_fail_stop E (λ _, True)). plain_cells; repeat plain_step.
Qed.


(** ** The two ways to DATA_DIRECTORY *)

Lemma split_sep_join p s : no_sep p = true → split_sep (p +:+ "/" +:+ s) = p :: split_sep s.
Proof.
  induction p as [|c p IH]; [done|].
  change (String c p +:+ "/" +:+ s) with (String c (p +:+ "/" +:+ s)).
  cbn [split_sep no_sep]. intros [Hc Hp]%andb_true_iff. apply negb_true_iff in Hc.
  by rewrite Hc, IH.
Qed.

Lemma split_sep_join_sep ps :
  ps ≠ [] → Forall (λ p, no_sep p = true) ps → split_sep (join_sep ps) = ps.
Proof.
  induction ps as [|p ps IH]; [done|]. intros _ Hps.
  apply Forall_cons in Hps as [Hp Hps]. destruct ps as [|q ps].
  - by apply split_sep_no_sep.
  - change (join_sep (p :: q :: ps)) with (p +:+ "/" +:+ join_sep (q :: ps)).
    rewrite split_sep_join by done. f_equal. by apply IH.
Qed.

Lemma leading_seps_join_sep ps :
  Forall (λ p, is_file_name p = true) ps → leading_seps (join_sep ps) = 0.
Proof.
  destruct ps as [|p ps]; [done|]. intros [Hp _]%Forall_cons.
  unfold is_file_name in Hp. apply andb_true_iff in Hp as [Hs Hn%bool_decide_eq_true_1].
  destruct p as [|c p]; [by destruct Hn|]. cbn in Hs.
  apply andb_true_iff in Hs as [Hc%negb_true_iff _].
  destruct ps as [|q ps].
  - cbn [join_sep leading_seps]. by rewrite Hc.
  - change (join_sep (String c p :: q :: ps))
      with (String c (p +:+ "/" +:+ join_sep (q :: ps))).
    cbn [leading_seps]. by rewrite Hc.
Qed.

Lemma parse_parts_join_sep ps :
  Forall (λ p, is_file_name p = true) ps → parse_parts (join_sep ps) = ps.
Proof.
  intros Hps. unfold parse_parts. destruct (decide (ps = [])) as [->|Hne]; [done|].
  rewrite split_sep_join_sep; [|done|].
  - induction Hps as [|p ps Hp _ IH]; [done|]. rewrite filter_cons_True.
    + f_equal. destruct ps; [done|]. by apply IH.
    + unfold is_file_name in Hp. by apply andb_true_iff in Hp as [_ Hn%bool_decide_eq_true_1].
  - eapply Forall_impl; [exact Hps|]. intros p Hp. unfold is_file_name in Hp.
    by apply andb_true_iff in Hp as [? _].
Qed.

Lemma Path_render a ps :
  a ≠ Relative → Forall (λ p, is_file_name p = true) ps →
  Path (render (mkPath a ps)) = mkPath a ps.
Proof.
  intros Ha Hps. pose proof (leading_seps_join_sep ps Hps) as Hl.
  pose proof (parse_parts_join_sep ps Hps) as Hp.
  unfold Path, render, splitroot, parse_parts in *. destruct a; [done| |]; cbn [anchor parts anchor_str].
  - change ("/" +:+ join_sep ps) with (String "/" (join_sep ps)).
    cbn [leading_seps split_sep]. change (is_sep "/") with true. cbv iota.
    rewrite Hl. rewrite filter_cons_False by (intros [? _]; done). by rewrite Hp.
  - change ("//" +:+ join_sep ps) with (String "/" (String "/" (join_sep ps))).
    cbn [leading_seps split_sep]. change (is_sep "/") with true. cbv iota.
    rewrite Hl. rewrite !filter_cons_False by (intros [? _]; done). by rewrite Hp.
Qed.

Lemma collapse_no_dotdot seen ps :
  Forall (λ p, String.eqb p ".." = false) ps → collapse seen ps = reverse seen ++ ps.
Proof.
  intros Hps. revert seen. induction Hps as [|p ps Hp _ IH]; intros seen; cbn.
  - by rewrite app_nil_r.
  - by rewrite Hp, IH, reverse_cons, <-app_assoc.
Qed.

Lemma normalised_inv d :
  normalised d = true →
  anchor d ≠ Relative ∧ Forall (λ p, is_file_name p = true) (parts d) ∧
  Forall (λ p, String.eqb p ".." = false) (parts d).
Proof.
  unfold normalised, is_absolute. intros [Ha Hps]%andb_true_iff.
  split; [by destruct (anchor d)|]. rewrite forallb_forall in Hps.
  split; apply Forall_forall; intros p Hp%list_elem_of_In%Hps; unfold is_component in Hp;
    apply andb_true_iff in Hp as [? ?%negb_true_iff]; done.
Qed.

Lemma joinpath_Path0 d : joinpath d Path0 = d.
Proof.
  destruct d as [a ps]. unfold joinpath. change Path0 with (mkPath Relative []).
  cbn. by rewrite app_nil_r.
Qed.

Lemma joinpath_absolute d q : is_absolute q = true → joinpath d q = q.
Proof. intros Hq. unfold joinpath. by rewrite Hq. Qed.

Lemma file_dir_normalised d : normalised d = true → file_dir d = render d ∧ Path (file_dir d) = d.
Proof.
  intros (Ha & Hps & Hdd)%normalised_inv.
  assert (Hf : file_dir d = render d).
  { unfold file_dir, abspath_of. change (joinpath d (Path ?s)) with (d / s)%path.
    rewrite truediv_file_name by done. unfold normpath. cbn [anchor parts].
    rewrite collapse_no_dotdot; last first.
    { apply Forall_app. split; [done|]. by apply Forall_singleton. }
    rewrite reverse_nil, app_nil_l. rewrite Path_render; [|done|]; last first.
    { apply Forall_app. split; [done|]. by apply Forall_singleton. }
    unfold parent. cbn [parts anchor]. rewrite removelast_last.
    destruct d as [a ps]. cbn. by destruct ps. }
  split; [done|]. rewrite Hf. destruct d as [a ps]. by apply Path_render.
Qed.

(** X1. The two cells that define DATA_DIRECTORY, the one with
    [pathlib.Path().resolve()] and the one with [os.path.abspath] and
    [os.path.dirname], compute the same path when the working directory
    is an absolute path without ".." components: FILE_DIR is the
    working directory as a string, it parses back to the working
    directory, and both cells give the working directory with "data"
    appended. *)
Theorem both_ways_to_the_data_directory_agree
    (E : environment) (w1 w2 w1' w2' : world) (D1 D2 : PurePath) :
  normalised (cwd w1) = true → cwd w2 = cwd w1 →
  cell_data_directory E w1 = (Ok D1, w1') →
  cell_data_directory_alt E w2 = (Ok D2, w2') →
  D2 = D1 ∧ D1 = (cwd w1 / "data")%path ∧
  file_dir (cwd w1) = render (cwd w1) ∧ Path (file_dir (cwd w1)) = cwd w1.
Proof.
  intros Hn Hcwd ->%cell_data_directory_inv ->%cell_data_directory_alt_inv.
  destruct (file_dir_normalised _ Hn) as [Hf Hp].
  unfold data_directory_alt. rewrite Hcwd, Hp, joinpath_Path0.
  rewrite joinpath_absolute; [done|]. unfold normalised in Hn.
  by apply andb_true_iff in Hn as [? _].
Qed.

(** ** What a run keeps *)

Lemma plain_keeps (E : environment) allowed {A} (m : M A) :
  plain E allowed m → ∀ w, keeps_what_is_there w (m w).2.
Proof.
  assert (Hrefl : ∀ w, keeps_what_is_there w w) by (by intros w; split; [|split]).
  induction 1 as [A a|A B m k Hm IHm Hk IHk|c _ Hc|A r|l|df|l df| |p f|p|A m Hm IHm];
    intros w; try apply Hrefl.
  - unfold mbind, M_bind. specialize (IHm w). destruct (m w) as [[a|e] w1] eqn:Hmw; cbn in *.
    + destruct IHm as (Hc1 & Hh1 & Hd1), (IHk a w1) as (Hc2 & Hh2 & Hd2).
      split; [congruence|]. split; [lia|]. auto.
    + done.
  - unfold emit. by destruct (fault E _); split.
  - unfold load. destruct (heap w !! l); apply Hrefl.
  - unfold new. split; [done|]. split; [|done]. cbn. rewrite length_app. lia.
  - unfold store. split; [done|]. split; [|done]. cbn. by rewrite length_insert.
  - unfold put_file. split; [done|]. split; [done|]. cbn. intros q Hq.
    destruct (decide (p = q)) as [->|Hne].
    + rewrite lookup_insert_eq. by eexists.
    + by rewrite lookup_insert_ne.
  - unfold finally, record. cbn. apply IHm.
Qed.

(** X2. No notebook changes the working directory, removes a frame
    object or deletes a file, whatever fails during the run: after a
    run, complete or not, the working directory is the one the run
    started in (so that relative file names mean the same in every
    cell), there are at least as many objects, and every file that was
    on disk is still there, overwritten at most. *)
Theorem notebooks_keep_directory_objects_and_files (E : environment) (w : world) :
  keeps_what_is_there w (vector_io_notebook E w).2 ∧
  keeps_what_is_there w (paths_notebook E w).2 ∧
  keeps_what_is_there w (crs_notebook E w).2 ∧
  keeps_what_is_there w (geopandas_notebook E w).2.
Proof.
  destruct (notebooks_plain E) as (Ha & Hb & Hc & Hd).
  repeat split; by eapply plain_keeps.
Qed.


(** ** Rows that a cell needs *)

Lemma find_range {B} (f : Row → B) (rs : list (label * Row)) s i :
  rs.*1 = Z.of_nat <$> seq s (length rs) →
  List.find (λ e : label * B, bool_decide (e.1 = Z.of_nat (s + i)))
            (List.map (λ r, (r.1, f r.2)) rs)
  = (λ r, (r.1, f r.2)) <$> rs !! i.
Proof.
  revert s i. induction rs as [|[j row] rs IH]; intros s i Hix; [done|].
  cbn in Hix. injection Hix as -> Hix. cbn [List.map List.find fst snd].
  destruct i as [|i].
  - by rewrite Nat.add_0_r, bool_decide_eq_true_2.
  - rewrite bool_decide_eq_false_2 by lia. cbn [lookup list_lookup].
    replace (s + S i) with (S s + i) by lia. by apply IH.
Qed.

Lemma at_range df i name :
  range_index df → name ∈ columns df →
  at_ df (Z.of_nat i) name
  = match rows df !! i with
    | Some r => Ok (value name r.2)
    | None => Raise (KeyError "index")
    end.
Proof.
  intros Hix Hc. unfold at_, getitem. rewrite decide_True by done. cbn [mbind result_bind].
  unfold series_getitem. change (Z.of_nat i) with (Z.of_nat (0 + i)).
  rewrite (find_range (value name) (rows df) 0 i Hix).
  by destruct (rows df !! i).
Qed.

(** X3. [data_set.at[4, "geometry"]] on a frame as [read_file] gives
    it (labels 0, 1, 2, ...): with fewer than five rows the cell raises
    KeyError, otherwise its value is the geometry of the fifth row;
    the frame is not changed either way. *)
Theorem the_fifth_row_must_exist hv wf og (w : world) (data_set : nat) (df : DataFrame) :
  heap w !! data_set = Some df → "geometry" ∈ columns df → range_index df →
  let rw := cell_at (quiet hv wf og) data_set w in
  heap rw.2 = heap w ∧
  (length (rows df) < 5 → rw.1 = Raise (KeyError "index")) ∧
  (∀ row, rows df !! 4 = Some row → rw.1 = Ok (value "geometry" row.2)).
Proof.
  intros Hdf Hc Hix rw. subst rw. unfold cell_at. run. rewrite Hdf. run.
  change 4%Z with (Z.of_nat 4). rewrite (at_range df 4 "geometry" Hix Hc).
  split; [done|]. split.
  - intros Hlen. by rewrite lookup_ge_None_2 by lia.
  - by intros row ->.
Qed.

(** X4. A row whose geometry is missing separates the two loops over
    the first rows: the loop that takes the area from the row's
    geometry object raises AttributeError there and prints nothing for
    the row, the loop that takes it from the [area] property of the
    frame prints the line with "nan" and goes on. *)
Theorem a_missing_geometry_separates_the_two_loops
    hv wf og (w : world) (data_set : nat) (df : DataFrame) (i : label) (row : Row) :
  heap w !! data_set = Some df → "geometry" ∈ columns df → NoDup (index df) →
  (i, row) ∈ rows df → row_getitem row "geometry" = Ok NaN →
  let E := quiet hv wf og in
  let by_row := print_row_area E (i, row) w in
  let by_frame := print_frame_area E data_set (i, row) w in
  by_row.1 = Raise (AttributeError "area") ∧
  calls_since w by_row.2 = [method "__getitem__"; attribute "area"] ∧
  by_frame.1 = Ok tt ∧
  calls_since w by_frame.2
  = [attribute "area"; method "__getitem__"; print (area_line i "nan")].
Proof.
  intros Hdf Hc Hnd Hin Hg E by_row by_frame. subst by_row by_frame E.
  assert (Hv : value "geometry" row = NaN).
  { unfold row_getitem in Hg. unfold value. by destruct (row_get _ _); simplify_eq. }
  assert (Hs : (s ← area df; series_getitem s i) = Ok NaN).
  { unfold area. rewrite decide_True by done. cbn [mbind result_bind].
    unfold series_getitem.
    rewrite (find_label (λ r, area_or_nan (value "geometry" r)) (rows df) i row Hnd Hin).
    cbn. by rewrite Hv. }
  unfold calls_since, print_row_area, print_frame_area, GeoDataFrame_area, builtin_print. run.
  rewrite Hg, Hdf. run. unfold cell_area. cbn [fst snd trace]. split; [done|].
  split; [by rewrite <-app_assoc, drop_app_length|].
  destruct (area df) as [s|]; [|done]. cbn [mbind result_bind] in Hs. run. rewrite Hs.
  unfold format_cell_1f. run. cbn [trace].
  split; [done|]. by rewrite <-!app_assoc, drop_app_length.
Qed.

(** ** Selections *)

Lemma lookup_snoc {A} (l : list A) (x : A) : (l ++ [x]) !! length l = Some x.
Proof. by rewrite list_lookup_middle. Qed.

Lemma filter_zip_fmap {A} (f : A → bool) (l : list A) :
  (filter (λ rb : A * bool, rb.2 = true) (zip l (f <$> l))).*1 = filter (λ r, f r = true) l.
Proof.
  induction l as [|a l IH]; [done|]. cbn [fmap list_fmap zip_with].
  rewrite (filter_cons (λ rb : A * bool, rb.2 = true)), (filter_cons (λ r, f r = true)).
  cbn [snd]. destruct (decide (f a = true)); cbn; by rewrite IH.
Qed.

Lemma rows_getitem_mask df col s n :
  getattr df col = Ok s →
  rows (getitem_mask df (series_eq s n))
  = filter (λ r, eq_int (value col r.2) n = true) (rows df).
Proof.
  unfold getattr, getitem. case_decide; [|done]. intros [= <-].
  unfold getitem_mask, mask_values, series_eq. cbn [rows].
  change (List.map ?f ?l) with (f <$> l). rewrite <-!list_fmap_compose.
  rewrite decide_True by done.
  apply (filter_zip_fmap (λ r, eq_int (value col r.2) n)).
Qed.

(** X5. [water_bodies = data_set[data_set.ID_CLASS == 901]] followed
    by [water_bodies.to_file(DATA_DIRECTORY / "water_bodies.shp")]:
    the file holds a new frame with the columns and the CRS of the data
    set and exactly its rows whose ID_CLASS equals 901, in their order
    and with their labels.  Without a column ID_CLASS the attribute
    access raises AttributeError and nothing is created or written. *)
Theorem water_bodies_are_the_rows_with_code_901
    hv wf og (w : world) (D : PurePath) (data_set : nat) (df : DataFrame) :
  heap w !! data_set = Some df →
  let E := quiet hv wf og in
  let rw := (water_bodies ← cell_water_bodies E data_set;
             cell_save_water_bodies E D water_bodies) w in
  if decide ("ID_CLASS" ∈ columns df)
  then ∃ wb, rw.1 = Ok tt ∧
         disk rw.2 !! joinpath (cwd w) (D / "water_bodies.shp") = Some (VectorFile wb) ∧
         heap rw.2 = heap w ++ [wb] ∧
         columns wb = columns df ∧ crs wb = crs df ∧
         rows wb = filter (λ r, eq_int (value "ID_CLASS" r.2) 901 = true) (rows df)
  else rw.1 = Raise (AttributeError "ID_CLASS") ∧ heap rw.2 = heap w ∧ disk rw.2 = disk w.
Proof.
  intros Hdf E rw. subst rw E.
  unfold cell_water_bodies, cell_save_water_bodies, DataFrame_to_file. run. rewrite Hdf. run.
  case_decide as Hc.
  - destruct (getattr df "ID_CLASS") as [s|e] eqn:Hs.
    2:{ unfold getattr, getitem in Hs. by rewrite !decide_True in Hs by done. }
    run. rewrite lookup_snoc. run.
    exists (getitem_mask df (series_eq s 901)).
    split; [done|]. split; [by rewrite lookup_insert_eq|]. split; [done|].
    split; [done|]. split; [done|]. by apply rows_getitem_mask.
  - unfold getattr. by rewrite decide_False by done.
Qed.

(** X6. [grouped_data.get_group('Vattenyta')]: when no row of the
    data set has the class Vattenyta the call raises KeyError and the
    cell stops before plotting; otherwise the result is a new frame
    with exactly the rows of that class, at least one. *)
Theorem get_group_needs_the_class hv wf og (w : world) (df : DataFrame) :
  let E := quiet hv wf og in
  let rw := cell_get_group E (mkGroupBy df "CLASS_NAME") w in
  let present := Exists (λ r, value "CLASS_NAME" r.2 = Str "Vattenyta") (rows df) in
  (present →
     rw.1 = Ok (length (heap w)) ∧
     heap rw.2 = heap w ++ [get_group_frame "CLASS_NAME" df (Str "Vattenyta")] ∧
     rows (get_group_frame "CLASS_NAME" df (Str "Vattenyta"))
     = filter (λ r, value "CLASS_NAME" r.2 = Str "Vattenyta") (rows df) ∧
     rows (get_group_frame "CLASS_NAME" df (Str "Vattenyta")) ≠ [] ∧
     calls_since w rw.2 = [method "get_group"; plot]) ∧
  (¬ present →
     rw.1 = Raise (KeyError "Vattenyta") ∧ heap rw.2 = heap w ∧
     calls_since w rw.2 = [method "get_group"]).
Proof.
  intros E rw present. subst rw E present.
  unfold cell_get_group, DataFrame_plot, get_group, calls_since. cbn [obj by_column]. run.
  split.
  - intros Hex. apply Exists_exists in Hex as (r & Hr & Hv).
    rewrite decide_True; last first.
    { apply elem_of_group_keys. split; [done|]. by exists r. }
    run. rewrite lookup_snoc. run. cbn [trace].
    split; [done|]. split; [done|]. split; [done|]. split.
    + unfold get_group_frame. cbn [rows]. intros Hnil.
      assert (Hin : r ∈ filter (λ r, value "CLASS_NAME" r.2 = Str "Vattenyta") (rows df))
        by (by apply list_elem_of_filter).
      rewrite Hnil in Hin. by apply elem_of_nil in Hin.
    + by rewrite <-!app_assoc, drop_app_length.
  - intros Hno. rewrite decide_False; last first.
    { intros [_ (r & Hr & Hv)]%elem_of_group_keys. apply Hno, Exists_exists. by exists r. }
    run. cbn [trace]. split; [done|]. split; [done|]. by rewrite drop_app_length.
Qed.

(** ** The classes of a data set *)

Lemma filter_iff_on {A} (P1 P2 : A → Prop)
    `{!∀ x, Decision (P1 x), !∀ x, Decision (P2 x)} (l : list A) :
  (∀ x, x ∈ l → (P1 x ↔ P2 x)) → filter P1 l = filter P2 l.
Proof.
  induction l as [|a l IH]; [done|]. intros Hiff. rewrite !filter_cons.
  rewrite IH by (intros x Hx; apply Hiff; by right).
  assert (Ha : P1 a ↔ P2 a) by (apply Hiff; by left).
  destruct (decide (P1 a)) as [Hp|Hp].
  - by rewrite decide_True by (by apply Ha).
  - rewrite decide_False; [done|]. intros Hq. by apply Hp, Ha.
Qed.

Lemma count_one_more (k : cell) (ks vs : list cell) :
  k ∉ ks →
  length (filter (λ v, v ∈ k :: ks) vs)
  = length (filter (λ v, v = k) vs) + length (filter (λ v, v ∈ ks) vs).
Proof.
  intros Hk. induction vs as [|v vs IH]; [done|]. rewrite !filter_cons.
  destruct (decide (v = k)) as [->|Hne].
  - rewrite decide_True by (by left). rewrite (decide_False (P := k ∈ ks)) by done.
    cbn. by rewrite IH.
  - destruct (decide (v ∈ ks)) as [Hin|Hin].
    + rewrite decide_True by (by right). cbn. rewrite IH. lia.
    + rewrite decide_False; [done|]. by intros [?|?]%elem_of_cons.
Qed.

Lemma count_by_key (keys vs : list cell) :
  NoDup keys →
  sum_list ((λ k, length (filter (λ v, v = k) vs)) <$> keys)
  = length (filter (λ v, v ∈ keys) vs).
Proof.
  induction 1 as [|k ks Hk _ IH]; cbn.
  - induction vs as [|v vs IHvs]; [done|]. rewrite filter_cons_False; [done|].
    by intros ?%elem_of_nil.
  - by rewrite IH, count_one_more.
Qed.

Lemma loop_group_size_calls hv wf og (gs : list (cell * DataFrame)) w :
  for_each gs (print_group_size (quiet hv wf og)) w
  = (Ok tt,
     mkWorld (cwd w) (heap w) (disk w)
       (trace w ++ (gs ≫= λ kg,
          [method "__len__";
           print ("Terrain class " +:+ str kg.1 +:+ " has "
                    +:+ pretty (length (rows kg.2)) +:+ " rows.")]))).
Proof.
  revert w. induction gs as [|[k g] gs IH]; intros w.
  - cbn. rewrite app_nil_r. by destruct w.
  - cbn [for_each].
    erewrite bind_Ok; last first.
    { unfold print_group_size, builtin_print. run. reflexivity. }
    rewrite IH. cbn. by rewrite <-!app_assoc.
Qed.

(** X7. The loop [for key, group in grouped_data: print(... len(group) ...)]
    prints one line for each class, in the order of the keys, with the
    number of rows of the class; the numbers printed add up to the
    number of rows of the data set whose class is not missing. *)
Theorem group_sizes_add_up hv wf og (w : world) (df : DataFrame) (by_ : string) :
  let g := mkGroupBy df by_ in
  cell_count_rows (quiet hv wf og) g w
  = (Ok tt,
     mkWorld (cwd w) (heap w) (disk w)
       (trace w ++ method "__iter__" ::
          (group_keys by_ df ≫= λ k,
             [method "__len__";
              print ("Terrain class " +:+ str k +:+ " has "
                       +:+ pretty (length (filter (λ r, value by_ r.2 = k) (rows df)))
                       +:+ " rows.")]))) ∧
  sum_list ((λ kg, length (rows kg.2)) <$> groups g)
  = length (filter (λ r, value by_ r.2 ≠ NaN) (rows df)).
Proof.
  intros g. subst g. split.
  - assert (Hb : ∀ ks : list cell,
        ((λ k, (k, get_group_frame by_ df k)) <$> ks) ≫= (λ kg : cell * DataFrame,
           [method "__len__";
            print ("Terrain class " +:+ str kg.1 +:+ " has "
                     +:+ pretty (length (rows kg.2)) +:+ " rows.")])
        = ks ≫= λ k,
            [method "__len__";
             print ("Terrain class " +:+ str k +:+ " has "
                      +:+ pretty (length (filter (λ r, value by_ r.2 = k) (rows df)))
                      +:+ " rows.")]).
    { induction ks as [|k ks IH]; [done|]. cbn. by rewrite IH. }
    unfold cell_count_rows. run. rewrite loop_group_size_calls. cbn [cwd heap disk trace].
    unfold groups. cbn [obj by_column]. change (List.map ?f ?l) with (f <$> l).
    by rewrite Hb, <-app_assoc.
  - unfold groups. cbn [obj by_column]. change (List.map ?f ?l) with (f <$> l).
    rewrite <-list_fmap_compose.
    transitivity (sum_list ((λ k, length (filter (λ v, v = k) ((λ r, value by_ r.2) <$> rows df)))
                              <$> group_keys by_ df)).
    { f_equal. apply list_fmap_ext. intros i k _. cbn. unfold get_group_frame. cbn [rows].
      by rewrite filter_fmap, length_fmap. }
    rewrite count_by_key by apply NoDup_group_keys.
    rewrite filter_fmap, length_fmap. f_equal. apply filter_iff_on. intros r Hr. cbn.
    rewrite elem_of_group_keys. split; [by intros [? _]|]. intros Hv. split; [done|]. by exists r.
Qed.

Lemma remove_dups_snoc (l : list cell) (x : cell) :
  remove_dups (l ++ [x]) = filter (λ c, c ≠ x) (remove_dups l) ++ [x].
Proof.
  induction l as [|y l IH]; [done|]. cbn [app remove_dups]. rewrite IH.
  destruct (decide_rel elem_of y (l ++ [x])) as [Hin|Hin],
           (decide_rel elem_of y l) as [Hin'|Hin'].
  - done.
  - apply elem_of_app in Hin as [?|Hin]; [done|]. apply list_elem_of_singleton in Hin.
    subst y. rewrite filter_cons_False; [done|]. intros Hx. by apply Hx.
  - destruct Hin. apply elem_of_app. by left.
  - rewrite filter_cons_True; [done|]. intros ->. apply Hin, elem_of_app. right. by left.
Qed.

Lemma unique_cons (x : cell) (l : list cell) :
  unique (x :: l) = x :: filter (λ c, c ≠ x) (unique l).
Proof.
  unfold unique. by rewrite reverse_cons, remove_dups_snoc, reverse_snoc, filter_reverse.
Qed.

(** X8. [data_set["CLASS_NAME"].unique()] lists the values of the
    column in the order of their first appearance, each once, the
    missing value among them when a row has none; the keys of
    [groupby] are these values without the missing one, in another
    order.  Without the column the cell raises KeyError. *)
Theorem unique_lists_the_classes_in_order_of_appearance
    hv wf og (w : world) (data_set : nat) (df : DataFrame) :
  heap w !! data_set = Some df →
  let r := (cell_unique (quiet hv wf og) data_set w).1 in
  let vs := (λ r, value "CLASS_NAME" r.2) <$> rows df in
  (if decide ("CLASS_NAME" ∈ columns df) then r = Ok (unique vs)
   else r = Raise (KeyError "CLASS_NAME")) ∧
  unique [] = [] ∧
  (∀ x l, unique (x :: l) = x :: filter (λ c, c ≠ x) (unique l)) ∧
  NoDup (unique vs) ∧ (∀ c, c ∈ unique vs ↔ c ∈ vs) ∧
  group_keys "CLASS_NAME" df ≡ₚ filter (λ c, c ≠ NaN) (unique vs).
Proof.
  intros Hdf r vs. subst r vs. split; [|split; [done|split; [apply unique_cons|]]].
  - unfold cell_unique. run. rewrite Hdf. run. unfold getitem. case_decide; run; [|done].
    change (List.map ?f ?l) with (f <$> l). by rewrite <-list_fmap_compose.
  - split; [apply NoDup_unique|]. split; [intros c; apply elem_of_unique|].
    apply NoDup_Permutation.
    + apply NoDup_group_keys.
    + apply NoDup_filter, NoDup_unique.
    + intros c. rewrite elem_of_group_keys, list_elem_of_filter, elem_of_unique,
        list_elem_of_fmap. split.
      * intros [Hn (r & Hr & Hv)]. split; [done|]. by exists r.
      * intros [Hn (r & Hv & Hr)]. split; [done|]. by exists r.
Qed.

(** ** The area column *)

Lemma row_set_set k v v' r : row_set k v (row_set k v' r) = row_set k v r.
Proof.
  induction r as [|[k0 v0] r IH]; unfold row_set; fold row_set.
  - by rewrite decide_True.
  - destruct (decide (k0 = k)) as [->|Hne]; unfold row_set; fold row_set.
    + by rewrite decide_True.
    + by rewrite decide_False, IH.
Qed.

Lemma setitem_area_columns df s :
  columns (setitem df "area" s)
  = if decide ("area" ∈ columns df) then columns df else columns df ++ ["area"].
Proof. done. Qed.

Lemma setitem_area_twice df s s' :
  area df = Ok s → area (setitem df "area" s) = Ok s' →
  setitem (setitem df "area" s) "area" s' = setitem df "area" s.
Proof.
  intros Hs Hs'. pose proof (area_column_rows _ _ Hs) as Hr.
  pose proof (area_column_rows _ _ Hs') as Hr'.
  assert (Hc : "area" ∈ columns (setitem df "area" s)).
  { rewrite setitem_area_columns. case_decide; [done|]. apply elem_of_app. right. by left. }
  assert (Hrows : rows (setitem (setitem df "area" s) "area" s') = rows (setitem df "area" s)).
  { rewrite Hr', Hr, <-list_fmap_compose. apply list_fmap_ext. intros i r _. cbn.
    by rewrite value_set_ne, row_set_set. }
  destruct (setitem (setitem df "area" s) "area" s') as [c2 r2 x2] eqn:H2.
  destruct (setitem df "area" s) as [c1 r1 x1] eqn:H1. cbn in Hrows. subst r2.
  assert (Hcols : c2 = c1).
  { change c2 with (columns (mkFrame c2 r1 x2)). rewrite <-H2. unfold setitem. cbn [columns].
    by rewrite decide_True. }
  assert (Hcrs : x2 = x1).
  { change x2 with (crs (mkFrame c2 r1 x2)). by rewrite <-H2. }
  by subst.
Qed.

(** X9. [data_set["area"] = data_set.area] changes the frame object
    itself: afterwards the object has a column "area" (appended when
    it was not there), every row keeps its label and its other values,
    and its "area" is the area of its geometry (NaN where the geometry
    is missing).  Running the cell a second time changes nothing. *)
Theorem the_area_column_is_set_in_place
    hv wf og (w : world) (data_set : nat) (df : DataFrame) :
  heap w !! data_set = Some df → "geometry" ∈ columns df →
  let E := quiet hv wf og in
  let once := cell_area_column E data_set w in
  let twice := cell_area_column E data_set once.2 in
  ∃ df',
    once.1 = Ok tt ∧ heap once.2 = <[data_set := df']> (heap w) ∧
    columns df'
    = (if decide ("area" ∈ columns df) then columns df else columns df ++ ["area"]) ∧
    crs df' = crs df ∧
    Forall2 (λ r r', r'.1 = r.1 ∧
                     value "area" r'.2 = area_or_nan (value "geometry" r.2) ∧
                     ∀ k, k ≠ "area" → row_get k r'.2 = row_get k r.2)
            (rows df) (rows df') ∧
    twice.1 = Ok tt ∧ heap twice.2 = heap once.2.
Proof.
  intros Hdf Hg E once twice. subst twice once E.
  assert (Hs : ∃ s, area df = Ok s) by (unfold area; rewrite decide_True by done; eauto).
  destruct Hs as [s Hs]. exists (setitem df "area" s).
  assert (Hlt : data_set < length (heap w)) by (by eapply lookup_lt_Some).
  assert (Hg' : "geometry" ∈ columns (setitem df "area" s)).
  { rewrite setitem_area_columns. case_decide; [done|]. apply elem_of_app. by left. }
  assert (Hs' : ∃ s', area (setitem df "area" s) = Ok s')
    by (unfold area; rewrite decide_True by done; eauto).
  destruct Hs' as [s' Hs'].
  assert (Hrun : ∀ w0 df0 s0, heap w0 !! data_set = Some df0 → area df0 = Ok s0 →
            cell_area_column (quiet hv wf og) data_set w0
            = (Ok tt, mkWorld (cwd w0) (<[data_set := setitem df0 "area" s0]> (heap w0)) (disk w0)
                        ((trace w0 ++ [attribute "area"]) ++ [method "__setitem__"]))).
  { intros w0 df0 s0 Hw0 Hs0. unfold cell_area_column, GeoDataFrame_area. run.
    rewrite Hw0. run. rewrite Hs0. run. rewrite Hw0. by run. }
  rewrite (Hrun w df s Hdf Hs). cbn [fst snd heap].
  erewrite Hrun; [|by apply list_lookup_insert_eq|exact Hs']. cbn [fst snd heap].
  split; [done|]. split; [done|]. split; [done|]. split; [done|]. split.
  - rewrite (area_column_rows _ _ Hs). apply Forall2_fmap_r, Forall_Forall2_diag, Forall_forall.
    intros r _. cbn. split; [done|]. split; [apply value_set_eq|].
    intros k Hk. by apply row_get_set_ne.
  - split; [done|]. by rewrite (setitem_area_twice _ _ _ Hs Hs'), list_insert_insert_eq.
Qed.


(** ** The WFS cell *)

Lemma apply_swap_points (s : Series label) :
  Forall (λ e, ∃ x y z, e.2 = Geom (Point x y z)) s →
  apply s swap_xy = Ok ((λ e, (e.1, swapped_cell e.2)) <$> s).
Proof.
  unfold apply. induction 1 as [|[i c] s (x & y & z & Hc) _ IH]; [done|].
  cbn in Hc. subst c. cbn [map_result fst snd]. rewrite swap_xy_point. cbn. by rewrite IH.
Qed.

Lemma apply_swap_fails (s : Series label) :
  ¬ Forall (λ e, ∃ x y z, e.2 = Geom (Point x y z)) s →
  ∃ e, apply s swap_xy = Raise e ∧
       (e = AttributeError "y" ∨ e = AttributeError "has_z").
Proof.
  unfold apply. induction s as [|[i c] s IH]; intros Hno.
  - destruct Hno. constructor.
  - cbn [map_result fst snd].
    destruct c as [| | | |[x y z| |]];
      try (eexists; split; [reflexivity|]; by eauto).
    rewrite swap_xy_point. cbn. destruct IH as (e & -> & He).
    + intros Hs. apply Hno. constructor; [|done]. cbn. eauto.
    + by exists e.
Qed.

(** X10. The coordinate swap of the WFS cell is all or nothing.  When
    every geometry is a point, the frame object itself gets the
    swapped points, row by row, and keeps labels, other values,
    columns and CRS.  When some geometry is not a point (a line, a
    polygon, a missing geometry), [apply] raises AttributeError, the
    assignment does not happen and the frame is as it was. *)
Theorem the_swap_is_all_or_nothing hv wf og (w : world) (data : nat) (df : DataFrame) :
  heap w !! data = Some df → "geometry" ∈ columns df →
  let rw := cell_swap (quiet hv wf og) data w in
  (Forall holds_point (rows df) →
     rw.1 = Ok tt ∧
     ∃ df', heap rw.2 = <[data := df']> (heap w) ∧
       columns df' = columns df ∧ crs df' = crs df ∧
       rows df' = (λ r, (r.1, row_set "geometry" (swapped_cell (value "geometry" r.2)) r.2))
                    <$> rows df) ∧
  (¬ Forall holds_point (rows df) →
     (rw.1 = Raise (AttributeError "y") ∨ rw.1 = Raise (AttributeError "has_z")) ∧
     heap rw.2 = heap w).
Proof.
  intros Hdf Hc rw. subst rw. unfold cell_swap. run. rewrite Hdf. run.
  unfold getitem. rewrite decide_True by done. run.
  change (List.map ?f ?l) with (f <$> l). rewrite Series_apply_quiet.
  set (s := (λ r : label * Row, (r.1, value "geometry" r.2)) <$> rows df).
  assert (Hpts : Forall holds_point (rows df)
                 ↔ Forall (λ e : label * cell, ∃ x y z, e.2 = Geom (Point x y z)) s).
  { subst s. by rewrite Forall_fmap. }
  split.
  - intros Hall%Hpts. rewrite (apply_swap_points s Hall). run. split; [done|].
    eexists. split; [done|]. unfold setitem. cbn [columns crs rows].
    rewrite decide_True by done. split; [done|]. split; [done|].
    unfold aligned. rewrite decide_True; last first.
    { subst s. unfold index. by rewrite <-!list_fmap_compose. }
    subst s. rewrite <-!list_fmap_compose, zip_with_fmap_r. apply zip_with_diag.
  - intros Hno. destruct (apply_swap_fails s) as (e & -> & He); [by rewrite <-Hpts|].
    run. split; [|done]. destruct He as [-> | ->]; by eauto.
Qed.

Lemma name_located d B n : is_file_name n = true → name (joinpath d (B / n)) = n.
Proof.
  intros Hn. rewrite truediv_file_name by done. unfold joinpath, name.
  destruct (is_absolute _); cbn [parts]; [|rewrite app_assoc]; apply last_last.
Qed.

Lemma name_located_str d n : is_file_name n = true → name (joinpath d (Path n)) = n.
Proof. intros Hn. change (joinpath d (Path n)) with (d / n)%path. by apply parent_name_truediv. Qed.

Lemma holds_point_reset_index df :
  Forall holds_point (rows df) → Forall holds_point (rows (reset_index df)).
Proof.
  intros Hp. apply (Forall_fmap snd (λ r, ∃ x y z, value "geometry" r = Geom (Point x y z))).
  rewrite rows_reset_index. by apply Forall_fmap.
Qed.

Lemma setitem_swapped_rows df :
  rows (setitem df "geometry"
          ((λ e, (e.1, swapped_cell e.2)) <$> ((λ r, (r.1, value "geometry" r.2)) <$> rows df)))
  = (λ r, (r.1, row_set "geometry" (swapped_cell (value "geometry" r.2)) r.2)) <$> rows df.
Proof.
  unfold setitem. cbn [rows]. unfold aligned. rewrite decide_True; last first.
  { unfold index. by rewrite <-!list_fmap_compose. }
  rewrite <-!list_fmap_compose, zip_with_fmap_r. apply zip_with_diag.
Qed.

Lemma cell_swap_points hv wf og (w : world) (data : nat) (df : DataFrame) :
  heap w !! data = Some df → "geometry" ∈ columns df → Forall holds_point (rows df) →
  cell_swap (quiet hv wf og) data w
  = (Ok tt,
     mkWorld (cwd w)
       (<[data := setitem df "geometry"
                    ((λ e, (e.1, swapped_cell e.2))
                       <$> ((λ r, (r.1, value "geometry" r.2)) <$> rows df))]> (heap w))
       (disk w)
       ((((trace w ++ [method "__getitem__"]) ++ [method "apply"])
           ++ concat (swap_calls <$> geometries df)) ++ [method "__setitem__"])).
Proof.
  intros Hdf Hc Hpts. unfold cell_swap. run. rewrite Hdf. run.
  unfold getitem. rewrite decide_True by done. run.
  change (List.map ?f ?l) with (f <$> l). rewrite Series_apply_quiet.
  rewrite apply_swap_points by (by rewrite Forall_fmap). run.
  rewrite geometry_column_values, apply_calls_points; [reflexivity|].
  unfold geometries. rewrite Forall_fmap. exact Hpts.
Qed.

Lemma no_fid_column df :
  Forall (λ name, is_fid name = false) (columns df) → wrong_fid df = false.
Proof.
  unfold wrong_fid. induction 1 as [|name names Hn _ IH]; [done|].
  cbn [existsb]. by rewrite Hn, IH.
Qed.

Lemma forallb_fmap {A B} (f : A → B) (p : B → bool) (l : list A) :
  forallb (λ x, p (f x)) l = forallb p (f <$> l).
Proof. induction l as [|x l IH]; [done|]. cbn. by rewrite IH. Qed.

(** the schema check looks at the columns called "fid" only *)
Lemma wrong_fid_ext df df' :
  columns df' = columns df →
  (∀ name, is_fid name = true →
     (λ r : label * Row, value name r.2) <$> rows df'
     = (λ r : label * Row, value name r.2) <$> rows df) →
  wrong_fid df' = wrong_fid df.
Proof.
  intros Hc Hv. unfold wrong_fid. rewrite Hc. clear Hc.
  induction (columns df) as [|name names IH]; [done|]. cbn [existsb]. rewrite IH. f_equal.
  destruct (is_fid name) eqn:Hf; [|done]. cbn [andb]. f_equal.
  by rewrite !(forallb_fmap (λ r : label * Row, value name r.2) is_Int), Hv.
Qed.

Lemma wrong_fid_reset_index df : wrong_fid (reset_index df) = wrong_fid df.
Proof.
  apply wrong_fid_ext; [done|]. intros name _.
  change (λ r : label * Row, value name r.2) with (value name ∘ (snd : label * Row → Row)).
  by rewrite !list_fmap_compose, rows_reset_index.
Qed.

(** X11. The WFS cell from the response to the GeoPackage, when no
    call fails, the response decodes to a layer of points without a
    CRS and "EPSG:3011" is a CRS: the file cykelpump_punkt.gml of
    the working directory holds exactly the body of the response
    (whatever it held before); the decoded layer and, after it, the
    layer with labels 0, 1, 2, ..., the CRS EPSG:3011 and, in every
    row, the point with its first two coordinates exchanged and
    everything else as decoded are the two objects that the cell
    makes; and DATA_DIRECTORY/cykelpump_punkt.gpkg holds that second
    layer, unless the layer has a column called "fid" with something
    else than integers in it, in which case the GeoPackage driver
    refuses it and the cell ends in SchemaError. *)
Theorem the_wfs_cell_end_to_end hv wf og (w : world) (D : PurePath) (df0 : DataFrame) (c : CRS) :
  let body := wf wfs_url "od_gis:Cykelpump_Punkt" "GML2" in
  og body = Ok df0 → crs df0 = None → CRS_from_user_input "EPSG:3011" = Ok c →
  "geometry" ∈ columns df0 → Forall holds_point (rows df0) →
  ∃ w' out,
    (if wrong_fid df0
     then cell_wfs (quiet hv wf og) D w = (Raise SchemaError, w')
     else cell_wfs (quiet hv wf og) D w = (Ok tt, w') ∧
          disk w' !! joinpath (cwd w) (D / "cykelpump_punkt.gpkg") = Some (VectorFile out)) ∧
    disk w' !! joinpath (cwd w) (Path "cykelpump_punkt.gml") = Some (RawFile body) ∧
    heap w' = heap w ++ [reset_index df0; out] ∧
    columns out = columns df0 ∧ crs out = Some c ∧ range_index out ∧
    (rows out).*2
    = (λ r, row_set "geometry" (swapped_cell (value "geometry" r)) r) <$> (rows df0).*2.
Proof.
  intros body Hog Hcrs Hc Hcol Hpts.
  cut (∃ w' out,
         cell_wfs (quiet hv wf og) D w
         = (if wrong_fid df0 then Raise SchemaError else Ok tt, w') ∧
         (wrong_fid df0 = false →
          disk w' !! joinpath (cwd w) (D / "cykelpump_punkt.gpkg") = Some (VectorFile out)) ∧
         disk w' !! joinpath (cwd w) (Path "cykelpump_punkt.gml") = Some (RawFile body) ∧
         heap w' = heap w ++ [reset_index df0; out] ∧
         columns out = columns df0 ∧ crs out = Some c ∧ range_index out ∧
         (rows out).*2
         = (λ r, row_set "geometry" (swapped_cell (value "geometry" r)) r) <$> (rows df0).*2).
  { intros (w' & out & Hrun & Hgpkg & Hrest). exists w', out.
    destruct (wrong_fid df0); (split; [|exact Hrest]); [exact Hrun|].
    split; [exact Hrun|by apply Hgpkg]. }
  unfold cell_wfs, WebFeatureService_, wfs_getfeature, with_open, response_read_, file_write,
    geopandas_read_file, fetch, cell_set_crs, DataFrame_to_file.
  run. rewrite lookup_insert_eq. run.
  change (is_url "cykelpump_punkt.gml") with false. cbv iota beta. run.
  rewrite lookup_insert_eq. cbn [ogr_gml wfs_feature quiet].
  change ("" +:+ ?x) with x. fold body. rewrite Hog. run.
  rewrite lookup_snoc. run. rewrite Hc. unfold set_crs, reset_index at 1. cbn [crs].
  rewrite Hcrs. run. cbn [columns rows].
  set (df1 := mkFrame (columns (reset_index df0)) (rows (reset_index df0)) (Some c)).
  erewrite cell_swap_points; [|apply lookup_snoc|done|by apply holds_point_reset_index].
  cbn [heap cwd disk trace]. rewrite list_lookup_insert_eq; last first.
  { rewrite !length_app. cbn. lia. }
  run.
  match goal with |- context [check_schema (Some "GPKG") ?x] => set (out := x) end.
  assert (Hcols : columns out = columns df0)
    by (unfold out, setitem, reset_index; cbn [columns df1]; by rewrite decide_True).
  assert (Hrows : (rows out).*2
            = (λ r, row_set "geometry" (swapped_cell (value "geometry" r)) r) <$> (rows df0).*2).
  { unfold out. rewrite setitem_swapped_rows. cbn [rows df1]. rewrite <-list_fmap_compose.
    rewrite <-rows_reset_index, <-list_fmap_compose. done. }
  assert (Hfid : wrong_fid out = wrong_fid df0).
  { apply wrong_fid_ext; [exact Hcols|]. intros name Hname.
    assert (Hgeo : "geometry" ≠ name) by (intros <-; discriminate Hname).
    change (λ r : label * Row, value name r.2) with (value name ∘ (snd : label * Row → Row)).
    rewrite !list_fmap_compose, Hrows, <-list_fmap_compose.
    apply list_fmap_ext. intros k r _. cbn. by apply value_set_ne. }
  assert (Hheap : <[length (heap w ++ [reset_index df0]) := out]>
                    ((heap w ++ [reset_index df0]) ++ [df1])
                  = heap w ++ [reset_index df0; out]).
  { rewrite insert_app_r_alt by lia. rewrite Nat.sub_diag. cbn. by rewrite <-app_assoc. }
  assert (Hgml : ∀ fs : gmap PurePath file,
            <[joinpath (cwd w) (Path "cykelpump_punkt.gml") := RawFile body]> fs
              !! joinpath (cwd w) (Path "cykelpump_punkt.gml") = Some (RawFile body))
    by (intros fs; apply lookup_insert_eq).
  assert (Hrest : columns out = columns df0 ∧ crs out = Some c ∧ range_index out ∧
            (rows out).*2
            = (λ r, row_set "geometry" (swapped_cell (value "geometry" r)) r) <$> (rows df0).*2).
  { split; [exact Hcols|]. split; [done|]. split; [|exact Hrows].
    unfold range_index, index, out. rewrite setitem_swapped_rows. cbn [rows df1].
    rewrite <-list_fmap_compose, length_fmap, length_rows_reset_index.
    apply index_reset_index. }
  rewrite check_schema_GPKG, Hfid.
  destruct (wrong_fid df0); run; eexists _, out; cbn [disk heap].
  - split; [reflexivity|]. split; [done|]. split; [apply Hgml|]. split; [exact Hheap|exact Hrest].
  - split; [reflexivity|]. cbn [disk heap]. split; [intros _; by rewrite lookup_insert_eq|].
    split.
    { rewrite lookup_insert_ne; [apply Hgml|].
      intros Heq. apply (f_equal name) in Heq.
      rewrite name_located, name_located_str in Heq by done. done. }
    split; [exact Hheap|exact Hrest].
Qed.

(** ** The file that the WFS cell opens *)

Lemma closes_app (l1 l2 : list call) : closes (l1 ++ l2) = closes l1 + closes l2.
Proof. unfold closes. by rewrite filter_app, length_app. Qed.

Lemma closes_none (l : list call) : Forall (λ c, is_close c = false) l → closes l = 0.
Proof.
  unfold closes. induction 1 as [|c l Hc _ IH]; [done|].
  rewrite filter_cons_False; [done|]. by rewrite Hc.
Qed.

Lemma straight_no_close (E : environment) {A} (m : M A) :
  straight E m →
  ∀ w, ∃ ext, trace (m w).2 = trace w ++ ext ∧ Forall (λ c, is_close c = false) ext.
Proof.
  assert (Hsilent : ∀ B (m' : M B), (∀ w, trace (m' w).2 = trace w) →
            ∀ w, ∃ ext, trace (m' w).2 = trace w ++ ext ∧ Forall (λ c, is_close c = false) ext).
  { intros B m' Hm' w. exists []. by rewrite app_nil_r, Hm'. }
  induction 1 as [A a|A B m k Hm IHm Hk IHk|c Hc|A r|l|df|l df| |p f|p];
    try (by apply Hsilent).
  - intros w. destruct (IHm w) as (ext1 & Ht1 & Hf1).
    unfold mbind, M_bind. destruct (m w) as [[a|e] w1] eqn:Hmw; cbn in *.
    + destruct (IHk a w1) as (ext2 & Ht2 & Hf2). exists (ext1 ++ ext2).
      split; [by rewrite Ht2, Ht1, app_assoc|]. by apply Forall_app.
    + by exists ext1.
  - intros w. exists [c]. unfold emit. cbn.
    split; [by destruct (fault E _)|]. by apply Forall_singleton.
  - apply Hsilent. intros w. unfold load. by destruct (heap w !! l).
Qed.

Lemma straight_Series_apply (E : environment) {I} (s : Series I) (func : cell → M cell) :
  (∀ c, straight E (func c)) → straight E (Series_apply s func).
Proof.
  intros Hf. induction s as [|e s IH]; cbn [Series_apply].
  - apply (straight_ret E []).
  - apply straight_bind; [apply Hf|]. intros v. apply straight_bind; [exact IH|].
    intros vs. apply (straight_ret E).
Qed.

Ltac straight_step :=
  lazymatch goal with
  | |- straight _ (Series_apply _ _) =>
      apply straight_Series_apply; intros ?; unfold lambda_swap
  | |- straight _ (_ ≫= _) => apply straight_bind; [|intros ?]
  | |- straight _ (mret _) => apply straight_ret
  | |- straight _ (emit _ _) => apply straight_emit; reflexivity
  | |- straight _ (lift _) => apply straight_lift
  | |- straight _ (load _) => apply straight_load
  | |- straight _ (new _) => apply straight_new
  | |- straight _ (store _ _) => apply straight_store
  | |- straight _ get_cwd => apply straight_get_cwd
  | |- straight _ (put_file _ _) => apply straight_put_file
  | |- straight _ (get_file _) => apply straight_get_file
  | |- straight _ (if ?b then _ else _) => destruct b
  | |- straight _ (match ?x with str_arg _ => _ | path_arg _ => _ end) => destruct x
  end.

Lemma with_open_closes (E : environment) name mode {A} (body : PurePath → M A) w :
  (∀ f, straight E (body f)) →
  ∃ ext, trace (with_open E name mode body w).2 = trace w ++ ext ∧
         closes ext = if fault E (length (trace w)) is None then 1 else 0.
Proof.
  intros Hbody. unfold with_open. run.
  destruct (fault E (length (trace w))) as [e|].
  - exists [open_ name mode]. by split.
  - match goal with |- context [body ?f ?w0] =>
      destruct (straight_no_close E _ (Hbody f) w0) as (ext & Ht & Hext)
    end.
    exists (open_ name mode :: ext ++ [close]). cbn [snd trace] in *. rewrite Ht.
    split; [by rewrite <-!app_assoc|].
    change (open_ name mode :: ext ++ [close]) with ([open_ name mode] ++ ext ++ [close]).
    by rewrite !closes_app, (closes_none _ Hext).
Qed.

(** X12. The file that the WFS cell opens with
    [with open("cykelpump_punkt.gml", "wb") as f] is closed exactly
    once in every run in which it was opened, whatever fails
    afterwards (reading the response, writing, or any later call),
    and no file is closed in a run that did not get to open it. *)
Theorem the_file_is_closed_when_opened (E : environment) (D : PurePath) (w : world) :
  let n := length (trace w) in
  closes (calls_since w (cell_wfs E D w).2)
  = if decide (fault E n = None ∧ fault E (S n) = None ∧ fault E (S (S n)) = None)
    then 1 else 0.
Proof.
  intros n. subst n. unfold calls_since. rewrite cell_wfs_run.
  destruct (fault E (length (trace w))) as [e0|] eqn:Hf0; cbn [fst snd trace record].
  { rewrite drop_app_length. rewrite decide_False by (by intros [? _]). done. }
  destruct (fault E (S (length (trace w)))) as [e1|] eqn:Hf1; cbn [fst snd trace record].
  { rewrite <-app_assoc, drop_app_length. rewrite decide_False by (by intros (_ & ? & _)). done. }
  unfold after_the_fetch.
  match goal with |- context [(with_open E ?nm ?md ?body ≫= ?k) ?w0] =>
    destruct (with_open_closes E nm md body w0) as (ext1 & Ht1 & Hc1);
      [intros f; plain_cells; repeat straight_step|];
    assert (Hk : ∀ u, straight E (k u)) by (intros u; plain_cells; repeat straight_step);
    unfold mbind at 1, M_bind at 1;
    destruct (with_open E nm md body w0) as [[u|e] w3] eqn:Hwo
  end.
  all: cbn [snd] in Ht1; unfold record in Ht1, Hc1; cbn [trace] in Ht1, Hc1;
    rewrite !length_app in Hc1; cbn [length] in Hc1;
    replace (length (trace w) + 1 + 1) with (S (S (length (trace w)))) in Hc1 by lia.
  - destruct (straight_no_close E _ (Hk u) w3) as (ext2 & Ht2 & Hext2).
    rewrite Ht2, Ht1, <-!app_assoc, drop_app_length. cbn [app].
    change (?a :: ?b :: ext1 ++ ext2) with ([a; b] ++ ext1 ++ ext2).
    rewrite !closes_app, Hc1, (closes_none _ Hext2).
    destruct (fault E (S (S (length (trace w))))) as [e2|].
    + by rewrite decide_False by (by intros (_ & _ & ?)).
    + by rewrite decide_True.
  - cbn [snd]. rewrite Ht1, <-!app_assoc, drop_app_length. cbn [app].
    change (?a :: ?b :: ext1) with ([a; b] ++ ext1).
    rewrite !closes_app, Hc1.
    destruct (fault E (S (S (length (trace w))))) as [e2|].
    + by rewrite decide_False by (by intros (_ & _ & ?)).
    + by rewrite decide_True.
Qed.

(** ** Completed runs *)

Lemma loop_row_area_rows hv wf og l w w' :
  for_each l (print_row_area (quiet hv wf og)) w = (Ok tt, w') →
  Forall (λ item : label * Row, ∃ g, row_getitem item.2 "geometry" = Ok (Geom g)) l.
Proof.
  revert w. induction l as [|[i row] l IH]; intros w Hrun; [constructor|].
  cbn [for_each] in Hrun. apply bind_inv in Hrun as ([] & w1 & Hx & Hrun).
  constructor; [|by eapply IH]. unfold print_row_area in Hx. inv0 Hx. cbn.
  match goal with Ha : cell_area ?c = Ok _ |- _ => destruct c; try done end. by eexists.
Qed.

Ltac inv_loop' H body_inv :=
  let Hs := fresh "Hs" in let Ht := fresh "Ht" in
  try match type of H with _ = (Ok ?u, _) => destruct u end;
  apply body_inv in H as [Hs Ht];
  match type of Hs with same_state _ ?w =>
    destruct w; destruct Hs as (? & ? & ?); simpl in *; subst
  end.

Ltac inv2 H :=
  cbv beta in H; unfold record, fresh_kernel in H; cbn [cwd heap disk trace as_path] in H;
  try match type of H with
      | context [is_url ?s] =>
          let b := eval vm_compute in (is_url s) in
          change (is_url s) with b in H; cbv iota in H
      end;
  lazymatch type of H with
  | (_ ≫= _) _ = (Ok _, _) =>
      let a := fresh "a" in let w1 := fresh "w" in let H1 := fresh "H" in
      apply bind_inv in H as (a & w1 & H1 & H); inv2 H1; inv2 H
  | for_each _ (print_row_area _) _ = (Ok _, _) =>
      let Hg := fresh "Hgeom" in
      match type of H with _ = (Ok ?u, _) => destruct u end;
      pose proof (loop_row_area_rows _ _ _ _ _ _ H) as Hg; inv_loop' H loop_row_area
  | for_each _ (print_frame_area _ _) _ = (Ok _, _) => inv_loop' H loop_frame_area
  | for_each _ (print_group_size _) _ = (Ok _, _) => inv_loop' H loop_group_size
  | for_each _ (save_group _ _) _ = (Ok _, _) =>
      rewrite for_each_save_group in H; apply ok_pair_inv in H as [? ?]; subst
  | Series_apply _ (lambda_swap _) _ = (Ok _, _) =>
      apply Series_apply_inv in H as [H ?]; subst
  | finally _ _ _ = (Ok _, _) =>
      let w1 := fresh "w" in let H1 := fresh "H" in
      apply finally_inv in H as (w1 & H & H1); inv2 H; subst
  | _ => inv0 H
  end.

Ltac unfold_notebook H :=
  repeat progress unfold geopandas_notebook, cell_data_directory, cell_read_landuse, cell_columns,
    cell_select, cell_rename, cell_geometry_head, cell_print_area, cell_at, cell_iterrows_area,
    cell_area_0, cell_vectorized_area, cell_area_column, cell_water_bodies, cell_save_water_bodies,
    cell_unique, cell_groups, cell_count_rows, cell_get_group, cell_fan_out, cell_area_information,
    cell_area_csv, DataFrame_groupby, GeoDataFrame_area, DataFrame_plot, DataFrame_head,
    vector_io_notebook, cell_read_uganda, cell_read_nuts, cell_write_gpkg, cell_rename_fid,
    cell_write_to, cell_wfs, cell_swap, cell_set_crs, WebFeatureService_, wfs_getfeature,
    response_read_, with_open, file_write,
    paths_notebook, cell_path, cell_data_directory_alt, Path_exists, Path_is_dir,
    os_path_abspath, os_path_dirname,
    crs_notebook, DataFrame_crs, cell_to_crs, cell_subplots, cell_descriptors, cell_wgs84,
    geopandas_read_file, fetch, DataFrame_to_file, Series_to_csv, Path_resolve, first_rows in H.


Lemma getitem_list_columns df names df' :
  getitem_list df names = Ok df' → Forall (λ n, n ∈ columns df) names.
Proof.
  unfold getitem_list. destruct (List.find _ _) eqn:Hf; [done|]. intros _.
  apply Forall_forall. intros n Hn. apply list_elem_of_In in Hn.
  pose proof (find_none _ _ Hf n Hn) as Hb. cbn in Hb.
  apply bool_decide_eq_false_1 in Hb. by destruct (decide (n ∈ columns df)).
Qed.

Lemma value_selected_geometry row : value "geometry" (selected row) = value "geometry" row.
Proof. done. Qed.

(** X13. What the Geopandas notebook asks of its input: a run
    without failing library calls gets to its end only when the layer
    has the columns KKOD, KATEGORI and geometry, at least five
    features, a geometry in each of the first five, and a feature of
    the class Vattenyta. *)
Theorem what_the_geopandas_notebook_needs hv wf og d fs ds w' :
  fs !! joinpath d (data_directory d / "Landusepolygon.shp")%path = Some (VectorFile ds) →
  geopandas_notebook (quiet hv wf og) (fresh_kernel d fs) = (Ok tt, w') →
  "KKOD" ∈ columns ds ∧ "KATEGORI" ∈ columns ds ∧ "geometry" ∈ columns ds ∧
  5 ≤ length (rows ds) ∧
  Forall (λ row, ∃ g, value "geometry" row = Geom g) (take 5 (rows ds).*2) ∧
  Exists (λ r, value "KATEGORI" r.2 = Str "Vattenyta") (rows ds).
Proof.
  intros Hfile Hrun. unfold_notebook Hrun. inv2 Hrun.
  change ((joinpath d Path0 / "data")%path) with (data_directory d) in *.
  rewrite Hfile in *. simplify_eq.
  repeat match goal with Hg : groupby _ _ = Ok _ |- _ => apply groupby_inv in Hg; subst end.
  match goal with Hsel : getitem_list _ _ = Ok _ |- _ =>
    pose proof (getitem_list_columns _ _ _ Hsel) as Hcols;
    pose proof (renamed_rows _ _ Hsel) as Hrows
  end.
  apply Forall_cons in Hcols as [Hk Hcols]. apply Forall_cons in Hcols as [Hc Hcols].
  apply Forall_cons in Hcols as [Hg _].
  split; [done|]. split; [done|]. split; [done|].
  match goal with Hsel : getitem_list _ _ = Ok _, Hat : at_ _ 4%Z _ = Ok ?c |- _ =>
    pose proof (first_five_rows _ _ _ Hsel Hat) as Hfive
  end.
  split.
  { unfold iterrows, slice_to in Hfive. cbn [rows] in Hfive. rewrite length_take in Hfive.
    rewrite Hrows, length_fmap, length_rows_reset_index in Hfive. lia. }
  split.
  { unfold iterrows, slice_to in Hgeom. cbn [rows] in Hgeom. rewrite Hrows in Hgeom.
    rewrite <-rows_reset_index, <-fmap_take, Forall_fmap.
    rewrite <-fmap_take, Forall_fmap in Hgeom.
    eapply Forall_impl; [exact Hgeom|]. intros [i row] (g & Hgeo). cbn in *. exists g.
    unfold row_getitem in Hgeo. rewrite <-value_selected_geometry. unfold value.
    by destruct (row_get _ _); simplify_eq. }
  match goal with Hgg : get_group _ _ = Ok _, Hsel : getitem_list _ _ = Ok _, Hs : area _ = Ok _ |- _ =>
    unfold get_group in Hgg; cbn [obj by_column] in Hgg;
    rewrite (class_keys _ _ _ Hsel Hs) in Hgg;
    match type of Hgg with context [decide ?P] => destruct (decide P) as [Hin|]; [|done] end
  end.
  apply elem_of_group_keys in Hin as [_ (r & Hr & Hv)]. apply Exists_exists. by exists r.
Qed.


(** ** The files of the Geopandas notebook *)

Lemma is_absolute_truediv D s : is_absolute D = true → is_absolute (D / s) = true.
Proof.
  intros HD. unfold truediv, joinpath. destruct (is_absolute (Path s)) eqn:Hs; [done|].
  by destruct D.
Qed.

Lemma joinpath_truediv_absolute d D s : is_absolute D = true → joinpath d (D / s) = (D / s)%path.
Proof. intros HD. apply joinpath_absolute. by apply is_absolute_truediv. Qed.

Lemma data_directory_absolute d :
  is_absolute d = true →
  data_directory d = mkPath (anchor d) (parts d ++ ["data"]) ∧
  is_absolute (data_directory d) = true.
Proof.
  intros Hd. unfold data_directory. rewrite joinpath_Path0, truediv_file_name by done.
  split; [done|]. by destruct d.
Qed.

Lemma csv_in_the_data_directory d :
  joinpath d (Path "data/area_by_LU_class.csv")
  = mkPath (anchor d) ((parts d ++ ["data"]) ++ ["area_by_LU_class.csv"]).
Proof.
  change (Path "data/area_by_LU_class.csv") with (mkPath Relative ["data"; "area_by_LU_class.csv"]).
  unfold joinpath. cbn. by rewrite <-app_assoc.
Qed.

Lemma class_file_form D k :
  ∃ h rest, class_file D k = mkPath (anchor D) (parts D ++ String "L" (String "U" h) :: rest).
Proof.
  unfold class_file. set (x := str k +:+ ".shp").
  change ("LU_" +:+ x) with (String "L" (String "U" (String "_" x))).
  unfold truediv, joinpath, Path, is_absolute, splitroot, parse_parts. cbn [anchor parts leading_seps split_sep].
  change (is_sep "L") with false. change (is_sep "U") with false.
  change (is_sep "_") with false. cbv iota.
  destruct (split_sep x) as [|h t]; cbn [anchor parts];
    rewrite filter_cons_True by (split; done); by eexists _, _.
Qed.

Lemma file_is_no_class_file D n k :
  is_file_name n = true → (∀ h, n ≠ String "L" (String "U" h)) →
  (D / n)%path ≠ class_file D k.
Proof.
  intros Hn Hne Heq. destruct (class_file_form D k) as (h & rest & Hk).
  rewrite Hk, truediv_file_name in Heq by done. injection Heq as Heq.
  apply app_inv_head in Heq. injection Heq as Heq _. by apply (Hne h).
Qed.

Lemma file_names_apart D n m : is_file_name n = true → is_file_name m = true → n ≠ m →
  (D / n)%path ≠ (D / m)%path.
Proof.
  intros Hn Hm Hne Heq. apply (f_equal name) in Heq.
  destruct (parent_name_truediv D n Hn) as [_ Hn'], (parent_name_truediv D m Hm) as [_ Hm'].
  congruence.
Qed.

Lemma foldl_insert_lookup_ne {K A B} `{Countable K}
    (f : A → K) (g : A → B) (l : list A) (m : gmap K B) p :
  (∀ a, a ∈ l → f a ≠ p) → foldl (λ d x, <[f x := g x]> d) m l !! p = m !! p.
Proof.
  revert m. induction l as [|x l IH]; intros m Hne; [done|]. cbn.
  rewrite IH by (intros a Ha; apply Hne; by right).
  apply lookup_insert_ne, Hne. by left.
Qed.

Lemma layer_keys ds df :
  getitem_list (reset_index ds) ["KKOD"; "KATEGORI"; "geometry"] = Ok df →
  group_keys "CLASS_NAME" (rename df [("KKOD", "ID_CLASS"); ("KATEGORI", "CLASS_NAME")])
  = group_keys "KATEGORI" ds.
Proof.
  intros Hsel. apply group_keys_ext. rewrite (renamed_rows _ _ Hsel), <-list_fmap_compose.
  transitivity ((λ r, value "KATEGORI" r) <$> (rows (reset_index ds)).*2).
  - by rewrite <-list_fmap_compose.
  - by rewrite rows_reset_index, <-list_fmap_compose.
Qed.

(** X14. What a completed run of the Geopandas notebook leaves, when
    the working directory is absolute and no class name has a "/" in
    it.  The third object of the run is the data set: the three
    selected columns under their new names, with the labels 0, 1, 2,
    ... and the column "area".  The file water_bodies.shp holds its
    rows with code 901, and the summary, written under the plain name
    "data/area_by_LU_class.csv", lies in DATA_DIRECTORY and holds for
    every class the sum of the areas of its rows.  The input
    Landusepolygon.shp is not overwritten, and every file that does not
    lie in DATA_DIRECTORY itself is as it was. *)
Theorem what_the_geopandas_notebook_leaves hv wf og d fs ds w' :
  is_absolute d = true →
  fs !! (data_directory d / "Landusepolygon.shp")%path = Some (VectorFile ds) →
  Forall (λ k, no_sep (str k) = true) (group_keys "KATEGORI" ds) →
  geopandas_notebook (quiet hv wf og) (fresh_kernel d fs) = (Ok tt, w') →
  let D := data_directory d in
  let keys := group_keys "KATEGORI" ds in
  ∃ layer land water_bodies,
    rows layer = (λ r, (r.1, selected r.2)) <$> rows (reset_index ds) ∧
    rows land = (λ r, (r.1, row_set "area" (area_or_nan (value "geometry" r.2)) r.2))
                  <$> rows layer ∧
    rows water_bodies = filter (λ r, eq_int (value "ID_CLASS" r.2) 901 = true) (rows land) ∧
    heap w' !! 2 = Some land ∧
    disk w' !! (D / "water_bodies.shp")%path = Some (VectorFile water_bodies) ∧
    disk w' !! (D / "area_by_LU_class.csv")%path
    = Some (CsvFile ((λ k, (k, Float (class_area layer k))) <$> keys)) ∧
    disk w' !! (D / "Landusepolygon.shp")%path = Some (VectorFile ds) ∧
    (∀ p, parent p ≠ D → disk w' !! p = fs !! p).
Proof.
  intros Hd Hfile Hnames Hrun D keys. destruct (data_directory_absolute d Hd) as [HD HDabs].
  rewrite <-(joinpath_truediv_absolute d _ "Landusepolygon.shp" HDabs) in Hfile.
  unfold_notebook Hrun. inv2 Hrun.
  change ((joinpath d Path0 / "data")%path) with (data_directory d) in *.
  rewrite Hfile in *. simplify_eq.
  repeat match goal with Hg : groupby _ _ = Ok _ |- _ => apply groupby_inv in Hg; subst end.
  rewrite joinpath_truediv_absolute in Hfile by done.
  cbn [heap disk]. rewrite !joinpath_truediv_absolute by done.
  assert (Hcsv : joinpath d (Path "data/area_by_LU_class.csv")
                 = (data_directory d / "area_by_LU_class.csv")%path).
  { by rewrite csv_in_the_data_directory, truediv_file_name, HD. }
  rewrite Hcsv. clear Hcsv. fold D.
  match goal with Hsel : getitem_list _ _ = Ok ?sel, Hs : area _ = Ok ?s,
                       Hm : getattr _ "ID_CLASS" = Ok ?m |- context [series_eq ?m 901] =>
    set (layer := rename sel [("KKOD", "ID_CLASS"); ("KATEGORI", "CLASS_NAME")]) in *;
    set (land := setitem layer "area" s) in *;
    pose proof (renamed_rows _ _ Hsel) as Hlayer;
    pose proof (area_column_rows _ _ Hs) as Hland;
    pose proof (rows_getitem_mask _ _ _ 901 Hm) as Hwater;
    pose proof (class_keys _ _ _ Hsel Hs) as Hkeys;
    pose proof (layer_keys _ _ Hsel) as Hkeys';
    assert (Hcol : "CLASS_NAME" ∈ columns layer)
      by (apply getitem_list_inv in Hsel; subst sel; apply (bool_decide_unpack _); by vm_compute);
    pose proof (class_area_summary _ _ Hcol Hs) as Hsum;
    exists layer, land, (getitem_mask land (series_eq m 901))
  end.
  fold layer land in Hkeys. fold layer in Hkeys'. fold keys in Hkeys, Hkeys'.
  fold land in Hsum.
  assert (Hclass : ∀ kg, kg ∈ groups (mkGroupBy land "CLASS_NAME") → kg.1 ∈ keys).
  { intros kg Hkg. unfold groups in Hkg. cbn [obj by_column] in Hkg.
    change (List.map ?f ?l) with (f <$> l) in Hkg. rewrite Hkeys in Hkg.
    apply list_elem_of_fmap in Hkg as (k & -> & Hk). done. }
  assert (Hout : ∀ (m : gmap PurePath file) p,
            (∀ k, k ∈ keys → p ≠ class_file D k) →
            foldl (λ fs0 (kg : cell * DataFrame),
                     <[joinpath d (class_file D kg.1) := VectorFile kg.2]> fs0)
                  m (groups (mkGroupBy land "CLASS_NAME")) !! p = m !! p).
  { intros m p Hp. apply (foldl_insert_lookup_ne (λ kg : cell * DataFrame,
      joinpath d (class_file D kg.1)) (λ kg, VectorFile kg.2)).
    intros kg Hkg Heq. unfold class_file in Heq.
    rewrite joinpath_truediv_absolute in Heq by done.
    by apply (Hp kg.1 (Hclass kg Hkg)). }
  split; [exact Hlayer|]. split; [exact Hland|]. split; [exact Hwater|]. split; [done|].
  split.
  { rewrite lookup_insert_ne by (by apply file_names_apart).
    rewrite Hout by (intros k _; by apply file_is_no_class_file).
    by rewrite lookup_insert_eq. }
  split.
  { rewrite lookup_insert_eq. do 2 f_equal. rewrite groupby_ok in Hsum; last first.
    { unfold land. rewrite setitem_area_columns. case_decide; [done|]. apply elem_of_app. by left. }
    cbn [mbind result_bind] in Hsum.
    match goal with Hsg : groupby_getattr _ "area" = Ok _ |- _ => rewrite Hsg in Hsum end.
    cbn [mbind result_bind] in Hsum. injection Hsum as ->. by rewrite Hkeys'. }
  split.
  { rewrite lookup_insert_ne by (by apply file_names_apart).
    rewrite Hout by (intros k _; by apply file_is_no_class_file).
    by rewrite lookup_insert_ne by (by apply file_names_apart). }
  intros p Hp.
  assert (Hin : ∀ n, is_file_name n = true → p ≠ (D / n)%path).
  { intros n Hn ->. by destruct (parent_name_truediv D n Hn). }
  rewrite lookup_insert_ne by (apply not_eq_sym; by apply Hin). rewrite Hout; last first.
  { intros k Hk. apply Hin. unfold keys in Hk. rewrite Forall_forall in Hnames.
    by apply class_file_name, Hnames. }
  rewrite lookup_insert_ne by (apply not_eq_sym; by apply Hin). done.
Qed.

(** ** The files of the vector I/O notebook *)

Lemma rename_drops_FID df : "FID" ∉ columns (rename df [("FID", "FID1")]).
Proof.
  unfold rename. cbn [columns]. change (List.map ?f ?l) with (f <$> l).
  intros (k & Hk & _)%list_elem_of_fmap. destruct (decide (k = "FID")) as [->|Hne].
  - vm_compute in Hk. discriminate Hk.
  - unfold rename_label in Hk. cbn [List.find fst] in Hk.
    rewrite bool_decide_eq_false_2 in Hk by done. cbn in Hk. by subst k.
Qed.

Lemma names_apart B B' n m :
  is_file_name n = true → is_file_name m = true → n ≠ m → (B / n)%path ≠ (B' / m)%path.
Proof.
  intros Hn Hm Hne Heq. apply (f_equal name) in Heq.
  destruct (parent_name_truediv B n Hn) as [_ Hn'], (parent_name_truediv B' m Hm) as [_ Hm'].
  congruence.
Qed.

Lemma working_directory_apart d n m :
  is_absolute d = true → is_file_name n = true → is_file_name m = true →
  (d / n)%path ≠ (data_directory d / m)%path.
Proof.
  intros Hd Hn Hm Heq. destruct (data_directory_absolute d Hd) as [HD _].
  rewrite HD, !truediv_file_name in Heq by done. cbn [anchor parts] in Heq.
  injection Heq as Heq. rewrite <-app_assoc in Heq. apply app_inv_head in Heq. discriminate Heq.
Qed.

Lemma wrong_fid_false df name :
  wrong_fid df = false → name ∈ columns df → is_fid name = true →
  Forall (λ r, is_Int (value name r.2) = true) (rows df).
Proof.
  unfold wrong_fid. intros Hno Hin Hfid. apply Forall_forall. intros r Hr.
  assert (Hall : forallb (λ r, is_Int (value name r.2)) (rows df) = true).
  { destruct (forallb _ (rows df)) eqn:Hf; [done|].
    assert (existsb (λ name, is_fid name && negb (forallb (λ r, is_Int (value name r.2)) (rows df)))
              (columns df) = true); [|congruence].
    apply existsb_exists. exists name. split; [by apply list_elem_of_In|].
    by rewrite Hfid, Hf. }
  rewrite forallb_forall in Hall. apply Hall. by apply list_elem_of_In.
Qed.

Lemma wrong_fid_text df r s :
  "FID" ∈ columns df → r ∈ rows df → value "FID" r.2 = Str s → wrong_fid df = true.
Proof.
  intros Hc Hr Hv. destruct (wrong_fid df) eqn:Hw; [done|].
  pose proof (wrong_fid_false df "FID" Hw Hc eq_refl) as Hall.
  rewrite Forall_forall in Hall. specialize (Hall r Hr). by rewrite Hv in Hall.
Qed.

(** X15. What a completed run of the vector I/O notebook leaves, when
    the working directory is absolute.  A run gets to its end only
    when the first write does not fail, so the NUTS layer as
    downloaded, the second object, has no text in a column FID; the
    three files nuts_1.gpkg (in the working directory, where the second
    write has replaced the first), DATA_DIRECTORY/nuts_1.gpkg and
    DATA_DIRECTORY/nuts_1.gjson all hold the renamed layer, which has
    no column FID; cykelpump_punkt.gml holds the body of the WFS
    response; and every file that lies neither in the working
    directory nor in DATA_DIRECTORY itself is as it was. *)
Theorem what_the_vector_io_notebook_leaves hv wf og d fs w' :
  is_absolute d = true →
  vector_io_notebook (quiet hv wf og) (fresh_kernel d fs) = (Ok tt, w') →
  let D := data_directory d in
  ∃ nuts,
    hv nuts_url = Some nuts ∧
    (∀ r s, "FID" ∈ columns nuts → r ∈ rows nuts → value "FID" r.2 ≠ Str s) ∧
    (let renamed := rename (reset_index nuts) [("FID", "FID1")] in
    ("FID" ∉ columns renamed) ∧
    heap w' !! 1 = Some (reset_index nuts) ∧
    disk w' !! (d / "nuts_1.gpkg")%path = Some (VectorFile renamed) ∧
    disk w' !! (D / "nuts_1.gpkg")%path = Some (VectorFile renamed) ∧
    disk w' !! (D / "nuts_1.gjson")%path = Some (VectorFile renamed) ∧
    disk w' !! (d / "cykelpump_punkt.gml")%path
    = Some (RawFile (wf wfs_url "od_gis:Cykelpump_Punkt" "GML2")) ∧
    (∀ p, parent p ≠ d → parent p ≠ D → disk w' !! p = fs !! p)).
Proof.
  intros Hd Hrun D. destruct (data_directory_absolute d Hd) as [HD HDabs].
  unfold_notebook Hrun. inv2 Hrun.
  change ((joinpath d Path0 / "data")%path) with (data_directory d) in *.
  cbn [heap disk]. rewrite ?joinpath_truediv_absolute by done.
  change (joinpath d (Path ?s)) with (d / s)%path. fold D.
  match goal with Hn : match http_vector _ nuts_url with _ => _ end = Ok ?x |- _ =>
    cbn [http_vector quiet] in Hn; destruct (hv nuts_url) as [nuts|] eqn:Hnuts; [|done];
    injection Hn as <-; exists nuts
  end.
  split; [done|]. split.
  { intros r s Hc Hr Hv.
    match goal with Hck : check_schema (Some "GPKG") (reset_index nuts) = Ok _ |- _ =>
      rewrite check_schema_GPKG in Hck; destruct (wrong_fid (reset_index nuts)) eqn:Hw; [done|]
    end.
    pose proof (wrong_fid_false _ "FID" Hw Hc eq_refl) as Hall.
    apply (Forall_fmap snd (λ row, is_Int (value "FID" row) = true)) in Hall.
    rewrite rows_reset_index in Hall. rewrite Forall_forall in Hall.
    specialize (Hall r.2). rewrite Hv in Hall. discriminate Hall.
    apply list_elem_of_fmap. by exists r. }
  split; [apply rename_drops_FID|]. split; [done|].
  rewrite lookup_insert_eq. change ("" +:+ ?x) with x. cbn [fst snd wfs_feature quiet].
  assert (Hwd : ∀ n m, is_file_name n = true → is_file_name m = true →
            (D / m)%path ≠ (d / n)%path).
  { intros n m Hn Hm Heq. by apply (working_directory_apart d n m Hd Hn Hm). }
  split.
  { rewrite lookup_insert_ne by (by apply Hwd).
    rewrite !lookup_insert_ne by (by apply names_apart).
    rewrite !lookup_insert_ne by (by apply Hwd).
    by rewrite lookup_insert_eq. }
  split.
  { rewrite lookup_insert_ne by (by apply names_apart).
    rewrite !lookup_insert_ne by (by apply names_apart).
    by rewrite lookup_insert_eq. }
  split.
  { rewrite lookup_insert_ne by (by apply names_apart).
    rewrite !lookup_insert_ne by (by apply names_apart).
    by rewrite lookup_insert_eq. }
  split.
  { rewrite lookup_insert_ne by (by apply Hwd). by rewrite lookup_insert_eq. }
  intros p Hp1 Hp2.
  assert (Hin : ∀ B n, is_file_name n = true → parent p ≠ B → (B / n)%path ≠ p).
  { intros B n Hn Hp <-. by destruct (parent_name_truediv B n Hn). }
  by rewrite !lookup_insert_ne by (by apply Hin).
Qed.

Lemma rename_FID_no_fid df :
  Forall (λ name, is_fid name = true → name = "FID") (columns df) →
  Forall (λ name, is_fid name = false) (columns (rename df [("FID", "FID1")])).
Proof.
  intros Hall. unfold rename. cbn [columns]. change (List.map ?f ?l) with (f <$> l).
  rewrite Forall_fmap. eapply Forall_impl; [exact Hall|]. intros name Hname. cbn.
  unfold rename_label. cbn [List.find fst snd].
  destruct (decide ("FID" = name)) as [<-|Hne].
  - by rewrite bool_decide_eq_true_2.
  - rewrite bool_decide_eq_false_2 by done. cbn.
    destruct (is_fid name) eqn:Hf; [|done]. by destruct Hne; rewrite Hname.
Qed.

(** X22. The first write of the vector I/O notebook, and the cell
    that repairs it.  A layer with text in its column FID is refused
    by the GeoPackage driver: [gdf.to_file('nuts_1.gpkg',
    driver='GPKG')] raises SchemaError, and no frame object is made or
    changed.  After [gdf = gdf.rename(columns={'FID': 'FID1'})] the
    same call goes through, when FID was the only column with that
    name in any case: nuts_1.gpkg in the working directory then holds
    the renamed layer, a new object. *)
Theorem renaming_FID_lets_the_layer_be_written
    hv wf og (w : world) (gdf : nat) (df : DataFrame) (r : label * Row) (s : string) :
  heap w !! gdf = Some df → "FID" ∈ columns df → r ∈ rows df → value "FID" r.2 = Str s →
  Forall (λ name, is_fid name = true → name = "FID") (columns df) →
  let E := quiet hv wf og in
  let first := cell_write_gpkg E gdf w in
  let second := (gdf' ← cell_rename_fid E gdf; cell_write_gpkg E gdf') first.2 in
  let renamed := rename df [("FID", "FID1")] in
  first.1 = Raise SchemaError ∧ heap first.2 = heap w ∧
  calls_since w first.2 = [to_file (str_arg "nuts_1.gpkg") (Some "GPKG") df] ∧
  second.1 = Ok tt ∧ heap second.2 = heap w ++ [renamed] ∧
  disk second.2 !! joinpath (cwd w) (Path "nuts_1.gpkg") = Some (VectorFile renamed).
Proof.
  intros Hdf Hc Hr Hv Hone E first second renamed. subst first second renamed E.
  unfold calls_since, cell_write_gpkg, cell_rename_fid, DataFrame_to_file.
  run. rewrite Hdf. run. rewrite check_schema_GPKG, (wrong_fid_text df r s) by done.
  run. rewrite Hdf. run. rewrite lookup_snoc. run.
  rewrite check_schema_GPKG, no_fid_column by (by apply rename_FID_no_fid). run.
  split; [done|]. split; [done|]. split; [by rewrite drop_app_length|].
  split; [done|]. split; [done|]. by rewrite lookup_insert_eq.
Qed.

(** ** The CRS notebook *)

Lemma to_crs_inv df c df' :
  to_crs df c = Ok df' →
  ∃ c0, crs df = Some c0 ∧ crs df' = Some c ∧ columns df' = columns df ∧
        index df' = index df ∧
        Forall2 (λ r r', ∀ k,
                   row_get k r'.2
                   = if decide (k = "geometry") then transform_cell c0 c <$> row_get k r.2
                     else row_get k r.2)
                (rows df) (rows df').
Proof.
  unfold to_crs. destruct (crs df) as [c0|]; [|done]. intros [= <-]. exists c0.
  split; [done|]. split; [done|]. split; [done|]. cbn [rows]. split.
  - unfold index. cbn [rows]. change (List.map ?f ?l) with (f <$> l).
    by rewrite <-list_fmap_compose.
  - change (List.map ?f (rows df)) with (f <$> rows df).
    apply Forall2_fmap_r, Forall_Forall2_diag, Forall_forall. intros [i row] _ k. cbn [snd].
    induction row as [|[k0 v] row IH]; cbn [List.map row_get fst snd].
    + by case_decide.
    + destruct (decide (k0 = k)) as [->|Hne]; [|exact IH].
      by case_decide.
Qed.

(** X16. What a completed run of the CRS notebook shows: the data
    set that was downloaded has a CRS; [to_crs("EPSG:4326")] has made
    a second frame with the CRS EPSG:4326, the same columns and the
    same labels, and has left the first as it was; the three lines
    printed are the proj4 string, the WKT and the EPSG code of the CRS
    of the data set as downloaded, not of the reprojected one; and the
    notebook has written no file. *)
Theorem what_the_crs_notebook_shows hv wf og d fs w' :
  crs_notebook (quiet hv wf og) (fresh_kernel d fs) = (Ok tt, w') →
  ∃ nuts c0 c p reprojected,
    hv nuts_url = Some nuts ∧ crs nuts = Some c0 ∧
    CRS_from_user_input "EPSG:4326" = Ok c ∧ CRS_from_crs c0 = Ok p ∧
    heap w' = [reset_index nuts; reprojected] ∧
    crs reprojected = Some c ∧ columns reprojected = columns nuts ∧
    index reprojected = index (reset_index nuts) ∧
    printed (trace w')
    = ["CRS as a proj4 string: " +:+ to_proj4 p +:+ newline;
       "CRS in WKT format: " +:+ to_wkt p +:+ newline;
       "EPSG code of the CRS: " +:+ str_option_Z (to_epsg p) +:+ newline] ∧
    disk w' = fs.
Proof.
  intros Hrun. unfold_notebook Hrun. inv2 Hrun.
  match goal with Hn : match http_vector _ nuts_url with _ => _ end = Ok ?x |- _ =>
    cbn [http_vector quiet] in Hn; destruct (hv nuts_url) as [nuts|] eqn:Hnuts; [|done];
    injection Hn as <-
  end.
  match goal with Ht : to_crs _ _ = Ok _ |- _ =>
    apply to_crs_inv in Ht as (c0 & Hc0 & Hc & Hcols & Hix & _)
  end.
  match goal with Hp : match crs (reset_index nuts) with _ => _ end = Ok ?p |- _ =>
    rewrite Hc0 in Hp
  end.
  match goal with
  | Ha : CRS_from_user_input "EPSG:4326" = Ok ?x,
    Hb : CRS_from_user_input "EPSG:4326" = Ok ?y |- _ =>
      tryif constr_eq x y then fail else (assert (y = x) by congruence; subst y)
  end.
  eexists nuts, c0, _, _, _. split; [done|]. split; [exact Hc0|].
  split; [eassumption|]. split; [eassumption|]. split; [reflexivity|].
  split; [exact Hc|]. split; [exact Hcols|]. split; [exact Hix|]. split; [reflexivity|done].
Qed.

(** X17. [gdf.to_crs("EPSG:4326")] makes a new frame and leaves the
    data set as it was.  A data set without CRS cannot be transformed:
    the call raises ValueError and no frame is made.  Otherwise the
    new frame has the CRS asked for, the columns and the labels of the
    data set, and in every row the geometry transformed from the old
    CRS to the new one and every other value unchanged. *)
Theorem to_crs_makes_a_new_frame hv wf og (w : world) (gdf : nat) (df : DataFrame) (c : CRS) :
  heap w !! gdf = Some df → CRS_from_user_input "EPSG:4326" = Ok c →
  let rw := cell_to_crs (quiet hv wf og) gdf w in
  heap rw.2 !! gdf = Some df ∧
  match crs df with
  | None => rw.1 = Raise ValueError ∧ heap rw.2 = heap w
  | Some c0 =>
      ∃ df', rw.1 = Ok (length (heap w)) ∧ heap rw.2 = heap w ++ [df'] ∧
        crs df' = Some c ∧ columns df' = columns df ∧ index df' = index df ∧
        Forall2 (λ r r', ∀ k,
                   row_get k r'.2
                   = if decide (k = "geometry") then transform_cell c0 c <$> row_get k r.2
                     else row_get k r.2)
                (rows df) (rows df')
  end.
Proof.
  intros Hdf Hc rw. subst rw. unfold cell_to_crs. run. rewrite Hdf. run. rewrite Hc. run.
  destruct (to_crs df c) as [df'|e] eqn:Ht.
  - destruct (to_crs_inv _ _ _ Ht) as (c0 & Hc0 & Hc' & Hcols & Hix & Hrows). rewrite Hc0. run.
    split; [by apply lookup_app_l_Some|]. exists df'. by repeat split.
  - unfold to_crs in Ht. destruct (crs df); [done|]. injection Ht as <-. by run.
Qed.

(** ** Class names as file names *)

Lemma length_append s t : String.length (s +:+ t) = String.length s + String.length t.
Proof. induction s as [|c s IH]; [done|]. cbn. by rewrite <-IH. Qed.

Lemma append_inj_r s t x : s +:+ x = t +:+ x → s = t.
Proof.
  revert t. induction s as [|c s IH]; intros [|c' t] Heq.
  - done.
  - apply (f_equal String.length) in Heq. change ("" +:+ x) with x in Heq.
    change (String c' t +:+ x) with (String c' (t +:+ x)) in Heq.
    cbn [String.length] in Heq. rewrite length_append in Heq. lia.
  - apply (f_equal String.length) in Heq. change ("" +:+ x) with x in Heq.
    change (String c s +:+ x) with (String c (s +:+ x)) in Heq.
    cbn [String.length] in Heq. rewrite length_append in Heq. lia.
  - change (String c s +:+ x) with (String c (s +:+ x)) in Heq.
    change (String c' t +:+ x) with (String c' (t +:+ x)) in Heq.
    injection Heq as -> Heq. f_equal. by apply IH.
Qed.


(** X18. When every class name is a string without "/", the fan-out
    loop gives every class a file of its own: for each class name s,
    the file LU_<s>.shp lies directly in DATA_DIRECTORY and holds,
    after the loop, exactly the rows of the class s. *)
Theorem every_class_name_gets_its_own_file
    hv wf og (w : world) (D : PurePath) (data_set : nat) (df : DataFrame) :
  heap w !! data_set = Some df → "CLASS_NAME" ∈ columns df →
  Forall (λ r, value "CLASS_NAME" r.2 = NaN ∨
               ∃ s, value "CLASS_NAME" r.2 = Str s ∧ no_sep s = true) (rows df) →
  ∃ w', cell_fan_out (quiet hv wf og) D data_set w = (Ok tt, w') ∧
    ∀ s, Exists (λ r, value "CLASS_NAME" r.2 = Str s) (rows df) →
      let p := (D / ("LU_" +:+ s +:+ ".shp"))%path in
      name p = "LU_" +:+ s +:+ ".shp" ∧ parent p = D ∧
      ∃ group, disk w' !! joinpath (cwd w) p = Some (VectorFile group) ∧
        columns group = columns df ∧
        rows group = filter (λ r, value "CLASS_NAME" r.2 = Str s) (rows df).
Proof.
  intros Hdf Hc Hnames.
  unfold cell_fan_out, DataFrame_groupby. run. rewrite Hdf. run.
  rewrite groupby_ok by done. run.
  rewrite for_each_save_group. eexists. split; [done|]. cbn [trace disk heap cwd].
  intros s Hs. cbv zeta. apply Exists_exists in Hs as (r & Hr & Hv).
  assert (Hsafe : no_sep s = true).
  { rewrite Forall_forall in Hnames. destruct (Hnames r Hr) as [Hn|(s' & Hs' & Hsep)];
      [congruence|]. rewrite Hv in Hs'. by injection Hs' as ->. }
  destruct (parent_name_truediv D _ (class_file_name s Hsafe)) as [Hparent Hname].
  split; [done|]. split; [done|].
  exists (get_group_frame "CLASS_NAME" df (Str s)). split; [|done].
  unfold groups. cbn [obj by_column]. change (List.map ?f ?l) with (f <$> l).
  rewrite foldl_fmap.
  apply (foldl_insert_lookup (λ k, joinpath (cwd w) (class_file D k))
           (λ k, VectorFile (get_group_frame "CLASS_NAME" df k)) _ _ (Str s)).
  - apply elem_of_group_keys. split; [done|]. by exists r.
  - intros k' [Hk' (r' & Hr' & Hv')]%elem_of_group_keys Heq.
    rewrite Forall_forall in Hnames. destruct (Hnames r' Hr') as [Hn|(s' & Hs' & Hsep)];
      [congruence|].
    assert (k' = Str s') as -> by congruence. f_equal.
    apply (f_equal name) in Heq. unfold class_file in Heq.
    change (str (Str ?x)) with x in Heq.
    rewrite !name_located in Heq by (by apply class_file_name).
    apply (inj (String.app "LU_")) in Heq. by apply append_inj_r in Heq.
Qed.

(** X19. The WFS cell is not undone when it fails late.  When the
    layer decoded from the response already carries a CRS other than
    EPSG:3011, [set_crs] refuses with ValueError: the downloaded file
    cykelpump_punkt.gml stays in the working directory with the body
    of the response, the decoded layer stays as the last object, no
    file outside the working directory is changed, and [to_file] is
    not called. *)
Theorem a_refused_crs_leaves_the_download
    hv wf og (w : world) (D : PurePath) (df0 : DataFrame) (c0 c : CRS) :
  let body := wf wfs_url "od_gis:Cykelpump_Punkt" "GML2" in
  og body = Ok df0 → crs df0 = Some c0 →
  CRS_from_user_input "EPSG:3011" = Ok c → crs_equal c0 c = false →
  let rw := cell_wfs (quiet hv wf og) D w in
  rw.1 = Raise ValueError ∧
  heap rw.2 = heap w ++ [reset_index df0] ∧
  disk rw.2 !! joinpath (cwd w) (Path "cykelpump_punkt.gml") = Some (RawFile body) ∧
  (∀ p, parent p ≠ cwd w → disk rw.2 !! p = disk w !! p) ∧
  Forall (λ call, kind_of call ≠ k_write) (calls_since w rw.2).
Proof.
  intros body Hog Hcrs Hc Hne rw. subst rw.
  unfold cell_wfs, WebFeatureService_, wfs_getfeature, with_open, response_read_, file_write,
    geopandas_read_file, fetch, cell_set_crs, DataFrame_to_file, calls_since.
  run. rewrite lookup_insert_eq. run.
  change (is_url "cykelpump_punkt.gml") with false. cbv iota beta. run.
  rewrite lookup_insert_eq. cbn [ogr_gml wfs_feature quiet].
  change ("" +:+ ?x) with x. fold body. rewrite Hog. run.
  rewrite lookup_snoc. run. rewrite Hc. unfold set_crs.
  change (crs (reset_index df0)) with (crs df0). rewrite Hcrs, Hne. run. cbn [heap disk trace].
  split; [done|]. split; [done|]. split; [by rewrite lookup_insert_eq|]. split.
  - intros p Hp.
    assert (Hgml : joinpath (cwd w) (Path "cykelpump_punkt.gml") ≠ p).
    { intros <-. apply Hp. change (joinpath ?d (Path ?n)) with (d / n)%path.
      by destruct (parent_name_truediv (cwd w) "cykelpump_punkt.gml" eq_refl). }
    by rewrite !lookup_insert_ne.
  - rewrite <-!app_assoc, drop_app_length. cbn [app]. by repeat constructor.
Qed.



(** ** The paths notebook *)

Lemma data_directory_alt_normalised d :
  normalised d = true →
  data_directory_alt d = (d / "data")%path ∧ data_directory d = (d / "data")%path.
Proof.
  intros Hn. destruct (file_dir_normalised _ Hn) as [_ Hp].
  unfold data_directory_alt, data_directory. rewrite Hp, joinpath_Path0.
  rewrite joinpath_absolute; [done|]. unfold normalised in Hn.
  by apply andb_true_iff in Hn as [? _].
Qed.

(** X20. What a completed run of the paths notebook shows, when the
    working directory is absolute and has no ".." component: the line
    printed is DATA_DIRECTORY, the working directory with "data"
    appended; the two cells that read UGA_adm1_2011.shp, one after
    each way of computing DATA_DIRECTORY, read the same file and give
    two equal frames; and nothing is written. *)
Theorem what_the_paths_notebook_shows hv wf og d fs w' :
  normalised d = true →
  paths_notebook (quiet hv wf og) (fresh_kernel d fs) = (Ok tt, w') →
  let D := (d / "data")%path in
  printed (trace w') = [render D] ∧
  file_targets (trace w')
  = [path_arg (D / "UGA_adm1_2011.shp"); path_arg (D / "UGA_adm1_2011.shp")] ∧
  (∃ data_set, heap w' = [data_set; data_set]) ∧
  disk w' = fs.
Proof.
  intros Hn Hrun. cbv zeta. destruct (data_directory_alt_normalised d Hn) as [Halt Hdir].
  unfold_notebook Hrun. inv2 Hrun.
  change (joinpath d (Path (render (parent (Path (render (normpath (joinpath d
            (Path "UGA_adm1_2011.shp")))))))) / "data")%path
    with (data_directory_alt d) in *.
  change ((joinpath d Path0 / "data")%path) with (data_directory d) in *.
  rewrite Halt, Hdir in *.
  cbn [trace heap disk]. split; [done|]. split; [done|]. split; [|done].
  match goal with
  | Ha : ?m = Ok ?x, Hb : ?m = Ok ?y |- _ =>
      tryif constr_eq x y then fail else (assert (y = x) by congruence; subst y)
  end.
  by eexists.
Qed.

(** ** Enough for the Geopandas notebook *)







(** ** Enough for the Geopandas notebook: the whole run *)






End properties.


(** * The properties on the sample data *)

Section on_sample.
Import pathlib shapely pandas kernel notebooks spec sample.
#[local] Existing Instances Z_float64 Z_externals.

(** C1 as it was claimed: the files written by the fan-out loop do
    not hold every row of the input.  The fourth feature of the sample
    layer has no class, and no file receives it. *)
Lemma fan_out_drops_rows_without_class :
  let w := mkWorld home [land_use] ∅ [] in
  ¬ every_row_written land_use
      (written (trace (cell_fan_out calm (data_directory home) 0 w).2)).
Proof.
  intros w. unfold every_row_written. apply (bool_decide_unpack _). by vm_compute.
Qed.

Lemma fan_out_writes_one_file_per_class_witness :
  let w := mkWorld home [land_use] ∅ [] in
  ∃ w', cell_fan_out calm (data_directory home) 0 w = (Ok tt, w') ∧
    (written (trace w')).*1
    = path_arg <$> [Path "/home/student/GSP_L2/data/LU_Skog.shp";
                    Path "/home/student/GSP_L2/data/LU_Vattenyta.shp";
                    Path "/home/student/GSP_L2/data/LU_Åker.shp"].
Proof.
  intros w.
  destruct (fan_out_writes_one_file_per_class served response decoded w (data_directory home)
              0 land_use) as (w' & Hrun & Hsaved & _).
  - reflexivity.
  - apply (bool_decide_unpack _). by vm_compute.
  - exists w'. split; [exact Hrun|].
    change (drop (length (trace w)) (trace w')) with (trace w') in Hsaved.
    rewrite Hsaved. reflexivity.
Defined.

Lemma area_summary_sums_the_areas_of_each_class_witness :
  let w := mkWorld home [land_use] ∅ [] in
  ((cell_area_column calm 0 ;; cell_area_information calm 0) w).1
  = Ok [(Str "Skog", Float 13%Z); (Str "Vattenyta", Float 5%Z); (Str "Åker", Float 0%Z)].
Proof.
  intros w.
  destruct (area_summary_sums_the_areas_of_each_class served response decoded w 0 land_use)
    as (Hsum & _).
  - reflexivity.
  - apply (bool_decide_unpack _). by vm_compute.
  - apply (bool_decide_unpack _). by vm_compute.
  - etransitivity; [exact Hsum|reflexivity].
Defined.

Lemma failures_propagate_and_nothing_is_retried_witness :
  let rw := cell_wfs offline (data_directory home) (fresh_kernel home ∅) in
  rw.1 = Raise HTTPError ∧
  trace rw.2 = [WebFeatureService wfs_url "1.1.0"; getfeature "od_gis:Cykelpump_Punkt" "GML2"].
Proof.
  intros rw.
  destruct (failures_propagate_and_nothing_is_retried offline) as (_ & _ & Hwfs).
  destruct (Hwfs (data_directory home) (fresh_kernel home ∅)) as (_ & _ & Hfail).
  apply (Hfail HTTPError); vm_compute; reflexivity.
Defined.

(** C6 as it was claimed: two data sets on which the notebook runs
    to its end, and the sequences of kinds of calls differ (the layer
    with three classes writes three files, the layer of lakes one). *)
Lemma kinds_of_calls_depend_on_the_data :
  let run data_set := geopandas_notebook calm (fresh_kernel home (files data_set)) in
  (run Landusepolygon).1 = Ok tt ∧ (run lakes).1 = Ok tt ∧
  kind_of <$> trace (run Landusepolygon).2 ≠ kind_of <$> trace (run lakes).2.
Proof.
  intros run. split; [by vm_compute|]. split; [by vm_compute|].
  intros Heq. apply (f_equal length) in Heq. vm_compute in Heq. discriminate Heq.
Qed.

Lemma kinds_of_calls_of_completed_runs_witness :
  kind_of <$> trace (geopandas_notebook calm (fresh_kernel home (files Landusepolygon))).2
  = geopandas_kinds 3 ∧
  kind_of <$> trace (vector_io_notebook steady (fresh_kernel home (files lakes))).2
  = vector_io_kinds [false; true].
Proof.
  split.
  - destruct (kinds_of_calls_of_completed_runs served response decoded home
                (files Landusepolygon)
                (geopandas_notebook calm (fresh_kernel home (files Landusepolygon))).2)
      as (_ & _ & _ & Hkinds).
    apply (Hkinds Landusepolygon).
    + vm_compute; reflexivity.
    + etransitivity; [apply surjective_pairing|].
      apply (f_equal (λ r, (r, _))). vm_compute; reflexivity.
  - destruct (kinds_of_calls_of_completed_runs mirror response decoded home (files lakes)
                (vector_io_notebook steady (fresh_kernel home (files lakes))).2)
      as (Hkinds & _).
    destruct Hkinds as (layer & Hlayer & Hkinds).
    + etransitivity; [apply surjective_pairing|].
      apply (f_equal (λ r, (r, _))). vm_compute; reflexivity.
    + injection Hlayer as <-. exact Hkinds.
Defined.



(** C8 as it was claimed: the sixth row of the sample layer has no
    geometry; the area by the row's geometry object is an exception
    there, the area in the frame is NaN, and of the two loop bodies one
    raises and the other prints. *)
Lemma a_row_without_geometry_has_two_areas :
  let w := mkWorld home [land_use] ∅ [] in
  let row := [("ID_CLASS", Int 601); ("CLASS_NAME", Str "Åker"); ("geometry", NaN)] in
  (5%Z, row) ∈ iterrows land_use ∧
  (c ← row_getitem row "geometry"; cell_area c) = Raise (AttributeError "area") ∧
  (s ← area land_use; series_getitem s 5%Z) = Ok NaN ∧
  (print_row_area calm (5%Z, row) w).1 = Raise (AttributeError "area") ∧
  (print_frame_area calm 0 (5%Z, row) w).1 = Ok tt.
Proof.
  intros w row. split.
  - apply (bool_decide_unpack _). by vm_compute.
  - repeat split; vm_compute; reflexivity.
Qed.

Lemma iterrows_area_equals_frame_area_witness :
  let w := mkWorld home [land_use] ∅ [] in
  let row := [("ID_CLASS", Int 302); ("CLASS_NAME", Str "Skog"); ("geometry", square 2 0 3)] in
  (c ← row_getitem row "geometry"; cell_area c) = Ok 9%Z ∧
  (s ← area land_use; series_getitem s 1%Z) = Ok (Float 9%Z) ∧
  printed (calls_since w (print_frame_area calm 0 (1%Z, row) w).2)
  = printed (calls_since w (print_row_area calm (1%Z, row) w).2).
Proof.
  intros w row.
  destruct (iterrows_area_equals_frame_area served response decoded w 0 land_use 5 1%Z row)
    as [Hsame _].
  - reflexivity.
  - apply (bool_decide_unpack _). by vm_compute.
  - apply (bool_decide_unpack _). by vm_compute.
  - apply (bool_decide_unpack _). by vm_compute.
  - destruct (Hsame (@Polygon Z_float64 [(2, 0); (5, 0); (5, 3); (2, 3)]%Z []) eq_refl)
      as (Hrow & Hframe & _ & _ & _ & Hlines).
    split; [exact Hrow|]. split; [exact Hframe|exact Hlines].
Defined.

Lemma rename_and_row_selection_leave_the_input_unchanged_witness :
  let w := mkWorld home [land_use] ∅ [] in
  heap (cell_rename calm 0 w).2 !! 0 = Some land_use ∧
  heap (cell_water_bodies calm 0 w).2 !! 0 = Some land_use ∧
  (cell_water_bodies calm 0 w).1 = Ok 1.
Proof.
  intros w.
  destruct (rename_and_row_selection_leave_the_input_unchanged calm w 0 land_use)
    as ((_ & Hren & _) & _ & (_ & Hsel & Hnew)); [reflexivity|].
  split; [exact Hren|]. split; [exact Hsel|].
  by destruct (Hnew (λ _, eq_refl)
                 ((λ r, (r.1, value "ID_CLASS" r.2)) <$> rows land_use) eq_refl).
Defined.


Lemma both_ways_to_the_data_directory_agree_witness :
  let w := fresh_kernel home ∅ in
  (cell_data_directory_alt calm w).1 = (cell_data_directory calm w).1 ∧
  file_dir home = "/home/student/GSP_L2".
Proof.
  intros w.
  destruct (both_ways_to_the_data_directory_agree calm w w
              (cell_data_directory calm w).2 (cell_data_directory_alt calm w).2
              (Path "/home/student/GSP_L2/data") (Path "/home/student/GSP_L2/data"))
    as (_ & _ & Hf & _); try (vm_compute; reflexivity).
  split; [vm_compute; reflexivity|]. etransitivity; [exact Hf|reflexivity].
Defined.


Lemma the_fifth_row_must_exist_witness :
  (cell_at calm 0 (mkWorld home [regions] ∅ [])).1 = Raise (KeyError "index") ∧
  (cell_at calm 0 (mkWorld home [land_use] ∅ [])).1 = Ok (square 7 0 2).
Proof.
  split.
  - destruct (the_fifth_row_must_exist served response decoded
                (mkWorld home [regions] ∅ []) 0 regions) as (_ & Hshort & _).
    + reflexivity.
    + apply (bool_decide_unpack _). by vm_compute.
    + reflexivity.
    + apply Hshort. cbn. lia.
  - destruct (the_fifth_row_must_exist served response decoded
                (mkWorld home [land_use] ∅ []) 0 land_use) as (_ & _ & Hfifth).
    + reflexivity.
    + apply (bool_decide_unpack _). by vm_compute.
    + reflexivity.
    + etransitivity; [apply Hfifth; reflexivity|reflexivity].
Defined.

Lemma a_missing_geometry_separates_the_two_loops_witness :
  let w := mkWorld home [land_use] ∅ [] in
  let item := (5%Z, [("ID_CLASS", Int 601); ("CLASS_NAME", Str "Åker"); ("geometry", NaN)]) in
  (print_row_area calm item w).1 = Raise (AttributeError "area") ∧
  (print_frame_area calm 0 item w).1 = Ok tt.
Proof.
  intros w item.
  destruct (a_missing_geometry_separates_the_two_loops served response decoded w 0 land_use
              item.1 item.2) as (Hrow & _ & Hframe & _).
  - reflexivity.
  - apply (bool_decide_unpack _). by vm_compute.
  - apply (bool_decide_unpack _). by vm_compute.
  - apply (bool_decide_unpack _). by vm_compute.
  - reflexivity.
  - split; [exact Hrow|exact Hframe].
Defined.

Lemma water_bodies_are_the_rows_with_code_901_witness :
  let w := mkWorld home [land_use] ∅ [] in
  ∃ wb, heap ((water_bodies ← cell_water_bodies calm 0;
               cell_save_water_bodies calm (data_directory home) water_bodies) w).2
        = [land_use; wb] ∧
        index wb = [0%Z; 2%Z].
Proof.
  intros w.
  pose proof (water_bodies_are_the_rows_with_code_901 served response decoded w
                (data_directory home) 0 land_use eq_refl) as Hw.
  cbv zeta in Hw. rewrite decide_True in Hw by (apply (bool_decide_unpack _); by vm_compute).
  destruct Hw as (wb & _ & _ & Hheap & _ & _ & Hrows).
  exists wb. split; [exact Hheap|]. unfold index. rewrite Hrows. reflexivity.
Defined.

Lemma unique_lists_the_classes_in_order_of_appearance_witness :
  (cell_unique calm 0 (mkWorld home [land_use] ∅ [])).1
  = Ok [Str "Vattenyta"; Str "Skog"; NaN; Str "Åker"].
Proof.
  pose proof (unique_lists_the_classes_in_order_of_appearance served response decoded
                (mkWorld home [land_use] ∅ []) 0 land_use eq_refl) as Hu.
  cbv zeta in Hu. destruct Hu as (Hr & _).
  rewrite decide_True in Hr by (apply (bool_decide_unpack _); by vm_compute).
  etransitivity; [exact Hr|reflexivity].
Defined.

Lemma the_area_column_is_set_in_place_witness :
  let w := mkWorld home [land_use] ∅ [] in
  ∃ df', heap (cell_area_column calm 0 w).2 = [df'] ∧
         columns df' = ["ID_CLASS"; "CLASS_NAME"; "geometry"; "area"] ∧
         heap (cell_area_column calm 0 (cell_area_column calm 0 w).2).2 = [df'].
Proof.
  intros w.
  destruct (the_area_column_is_set_in_place served response decoded w 0 land_use)
    as (df' & _ & Hheap & Hcols & _ & _ & _ & Hagain).
  - reflexivity.
  - apply (bool_decide_unpack _). by vm_compute.
  - exists df'. split; [exact Hheap|]. split.
    + rewrite Hcols. reflexivity.
    + etransitivity; [exact Hagain|exact Hheap].
Defined.

Lemma the_swap_is_all_or_nothing_witness :
  (cell_swap calm 0 (mkWorld home [pumps] ∅ [])).1 = Ok tt ∧
  heap (cell_swap calm 0 (mkWorld home [regions] ∅ [])).2 = [regions].
Proof.
  split.
  - destruct (the_swap_is_all_or_nothing served response decoded
                (mkWorld home [pumps] ∅ []) 0 pumps) as [Hall _].
    + reflexivity.
    + apply (bool_decide_unpack _). by vm_compute.
    + apply Hall. repeat constructor; eexists _, _, _; reflexivity.
  - destruct (the_swap_is_all_or_nothing served response decoded
                (mkWorld home [regions] ∅ []) 0 regions) as [_ Hnone].
    + reflexivity.
    + apply (bool_decide_unpack _). by vm_compute.
    + apply Hnone. intros [(x & y & z & Hx) _]%Forall_cons. vm_compute in Hx. discriminate Hx.
Defined.

Lemma the_wfs_cell_end_to_end_witness :
  ∃ out, (cell_wfs calm (data_directory home) (fresh_kernel home ∅)).1 = Ok tt ∧
         (rows out).*2
         = [[("id", Int 1); ("geometry", Geom (Point 150000%Z 6580000%Z None))];
            [("id", Int 2); ("geometry", Geom (Point 151000%Z 6581000%Z (Some 12%Z)))]].
Proof.
  destruct (the_wfs_cell_end_to_end served response decoded (fresh_kernel home ∅)
              (data_directory home) pumps "EPSG:3011")
    as (w' & out & Hrun & _ & _ & _ & _ & _ & Hrows).
  - reflexivity.
  - reflexivity.
  - reflexivity.
  - apply (bool_decide_unpack _). by vm_compute.
  - repeat constructor; eexists _, _, _; reflexivity.
  - change (wrong_fid pumps) with false in Hrun. cbv iota in Hrun. destruct Hrun as [Hrun _].
    exists out. split.
    + change calm with (quiet served response decoded). by rewrite Hrun.
    + rewrite Hrows. reflexivity.
Defined.

Lemma what_the_geopandas_notebook_needs_witness :
  5 ≤ length (rows Landusepolygon) ∧
  Exists (λ r, value "KATEGORI" r.2 = Str "Vattenyta") (rows Landusepolygon).
Proof.
  destruct (what_the_geopandas_notebook_needs served response decoded home
              (files Landusepolygon) Landusepolygon
              (geopandas_notebook calm (fresh_kernel home (files Landusepolygon))).2)
    as (_ & _ & _ & Hfive & _ & Hclass).
  - vm_compute; reflexivity.
  - etransitivity; [apply surjective_pairing|].
    apply (f_equal (λ r, (r, _))). vm_compute; reflexivity.
  - split; [exact Hfive|exact Hclass].
Defined.

Lemma what_the_geopandas_notebook_leaves_witness :
  let w' := (geopandas_notebook calm (fresh_kernel home (files Landusepolygon))).2 in
  disk w' !! (data_directory home / "Landusepolygon.shp")%path
  = Some (VectorFile Landusepolygon) ∧
  ∃ land, heap w' !! 2 = Some land.
Proof.
  intros w'.
  destruct (what_the_geopandas_notebook_leaves served response decoded home
              (files Landusepolygon) Landusepolygon w')
    as (layer & land & wb & _ & _ & _ & Hland & _ & _ & Hinput & _).
  - reflexivity.
  - vm_compute; reflexivity.
  - apply (bool_decide_unpack _). by vm_compute.
  - etransitivity; [apply surjective_pairing|].
    apply (f_equal (λ r, (r, _))). vm_compute; reflexivity.
  - split; [exact Hinput|]. by exists land.
Defined.

Lemma what_the_vector_io_notebook_leaves_witness :
  let w' := (vector_io_notebook steady (fresh_kernel home (files lakes))).2 in
  disk w' !! (home / "nuts_1.gpkg")%path
  = Some (VectorFile (rename (reset_index nuts) [("FID", "FID1")])).
Proof.
  intros w'.
  destruct (what_the_vector_io_notebook_leaves mirror response decoded home (files lakes) w')
    as (layer & Hlayer & _ & _ & _ & Hgpkg & _).
  - reflexivity.
  - etransitivity; [apply surjective_pairing|].
    apply (f_equal (λ r, (r, _))). vm_compute; reflexivity.
  - injection Hlayer as <-. exact Hgpkg.
Defined.

(** the layer as the real server delivers it, with text in FID: the
    first write fails, the write after the renaming succeeds *)
Lemma renaming_FID_lets_the_layer_be_written_witness :
  let w := mkWorld home [regions] ∅ [] in
  (cell_write_gpkg calm 0 w).1 = Raise SchemaError ∧
  ((gdf ← cell_rename_fid calm 0; cell_write_gpkg calm gdf) (cell_write_gpkg calm 0 w).2).1
  = Ok tt.
Proof.
  intros w.
  destruct (renaming_FID_lets_the_layer_be_written served response decoded w 0 regions
              (0%Z, [("FID", Str "SE"); ("geometry", square 0 0 4)]) "SE")
    as (Hfirst & _ & _ & Hsecond & _).
  - reflexivity.
  - apply (bool_decide_unpack _). by vm_compute.
  - apply (bool_decide_unpack _). by vm_compute.
  - reflexivity.
  - repeat constructor; intros Hf; first [reflexivity | discriminate Hf].
  - split; [exact Hfirst|exact Hsecond].
Defined.

Lemma what_the_crs_notebook_shows_witness :
  let w' := (crs_notebook calm (fresh_kernel home ∅)).2 in
  printed (trace w')
  = ["CRS as a proj4 string: +init=EPSG:3035" +:+ newline;
     "CRS in WKT format: PROJCRS[EPSG:3035]" +:+ newline;
     "EPSG code of the CRS: 3035" +:+ newline] ∧
  disk w' = ∅.
Proof.
  intros w'.
  destruct (what_the_crs_notebook_shows served response decoded home ∅ w')
    as (nuts & c0 & c & p & reprojected & Hnuts & Hc0 & _ & Hp & _ & _ & _ & _ & Hprinted & Hdisk).
  - etransitivity; [apply surjective_pairing|].
    apply (f_equal (λ r, (r, _))). vm_compute; reflexivity.
  - injection Hnuts as <-. injection Hc0 as <-. injection Hp as <-.
    split; [exact Hprinted|exact Hdisk].
Defined.

Lemma to_crs_makes_a_new_frame_witness :
  (cell_to_crs calm 0 (mkWorld home [regions] ∅ [])).1 = Ok 1 ∧
  (cell_to_crs calm 0 (mkWorld home [pumps] ∅ [])).1 = Raise ValueError.
Proof.
  split.
  - destruct (to_crs_makes_a_new_frame served response decoded
                (mkWorld home [regions] ∅ []) 0 regions "EPSG:4326" eq_refl eq_refl)
      as (_ & df' & Hok & _).
    exact Hok.
  - destruct (to_crs_makes_a_new_frame served response decoded
                (mkWorld home [pumps] ∅ []) 0 pumps "EPSG:4326" eq_refl eq_refl)
      as (_ & Hraise & _).
    exact Hraise.
Defined.

Lemma every_class_name_gets_its_own_file_witness :
  let w := mkWorld home [land_use] ∅ [] in
  ∃ w' group,
    cell_fan_out calm (data_directory home) 0 w = (Ok tt, w') ∧
    disk w' !! Path "/home/student/GSP_L2/data/LU_Skog.shp" = Some (VectorFile group) ∧
    index group = [1%Z; 4%Z].
Proof.
  intros w.
  destruct (every_class_name_gets_its_own_file served response decoded w (data_directory home)
              0 land_use) as (w' & Hrun & Hfiles).
  - reflexivity.
  - apply (bool_decide_unpack _). by vm_compute.
  - repeat (constructor; [first [by left | right; eexists; split; reflexivity]|]).
    constructor.
  - destruct (Hfiles "Skog") as (_ & _ & group & Hdisk & _ & Hrows).
    { apply Exists_cons_tl, Exists_cons_hd. reflexivity. }
    exists w', group. split; [exact Hrun|]. split; [exact Hdisk|].
    unfold index. rewrite Hrows. reflexivity.
Defined.

Lemma a_refused_crs_leaves_the_download_witness :
  let E := quiet served response (λ _, Ok regions) in
  let rw := cell_wfs E (data_directory home) (fresh_kernel home ∅) in
  rw.1 = Raise ValueError ∧ heap rw.2 = [reset_index regions].
Proof.
  intros E rw.
  destruct (a_refused_crs_leaves_the_download served response (λ _, Ok regions)
              (fresh_kernel home ∅) (data_directory home) regions "EPSG:3035" "EPSG:3011")
    as (Hraise & Hheap & _); try reflexivity.
  split; [exact Hraise|exact Hheap].
Defined.


Lemma what_the_paths_notebook_shows_witness :
  let w' := (paths_notebook calm (fresh_kernel home (files land_use))).2 in
  printed (trace w') = ["/home/student/GSP_L2/data"] ∧
  disk w' = files land_use.
Proof.
  intros w'.
  destruct (what_the_paths_notebook_shows served response decoded home (files land_use) w')
    as (Hprinted & _ & _ & Hdisk).
  - reflexivity.
  - etransitivity; [apply surjective_pairing|].
    apply (f_equal (λ r, (r, _))). vm_compute; reflexivity.
  - split; [exact Hprinted|exact Hdisk].
Defined.


End on_sample.
